(** * rag-engine: incremental ingestion and conversational query engine

    A shallow embedding of [config.py], [ingest.py], [rag_chain.py] and the
    source list of [ui.py]. Python dictionaries are finite maps ([gmap]),
    exceptions are an explicit outcome type, and everything an ingestion
    run reads from outside the process (the file system, the PDF loader,
    the text splitter, the embedding and vector-store providers) is
    gathered in a [World] record so that the functions stay executable.

    [ingest.py] is embedded twice. [Ingest] is the run on a console that
    accepts every line and a disk that takes every write, with the manifest
    as a dictionary of entries. [IngestIO] is the run with standard output,
    the text of the manifest file and the value [json.load] returns as the
    code has them. Theorem [run_agrees] shows that the two coincide where
    [Ingest] applies. *)

From Stdlib Require Import String Ascii ZArith QArith List Lia Bool.
From Stdlib Require Import DecimalString.
From stdpp Require Import base option list gmap strings fin_maps.

Local Open Scope string_scope.
Local Open Scope Z_scope.

(** ** Python exceptions and outcomes *)

(** Only subclasses of [Exception] are modelled: they are what
    [except Exception] catches. [exc_str] is what [str(e)] returns. *)
Record PyException := mkExc { exc_class : string; exc_str : string }.

Inductive Outcome (A : Type) : Type :=
| Returned (a : A)
| Raised (e : PyException).
Arguments Returned {A} a.
Arguments Raised {A} e.

(** A computation over a mutable state [S] that may raise. The state
    reached when the exception is raised is kept, as for objects mutated in
    place before a Python statement fails. *)
Definition SE (S A : Type) : Type := S -> Outcome A * S.

Definition ret {S A} (a : A) : SE S A := fun s => (Returned a, s).

Definition bind {S A B} (c : SE S A) (k : A -> SE S B) : SE S B :=
  fun s => match c s with
           | (Returned a, s') => k a s'
           | (Raised e, s') => (Raised e, s')
           end.

Definition raise {S A} (e : PyException) : SE S A := fun s => (Raised e, s).

Definition lift {S A} (o : Outcome A) : SE S A := fun s => (o, s).

Definition gets {S A} (f : S -> A) : SE S A := fun s => (Returned (f s), s).

Definition modify {S} (f : S -> S) : SE S unit := fun s => (Returned tt, f s).

(** [try: c  except Exception as e: h e] *)
Definition try_except {S A} (c : SE S A) (h : PyException -> SE S A) : SE S A :=
  fun s => match c s with
           | (Returned a, s') => (Returned a, s')
           | (Raised e, s') => h e s'
           end.

Declare Scope se_scope.
Delimit Scope se_scope with se.
Notation "x <- c ;; k" := (bind c (fun x => k))
  (at level 100, c at next level, right associativity) : se_scope.
Notation "c ;;; k" := (bind c (fun _ => k))
  (at level 100, right associativity) : se_scope.

(** [for x in xs: body x] *)
Fixpoint for_each {S A} (body : A -> SE S unit) (xs : list A) : SE S unit :=
  match xs with
  | [] => ret tt
  | x :: xs' => (body x;;; for_each body xs')%se
  end.

(** [[f x for x in xs]] where [f] may raise *)
Fixpoint map_se {S A B} (f : A -> SE S B) (xs : list A) : SE S (list B) :=
  match xs with
  | [] => ret []
  | x :: xs' => (y <- f x;; ys <- map_se f xs';; ret (y :: ys))%se
  end.

(** Sequencing of two steps that may raise, without state. *)
Definition and_then {A B} (o : Outcome A) (k : A -> Outcome B) : Outcome B :=
  match o with
  | Returned a => k a
  | Raised e => Raised e
  end.

(** ** String helpers *)

Definition nl : string := String "010"%char EmptyString.

(** [s.endswith(suffix)] *)
Definition endswith (s suffix : string) : bool :=
  let n := String.length s in
  let k := String.length suffix in
  (k <=? n)%nat && String.eqb (substring (n - k) k s) suffix.

(** [s.startswith(p)] *)
Definition startswith (s p : string) : bool := String.prefix p s.

(** [os.path.join(a, p)] on a POSIX system, two arguments *)
Definition path_join (a p : string) : string :=
  if startswith p "/" then p
  else if String.eqb a "" || endswith a "/" then a ++ p
  else a ++ "/" ++ p.

(** [c.lower()] on one character: only [A]-[Z] change. *)
Definition ascii_lower (c : ascii) : ascii :=
  let n := nat_of_ascii c in
  if ((65 <=? n) && (n <=? 90))%nat then ascii_of_nat (n + 32) else c.

(** [s.lower()], with characters as bytes: only [A]-[Z] change, which is
    all that matters when the result is compared with an ASCII literal. *)
Fixpoint lower (s : string) : string :=
  match s with
  | EmptyString => EmptyString
  | String c rest => String (ascii_lower c) (lower rest)
  end.

(** ** config.py *)

Module Config.

Record RAGConfig := {
  collection_name : string;
  llm_model : string;
  llm_temperature : Q;
  max_tokens : Z;
  retrieval_k : Z;
  retrieval_fetch_k : Z;
  search_type : string;
  chunk_size : Z;
  chunk_overlap : Z;
  large_doc_chunk_size : Z;
  large_doc_chunk_overlap : Z;
  large_doc_threshold : Z;
  memory_max_tokens : Z;
  conversation_summary_enabled : bool;
  supported_extensions : option (list string);
  force_reprocess : bool;
  show_sources : bool;
  max_sources_display : Z;
  source_preview_length : Z;
  use_compression : bool;
  track_costs : bool;
  enable_logging : bool
}.

(** The dataclass field defaults; [supported_extensions] defaults to [None]. *)
Definition field_defaults : RAGConfig := {|
  collection_name := "my_documents";
  llm_model := "gpt-3.5-turbo";
  llm_temperature := 1 # 10;
  max_tokens := 1000;
  retrieval_k := 6;
  retrieval_fetch_k := 20;
  search_type := "mmr";
  chunk_size := 800;
  chunk_overlap := 100;
  large_doc_chunk_size := 1200;
  large_doc_chunk_overlap := 150;
  large_doc_threshold := 5000;
  memory_max_tokens := 800;
  conversation_summary_enabled := true;
  supported_extensions := None;
  force_reprocess := false;
  show_sources := true;
  max_sources_display := 3;
  source_preview_length := 200;
  use_compression := true;
  track_costs := true;
  enable_logging := true
|}.

Definition with_extensions (c : RAGConfig) (exts : list string) : RAGConfig := {|
  collection_name := collection_name c;
  llm_model := llm_model c;
  llm_temperature := llm_temperature c;
  max_tokens := max_tokens c;
  retrieval_k := retrieval_k c;
  retrieval_fetch_k := retrieval_fetch_k c;
  search_type := search_type c;
  chunk_size := chunk_size c;
  chunk_overlap := chunk_overlap c;
  large_doc_chunk_size := large_doc_chunk_size c;
  large_doc_chunk_overlap := large_doc_chunk_overlap c;
  large_doc_threshold := large_doc_threshold c;
  memory_max_tokens := memory_max_tokens c;
  conversation_summary_enabled := conversation_summary_enabled c;
  supported_extensions := Some exts;
  force_reprocess := force_reprocess c;
  show_sources := show_sources c;
  max_sources_display := max_sources_display c;
  source_preview_length := source_preview_length c;
  use_compression := use_compression c;
  track_costs := track_costs c;
  enable_logging := enable_logging c
|}.

(** [RAGConfig.__post_init__] *)
Definition post_init (c : RAGConfig) : RAGConfig :=
  match supported_extensions c with
  | None => with_extensions c [".pdf"; ".txt"; ".md"; ".docx"]
  | Some _ => c
  end.

(** [default_config = RAGConfig()] *)
Definition default_config : RAGConfig := post_init field_defaults.

(** Values of the dictionary [to_dict] returns. *)
Inductive ConfigVal :=
| CStr (s : string)
| CInt (n : Z)
| CFloat (q : Q)
| CBool (b : bool)
| CList (l : list string)
| CNone.

Definition extensions_value (exts : option (list string)) : ConfigVal :=
  match exts with
  | Some l => CList l
  | None => CNone
  end.

(** [RAGConfig.to_dict]. The entry ['show_sources'] is the literal [True]. *)
Definition to_dict (c : RAGConfig) : gmap string ConfigVal :=
  fold_left (fun m kv => <[kv.1 := kv.2]> m)
    [("collection_name", CStr (collection_name c));
     ("llm_model", CStr (llm_model c));
     ("llm_temperature", CFloat (llm_temperature c));
     ("max_tokens", CInt (max_tokens c));
     ("retrieval_k", CInt (retrieval_k c));
     ("retrieval_fetch_k", CInt (retrieval_fetch_k c));
     ("search_type", CStr (search_type c));
     ("chunk_size", CInt (chunk_size c));
     ("chunk_overlap", CInt (chunk_overlap c));
     ("large_doc_chunk_size", CInt (large_doc_chunk_size c));
     ("large_doc_chunk_overlap", CInt (large_doc_chunk_overlap c));
     ("large_doc_threshold", CInt (large_doc_threshold c));
     ("memory_max_tokens", CInt (memory_max_tokens c));
     ("conversation_summary_enabled", CBool (conversation_summary_enabled c));
     ("supported_extensions", extensions_value (supported_extensions c));
     ("force_reprocess", CBool (force_reprocess c));
     ("show_sources", CBool true);
     ("max_sources_display", CInt (max_sources_display c));
     ("source_preview_length", CInt (source_preview_length c));
     ("use_compression", CBool (use_compression c));
     ("track_costs", CBool (track_costs c));
     ("enable_logging", CBool (enable_logging c))]
    ∅.

(** The configuration with its [show_sources] field replaced. *)
Definition with_show_sources (b : bool) (c : RAGConfig) : RAGConfig := {|
  collection_name := collection_name c;
  llm_model := llm_model c;
  llm_temperature := llm_temperature c;
  max_tokens := max_tokens c;
  retrieval_k := retrieval_k c;
  retrieval_fetch_k := retrieval_fetch_k c;
  search_type := search_type c;
  chunk_size := chunk_size c;
  chunk_overlap := chunk_overlap c;
  large_doc_chunk_size := large_doc_chunk_size c;
  large_doc_chunk_overlap := large_doc_chunk_overlap c;
  large_doc_threshold := large_doc_threshold c;
  memory_max_tokens := memory_max_tokens c;
  conversation_summary_enabled := conversation_summary_enabled c;
  supported_extensions := supported_extensions c;
  force_reprocess := force_reprocess c;
  show_sources := b;
  max_sources_display := max_sources_display c;
  source_preview_length := source_preview_length c;
  use_compression := use_compression c;
  track_costs := track_costs c;
  enable_logging := enable_logging c
|}.

(** The variables [from_env] reads. *)
Definition env_variables : list string :=
  ["RAG_COLLECTION_NAME"; "RAG_LLM_MODEL"; "RAG_TEMPERATURE"; "RAG_MAX_TOKENS";
   "RAG_RETRIEVAL_K"; "RAG_CHUNK_SIZE"; "RAG_CHUNK_OVERLAP"; "RAG_MEMORY_MAX_TOKENS";
   "RAG_USE_COMPRESSION"; "RAG_TRACK_COSTS"].

Section FromEnv.

(** The built-ins [int(text)] and [float(text)]; each raises [ValueError]
    on text it does not accept. *)
Variable py_int : string -> Outcome Z.
Variable py_float : string -> Outcome Q.

(** [os.environ] *)
Variable environ : gmap string string.

(** [os.getenv(key, default)] *)
Definition getenv (key default : string) : string :=
  match environ !! key with
  | Some value => value
  | None => default
  end.

(** [os.getenv(key, "true").lower() == "true"] *)
Definition getenv_flag (key : string) : bool :=
  String.eqb (lower (getenv key "true")) "true".

(** [RAGConfig.from_env]: the keyword arguments are evaluated in the order
    written, the other fields keep their defaults, and the dataclass
    constructor ends with [__post_init__]. *)
Definition from_env : Outcome RAGConfig :=
  let collection := getenv "RAG_COLLECTION_NAME" "my_documents" in
  let model := getenv "RAG_LLM_MODEL" "gpt-3.5-turbo" in
  and_then (py_float (getenv "RAG_TEMPERATURE" "0.1")) (fun temperature =>
  and_then (py_int (getenv "RAG_MAX_TOKENS" "1000")) (fun tokens =>
  and_then (py_int (getenv "RAG_RETRIEVAL_K" "6")) (fun k =>
  and_then (py_int (getenv "RAG_CHUNK_SIZE" "800")) (fun size =>
  and_then (py_int (getenv "RAG_CHUNK_OVERLAP" "100")) (fun overlap =>
  and_then (py_int (getenv "RAG_MEMORY_MAX_TOKENS" "800")) (fun memory =>
  let compression := getenv_flag "RAG_USE_COMPRESSION" in
  let costs := getenv_flag "RAG_TRACK_COSTS" in
  Returned (post_init {|
    collection_name := collection;
    llm_model := model;
    llm_temperature := temperature;
    max_tokens := tokens;
    retrieval_k := k;
    retrieval_fetch_k := retrieval_fetch_k field_defaults;
    search_type := search_type field_defaults;
    chunk_size := size;
    chunk_overlap := overlap;
    large_doc_chunk_size := large_doc_chunk_size field_defaults;
    large_doc_chunk_overlap := large_doc_chunk_overlap field_defaults;
    large_doc_threshold := large_doc_threshold field_defaults;
    memory_max_tokens := memory;
    conversation_summary_enabled := conversation_summary_enabled field_defaults;
    supported_extensions := supported_extensions field_defaults;
    force_reprocess := force_reprocess field_defaults;
    show_sources := show_sources field_defaults;
    max_sources_display := max_sources_display field_defaults;
    source_preview_length := source_preview_length field_defaults;
    use_compression := compression;
    track_costs := costs;
    enable_logging := enable_logging field_defaults
  |}))))))).

End FromEnv.

End Config.

(** ** Documents *)

(** Values stored in a metadata dictionary. *)
Inductive MetaVal :=
| MStr (s : string)
| MInt (n : Z).

(** [langchain.schema.Document]: text plus a metadata dictionary. Characters
    are modelled as [ascii], so [len(page_content)] is [String.length]. *)
Record Document := mkDoc {
  page_content : string;
  metadata : gmap string MetaVal
}.

(** [d.update(kvs)]: later pairs win, as in Python. *)
Definition dict_update {V} (d : gmap string V) (kvs : list (string * V)) : gmap string V :=
  fold_left (fun m kv => <[kv.1 := kv.2]> m) kvs d.

Definition metadata_update (doc : Document) (kvs : list (string * MetaVal)) : Document :=
  mkDoc (page_content doc) (dict_update (metadata doc) kvs).

(** Constructor arguments of a [RecursiveCharacterTextSplitter]. *)
Record Splitter := mkSplitter {
  sp_chunk_size : Z;
  sp_chunk_overlap : Z;
  sp_separators : list string
}.

(** The [splitters] dictionary of [enhanced_text_splitting]. *)
Definition splitters_default : Splitter :=
  mkSplitter 800 100 [nl ++ nl; nl; "."; " "; ""].

Definition splitters_large : Splitter :=
  mkSplitter 1200 150 [nl ++ nl; nl; "."; " "; ""].

(** [splitters['large'] if doc_length > 5000 else splitters['default']] *)
Definition choose_splitter (doc : Document) : Splitter :=
  let doc_length := Z.of_nat (String.length (page_content doc)) in
  if 5000 <? doc_length then splitters_large else splitters_default.

(** [enumerate(xs)] *)
Fixpoint enumerate_from {A} (i : nat) (xs : list A) : list (nat * A) :=
  match xs with
  | [] => []
  | x :: xs' => (i, x) :: enumerate_from (S i) xs'
  end.

Definition enumerate {A} (xs : list A) : list (nat * A) := enumerate_from 0 xs.

(** ** The outside world of an ingestion run *)

(** One stored vector of the Qdrant collection with its payload. Embedding
    components are kept as integers; nothing below depends on their
    values. *)
Record Point := mkPoint {
  pt_id : nat;
  pt_vector : list Z;
  pt_payload : Document
}.

(** An entry of [processed_files.json]. A field that the JSON object lacks
    is [None], which is what [entry.get(field)] returns. *)
Record LogEntry := mkEntry {
  entry_hash : option string;
  entry_processed_date : option string;
  entry_chunks_count : option nat
}.

(** What [processed_files.json] holds in [Ingest]: no file, a file that
    cannot be read ([open] or [json.load] raises the given exception), or a
    JSON object of entries, which is what the program itself writes. Any
    other text is covered by [IngestIO]. *)
Inductive ManifestFile :=
| NoFile
| Corrupt (e : PyException)
| Valid (log : gmap string LogEntry).

(** The persistent state an ingestion run acts on. *)
Record Sys := mkSys {
  manifest_file : ManifestFile;
  qdrant : gmap string (list Point)
}.

(** Everything a run only reads: the folder and its files, the libraries
    that load and split text, the clock, and whether a remote call fails. *)
Record World := mkWorld {
  (** [(root, file)] for [root, dirs, files in os.walk(folder)], [file in files] *)
  walk : string -> list (string * string);
  (** [os.path.relpath(path, start)] *)
  relpath : string -> string -> string;
  (** [open(path, 'rb').read()] *)
  open_rb : string -> Outcome string;
  (** [hashlib.md5(data).hexdigest()] *)
  md5_hexdigest : string -> string;
  (** [os.path.getsize(path)] *)
  getsize : string -> Outcome Z;
  (** [PyPDFLoader(path).load()] *)
  pdf_load : string -> Outcome (list Document);
  (** [RecursiveCharacterTextSplitter(...).split_text(text)] *)
  split_text : Splitter -> string -> list string;
  (** [datetime.now().isoformat()] *)
  now_isoformat : string;
  (** [OpenAIEmbeddings().embed_documents] on one text *)
  embed : string -> list Z;
  (** failure of [client.get_collections()] / [client.create_collection] *)
  client_failure : option PyException;
  (** failure of embedding or upserting the batch in [Qdrant.from_documents] *)
  provider_failure : list Document -> option PyException;
  (** failure of [open(processed_files_log, 'w')] *)
  write_failure : option PyException
}.

(** ** ingest.py *)

Module Ingest.

(** The [stats] dictionary. *)
Record Stats := mkStats {
  total_files : nat;
  new_files : nat;
  updated_files : nat;
  skipped_files : nat;
  total_chunks : nat;
  processing_errors : list string
}.

Definition stats_init : Stats := mkStats 0 0 0 0 0 [].

(** The local variables the per-file loop mutates. *)
Record Run := mkRun {
  processed_log : gmap string LogEntry;
  all_chunks : list Document;
  stats : Stats
}.

Definition set_total_files (n : nat) (s : Stats) : Stats :=
  mkStats n (new_files s) (updated_files s) (skipped_files s) (total_chunks s)
          (processing_errors s).

Definition incr_new (s : Stats) : Stats :=
  mkStats (total_files s) (S (new_files s)) (updated_files s) (skipped_files s)
          (total_chunks s) (processing_errors s).

Definition incr_updated (s : Stats) : Stats :=
  mkStats (total_files s) (new_files s) (S (updated_files s)) (skipped_files s)
          (total_chunks s) (processing_errors s).

Definition incr_skipped (s : Stats) : Stats :=
  mkStats (total_files s) (new_files s) (updated_files s) (S (skipped_files s))
          (total_chunks s) (processing_errors s).

Definition set_total_chunks (n : nat) (s : Stats) : Stats :=
  mkStats (total_files s) (new_files s) (updated_files s) (skipped_files s) n
          (processing_errors s).

(** [stats['processing_errors'].append(msg)] *)
Definition append_error (msg : string) (s : Stats) : Stats :=
  mkStats (total_files s) (new_files s) (updated_files s) (skipped_files s)
          (total_chunks s) (processing_errors s ++ [msg])%list.

Definition on_stats (f : Stats -> Stats) (r : Run) : Run :=
  mkRun (processed_log r) (all_chunks r) (f (stats r)).

(** [doc.metadata.update({'source_file': ..., 'file_hash': ..., 'file_size': ...})] *)
Definition file_metadata (file_key file_hash : string) (size : Z) (doc : Document)
  : Document :=
  metadata_update doc
    [("source_file", MStr file_key);
     ("file_hash", MStr file_hash);
     ("file_size", MInt size)].

(** The outcome of the change check made for each candidate file. *)
Inductive Decision := Skip | New | Reprocess.

Section WithWorld.

Variable w : World.
Variable collection_name : string.

(** [load_processed_files_log]: [{}] when the file does not exist, else
    whatever [json.load] does. *)
Definition load_processed_files_log : SE Sys (gmap string LogEntry) :=
  fun s => match manifest_file s with
           | NoFile => (Returned ∅, s)
           | Corrupt e => (Raised e, s)
           | Valid log => (Returned log, s)
           end.

(** [save_processed_files_log] on a disk that takes every write: the file
    cannot be opened, or it holds the log afterwards. A write that fails on
    the way is covered by [IngestIO.save_processed_files_log]. *)
Definition save_processed_files_log (log : gmap string LogEntry) : SE Sys unit :=
  fun s => match write_failure w with
           | Some e => (Raised e, s)
           | None => (Returned tt, mkSys (Valid log) (qdrant s))
           end.

(** [get_file_hash] *)
Definition get_file_hash (file_path : string) : Outcome string :=
  match open_rb w file_path with
  | Returned data => Returned (md5_hexdigest w data)
  | Raised e => Raised e
  end.

(** [create_collection_if_not_exists]: any client error is printed and
    swallowed. *)
Definition create_collection_if_not_exists : SE Sys unit :=
  fun s => match client_failure w with
           | Some _ => (Returned tt, s)
           | None =>
               match qdrant s !! collection_name with
               | Some _ => (Returned tt, s)
               | None => (Returned tt,
                          mkSys (manifest_file s) (<[collection_name := []]> (qdrant s)))
               end
           end.

(** [splitter.split_documents([doc])]: one chunk per piece of text, each
    with a copy of the document's metadata. *)
Definition split_documents (sp : Splitter) (doc : Document) : list Document :=
  map (fun t => mkDoc t (metadata doc)) (split_text w sp (page_content doc)).

(** The metadata stamped on the chunks of one document. *)
Definition stamp_chunks (chunks : list Document) : list Document :=
  map (fun ic : nat * Document =>
         metadata_update ic.2
           [("chunk_index", MInt (Z.of_nat ic.1));
            ("total_chunks", MInt (Z.of_nat (length chunks)));
            ("chunk_size", MInt (Z.of_nat (String.length (page_content ic.2))));
            ("ingestion_date", MStr (now_isoformat w))])
      (enumerate chunks).

(** [enhanced_text_splitting] *)
Definition enhanced_text_splitting (documents : list Document) : list Document :=
  flat_map (fun doc => stamp_chunks (split_documents (choose_splitter doc) doc))
           documents.

(** A point id no stored point has: [from_documents] is called without ids,
    so the store draws a new one for every text. *)
Definition fresh_id (pts : list Point) : nat := S (list_max (map pt_id pts)).

Fixpoint new_points (next : nat) (docs : list Document) : list Point :=
  match docs with
  | [] => []
  | d :: ds => mkPoint next (embed w (page_content d)) d :: new_points (S next) ds
  end.

(** [Qdrant.from_documents(documents, embedding, collection_name=...)]:
    embeds every chunk and adds one point per chunk to the collection,
    creating the collection when it is missing. A provider failure is
    modelled before any point is written. *)
Definition Qdrant_from_documents (documents : list Document) : SE Sys unit :=
  fun s => match provider_failure w documents with
           | Some e => (Raised e, s)
           | None =>
               let old := default [] (qdrant s !! collection_name) in
               (Returned tt,
                mkSys (manifest_file s)
                      (<[collection_name := (old ++ new_points (fresh_id old) documents)%list]>
                         (qdrant s)))
           end.

Section Run.

Variable folder_path : string.
Variable file_extensions : list string.
Variable force_reprocess : bool.

(** The candidate files: for every extension, every walked file whose name
    ends with it. (The [DirectoryLoader] built next to it is never used.) *)
Definition all_files : list string :=
  flat_map (fun ext =>
              flat_map (fun rf : string * string =>
                          if endswith rf.2 ext then [path_join rf.1 rf.2] else [])
                       (walk w folder_path))
           file_extensions.

(** The change check of the loop body. *)
Definition decide_file (log : gmap string LogEntry) (file_key file_hash : string)
  : Decision :=
  match force_reprocess, log !! file_key with
  | false, Some entry =>
      if decide (entry_hash entry = Some file_hash) then Skip else Reprocess
  | _, _ => New
  end.

Definition error_msg (file_path : string) (e : PyException) : string :=
  "Error processing " ++ file_path ++ ": " ++ exc_str e.

(** The file-level metadata is added to every loaded document; [getsize]
    is evaluated once per document. *)
Definition add_file_metadata (file_path file_key file_hash : string) (doc : Document)
  : SE Run Document :=
  (size <- lift (getsize w file_path);;
   ret (file_metadata file_key file_hash size doc))%se.

(** What the loop does with a PDF: load, stamp, split, accumulate, log. *)
Definition load_pdf (file_path file_key file_hash : string) : SE Run unit :=
  (docs <- lift (pdf_load w file_path);;
   docs' <- map_se (add_file_metadata file_path file_key file_hash) docs;;
   let chunks := enhanced_text_splitting docs' in
   modify (fun r =>
     mkRun (<[file_key := mkEntry (Some file_hash) (Some (now_isoformat w))
                                  (Some (length chunks))]> (processed_log r))
           (all_chunks r ++ chunks)%list
           (stats r)))%se.

(** The body of the [try] inside the loop. *)
Definition process_file (file_path : string) : SE Run unit :=
  (file_hash <- lift (get_file_hash file_path);;
   let file_key := relpath w file_path folder_path in
   log <- gets processed_log;;
   match decide_file log file_key file_hash with
   | Skip => modify (on_stats incr_skipped)
   | d =>
       modify (on_stats (match d with Reprocess => incr_updated | _ => incr_new end));;;
       if endswith file_path ".pdf"
       then load_pdf file_path file_key file_hash
       else ret tt
   end)%se.

(** One loop iteration: the body under [try ... except Exception], on a
    console that accepts every line, so that the [print] calls of the body
    and of the handler are left out. [IngestIO.file_iteration] has them. *)
Definition file_iteration (file_path : string) : SE Run unit :=
  try_except (process_file file_path)
             (fun e => modify (on_stats (append_error (error_msg file_path e)))).

(** One iteration with the exception handling spelled out: the state
    [file_iteration] ends in (lemma [file_iteration_step]). *)
Definition file_step (path : string) (r : Run) : Run :=
  match get_file_hash path with
  | Raised e => on_stats (append_error (error_msg path e)) r
  | Returned h =>
      let k := relpath w path folder_path in
      match decide_file (processed_log r) k h with
      | Skip => on_stats incr_skipped r
      | d =>
          let r1 := on_stats (match d with Reprocess => incr_updated | _ => incr_new end) r in
          if endswith path ".pdf"
          then match load_pdf path k h r1 with
               | (Returned _, r2) => r2
               | (Raised e, r2) => on_stats (append_error (error_msg path e)) r2
               end
          else r1
      end
  end.

(** Whether hashing the file raises, before any change check is made. *)
Definition hash_fails (path : string) : bool :=
  match get_file_hash path with
  | Raised _ => true
  | Returned _ => false
  end.

(** The loop over a list of files, from the local state [r]. *)
Definition run_files (files : list string) (r : Run) : Run :=
  (for_each file_iteration files r).2.

(** The local state when the loop starts. *)
Definition initial_run (log : gmap string LogEntry) : Run :=
  mkRun log [] (set_total_files (length all_files) stats_init).

Definition run_loop (log : gmap string LogEntry) : Run :=
  run_files all_files (initial_run log).

Definition qdrant_error_msg (e : PyException) : string :=
  "Error ingesting into Qdrant: " ++ exc_str e.

(** The final [try]: upsert, count the chunks, save the log. *)
Definition ingest_batch (r : Run) : SE Sys Stats :=
  fun s =>
    match Qdrant_from_documents (all_chunks r) s with
    | (Raised e, s1) => (Returned (append_error (qdrant_error_msg e) (stats r)), s1)
    | (Returned _, s1) =>
        let stats1 := set_total_chunks (length (all_chunks r)) (stats r) in
        match save_processed_files_log (processed_log r) s1 with
        | (Returned _, s2) => (Returned stats1, s2)
        | (Raised e, s2) => (Returned (append_error (qdrant_error_msg e) stats1), s2)
        end
    end.

(** [ingest_documents_with_deduplication] *)
Definition ingest_documents_with_deduplication : SE Sys Stats :=
  (create_collection_if_not_exists;;;
   log <- load_processed_files_log;;
   let r := run_loop log in
   match all_chunks r with
   | [] => ret (stats r)
   | _ :: _ => ingest_batch r
   end)%se.

End Run.
End WithWorld.

(** [ingest_documents_advanced]: the default extension list is [[".pdf"]]. *)
Definition ingest_documents_advanced (w : World) (folder_path collection_name : string)
    (force_reprocess : bool) : SE Sys Stats :=
  ingest_documents_with_deduplication w collection_name folder_path [".pdf"]
                                      force_reprocess.

(** The three counters of the change check, added up. *)
Definition counted (s : Stats) : nat :=
  (new_files s + updated_files s + skipped_files s)%nat.


(** The manifest [log] records the file with the hash it has now. *)
Definition recorded (w : World) (folder_path : string) (log : gmap string LogEntry)
    (path : string) : Prop :=
  exists h e, get_file_hash w path = Returned h /\
              log !! relpath w path folder_path = Some e /\
              entry_hash e = Some h.


(** The points of a collection; an absent collection has none. *)
Definition points_of (collection_name : string) (s : Sys) : list Point :=
  default [] (qdrant s !! collection_name).

End Ingest.

(** ** Conversation memory *)

Inductive Role := Human | AI.

(** A [HumanMessage] or an [AIMessage]. *)
Record Message := mkMsg { msg_role : Role; msg_content : string }.

(** [ConversationSummaryBufferMemory]: the verbatim messages
    ([chat_memory.messages]) and the running summary. *)
Record Memory := mkMemory {
  chat_messages : list Message;
  moving_summary_buffer : string
}.

Module ConversationMemory.

Section Budget.

(** Modelled from the spec: the tokenizer count of one message. The
    summary-buffer memory class itself is library code that [rag_chain.py]
    only instantiates (with [max_token_limit=800]); the three parameters of
    this section and the definitions below follow section 4.8. *)
Variable message_tokens : Message -> nat.

(** Modelled from the spec: the text-generation call that extends the
    running summary with the turns being folded. *)
Variable summarize : list Message -> string -> string.

Variable max_token_limit : nat.





(** Modelled from the spec: [clear()]. *)
Definition clear (m : Memory) : Memory := mkMemory [] "".


End Budget.

End ConversationMemory.

(** ** rag_chain.py *)

Module RagChain.

(** Values of the [metadata] dictionary of a query result. The cost is a
    float in the source and a rational here. *)
Inductive QVal :=
| QStr (s : string)
| QInt (n : Z)
| QNum (q : Q).

(** What [self.qa_chain({"question": question})] returns. *)
Record ChainResult := mkChainResult {
  cr_answer : string;
  cr_source_documents : list Document
}.

(** The totals of the [get_openai_callback()] handler after the call. *)
Record Callback := mkCallback {
  cb_total_tokens : Z;
  cb_total_cost : Q
}.

(** The dictionary [query] returns. *)
Record QueryResult := mkQueryResult {
  answer : string;
  source_documents : list Document;
  chat_history : list Message;
  qr_metadata : gmap string QVal
}.

(** The chain built by [setup_components]: retrieval with MMR, contextual
    compression, generation and the memory update all happen inside the one
    call [self.qa_chain(...)]; any of them failing makes that call raise. *)
Record Chain := mkChain {
  qa_chain : string -> SE Memory (ChainResult * Callback);
  timestamp : string
}.


Section Query.

Variable c : Chain.

(** [AdvancedRAGChain.query] *)
Definition query (question : string) : SE Memory QueryResult :=
  try_except
    (rc <- qa_chain c question;;
     messages <- gets chat_messages;;
     ret (mkQueryResult
            (cr_answer rc.1)
            (cr_source_documents rc.1)
            messages
            (dict_update ∅
               [("timestamp", QStr (timestamp c));
                ("tokens_used", QInt (cb_total_tokens rc.2));
                ("cost", QNum (cb_total_cost rc.2));
                ("num_sources",
                 QInt (Z.of_nat (length (cr_source_documents rc.1))))])))%se
    (fun e =>
       ret (mkQueryResult
              ("Sorry, I encountered an error: " ++ exc_str e)
              []
              []
              (dict_update ∅ [("error", QStr (exc_str e))]))).

(** [get_conversation_summary] *)
Definition get_conversation_summary (m : Memory) : string :=
  if String.eqb (moving_summary_buffer m) ""
  then "No conversation history yet."
  else moving_summary_buffer m.

(** [clear_memory] *)
Definition clear_memory : SE Memory unit :=
  modify ConversationMemory.clear.

End Query.

(** The dictionary [get_memory_stats] returns. *)
Record MemoryStats := mkMemoryStats {
  total_messages : nat;
  human_messages : nat;
  ai_messages : nat;
  has_summary : bool
}.

Definition is_human (m : Message) : bool :=
  match msg_role m with Human => true | AI => false end.

Definition is_ai (m : Message) : bool :=
  match msg_role m with AI => true | Human => false end.

(** [get_memory_stats] *)
Definition get_memory_stats (m : Memory) : MemoryStats :=
  let messages := chat_messages m in
  mkMemoryStats
    (length messages)
    (length (List.filter is_human messages))
    (length (List.filter is_ai messages))
    (negb (String.eqb (moving_summary_buffer m) "")).

End RagChain.

(** ** ui.py: the source list under an answer *)

Module Ui.

Definition double_quote : string := String "034"%char EmptyString.

(** [str(n)] for an integer *)
Definition str_int (n : Z) : string := NilZero.string_of_int (Z.to_int n).

(** How an f-string shows a metadata value. *)
Definition str_meta (v : MetaVal) : string :=
  match v with
  | MStr s => s
  | MInt n => str_int n
  end.

Fixpoint has_slash (p : string) : bool :=
  match p with
  | EmptyString => false
  | String c rest => Ascii.eqb c "/"%char || has_slash rest
  end.

(** [os.path.basename(p)] for text: what follows the last ["/"]. *)
Fixpoint basename (p : string) : string :=
  match p with
  | EmptyString => EmptyString
  | String c rest =>
      if has_slash rest then basename rest
      else if Ascii.eqb c "/"%char then rest
      else p
  end.

(** [os.path.basename] on a metadata value: anything but text is refused. *)
Definition os_path_basename (v : MetaVal) : Outcome string :=
  match v with
  | MStr s => Returned (basename s)
  | MInt _ =>
      Raised (mkExc "TypeError" "expected str, bytes or os.PathLike object, not int")
  end.

(** [text[:150] + "..." if len(text) > 150 else text] *)
Definition content_preview (text : string) : string :=
  if (150 <? String.length text)%nat then substring 0 150 text ++ "..." else text.

(** One pass of the loop over the sources: the text added to
    [source_info] for the [i]-th source. *)
Definition source_entry (i : nat) (doc : Document) : Outcome string :=
  let page_info :=
    match metadata doc !! "page" with
    | Some page => " (Page " ++ str_meta page ++ ")"
    | None => ""
    end in
  let source_name := default (MStr "Unknown source") (metadata doc !! "source") in
  and_then (os_path_basename source_name) (fun file_name =>
  Returned ("**" ++ str_int (Z.of_nat i) ++ ". " ++ file_name ++ "**" ++ page_info ++ nl
            ++ "*" ++ double_quote ++ content_preview (page_content doc) ++ double_quote
            ++ "*" ++ nl ++ nl)).

(** [for i, doc in enumerate(docs, i): source_info += ...] *)
Fixpoint source_entries (i : nat) (docs : list Document) (source_info : string)
  : Outcome string :=
  match docs with
  | [] => Returned source_info
  | doc :: rest =>
      and_then (source_entry i doc) (fun entry =>
      source_entries (S i) rest (source_info ++ entry))
  end.

(** The block [if sources: ...] of [main]: the content of the message
    that lists the sources, when one is sent. *)
Definition source_info (sources : list Document) : option (Outcome string) :=
  match sources with
  | [] => None
  | _ :: _ =>
      Some (source_entries 1 (firstn 4 sources)
                           ("📚 **Sources & References:**" ++ nl ++ nl))
  end.

End Ui.

(** ** JSON values *)

(** What [json.load] returns: [None], a truth value, an integer, a float
    (kept as the text [repr] gives it), a text, a list, or a dictionary
    with text keys. *)
#[warnings="-register-all"] Inductive Json :=
| JNull
| JBool (b : bool)
| JInt (n : Z)
| JFloat (repr : string)
| JStr (s : string)
| JList (items : list Json)
| JObj (fields : gmap string Json).

(** The name Python gives the type of a value. *)
Definition type_name (v : Json) : string :=
  match v with
  | JNull => "NoneType"
  | JBool _ => "bool"
  | JInt _ => "int"
  | JFloat _ => "float"
  | JStr _ => "str"
  | JList _ => "list"
  | JObj _ => "dict"
  end.

(** [x == text] for a text and any value *)
Definition is_text (text : string) (x : Json) : bool :=
  match x with
  | JStr s => String.eqb s text
  | _ => false
  end.

(** [text in s] for two texts *)
Definition is_substring (text s : string) : bool :=
  match String.index 0 text s with
  | Some _ => true
  | None => false
  end.

(** ** ingest.py with its console and its manifest file

    [Ingest] models a run whose [print] calls succeed, whose manifest is a
    dictionary of entries and whose manifest file is written in one step.
    [IngestIO] models the same functions with these three things as the
    code has them: every [print] writes to standard output and may raise;
    the manifest is whatever [json.load] returns, used with the dictionary
    operations of the loop, which raise on other values; and the manifest
    file is truncated when it is opened for writing and filled while
    [json.dump] runs. Theorems [loop_agrees] and [run_agrees] relate the
    two. *)

Module IngestIO.

Import Ingest.

(** What a run needs from the interpreter and its standard streams. *)
Record Host := mkHost {
  (** the exception [print(text)] raises, if any: standard output is
      closed, or cannot encode the text *)
  print_failure : string -> option PyException;
  (** failure of [open(processed_files_log, 'r')] on an existing file *)
  read_failure : option PyException;
  (** [json.load(f)] on a file that holds this text *)
  json_load : string -> Outcome Json;
  (** the text [json.dump(value, f, indent=2)] writes *)
  json_dump : Json -> string;
  (** a write error while that text is streamed to the file, with the
      number of characters that reached the file before it *)
  dump_failure : string -> option (nat * PyException);
  (** the interpreter's wording of the error an operation raises on a
      value it does not support *)
  wording : string -> Json -> string
}.

(** The state a run acts on: the text of [processed_files.json] if the
    file exists, the collections of the vector store, and the lines
    written to standard output. *)
Record Machine := mkMachine {
  manifest_text : option string;
  collections : gmap string (list Point);
  console : list string
}.

(** The local variables the per-file loop mutates ([processed_log],
    [all_chunks], [stats]) and the lines it has printed. *)
Record RunIO := mkRunIO {
  io_log : Json;
  io_chunks : list Document;
  io_stats : Stats;
  io_printed : list string
}.

Definition on_io_stats (f : Stats -> Stats) (r : RunIO) : RunIO :=
  mkRunIO (io_log r) (io_chunks r) (f (io_stats r)) (io_printed r).

(** [all_chunks.extend(chunks)] *)
Definition extend_chunks (chunks : list Document) (r : RunIO) : RunIO :=
  mkRunIO (io_log r) (io_chunks r ++ chunks)%list (io_stats r) (io_printed r).

Definition set_log (log : Json) (r : RunIO) : RunIO :=
  mkRunIO log (io_chunks r) (io_stats r) (io_printed r).

(** The dictionary that records a processed file. *)
Definition entry_json (file_hash date : string) (chunks_count : nat) : Json :=
  JObj (<["hash" := JStr file_hash]>
          (<["processed_date" := JStr date]>
             (<["chunks_count" := JInt (Z.of_nat chunks_count)]> ∅))).

(** Standard output accepts every line. *)
Definition prints_succeed (h : Host) : Prop :=
  forall text, print_failure h text = None.

Section WithHost.

Variable w : World.
Variable h : Host.
Variable collection_name : string.

Definition type_error (operation : string) (v : Json) : PyException :=
  mkExc "TypeError" (wording h operation v).

(** [key in v] *)
Definition py_contains (v : Json) (key : string) : Outcome bool :=
  match v with
  | JObj fields => Returned (bool_decide (is_Some (fields !! key)))
  | JList items => Returned (existsb (is_text key) items)
  | JStr s => Returned (is_substring key s)
  | _ => Raised (type_error "in" v)
  end.

(** [v[key]]; the text of a [KeyError] is the key as [repr] shows it,
    here for a key without quotes or backslashes. The loop only indexes a
    dictionary after [key in v] held. *)
Definition py_getitem (v : Json) (key : string) : Outcome Json :=
  match v with
  | JObj fields =>
      match fields !! key with
      | Some x => Returned x
      | None => Raised (mkExc "KeyError" ("'" ++ key ++ "'"))
      end
  | _ => Raised (type_error "getitem" v)
  end.

(** [v.get(key)]; [None] is Python's [None] *)
Definition py_get (v : Json) (key : string) : Outcome (option Json) :=
  match v with
  | JObj fields => Returned (fields !! key)
  | _ => Raised (mkExc "AttributeError" (wording h "get" v))
  end.

(** [v[key] = x] *)
Definition py_setitem (v : Json) (key : string) (x : Json) : Outcome Json :=
  match v with
  | JObj fields => Returned (JObj (<[key := x]> fields))
  | _ => Raised (type_error "setitem" v)
  end.

(** [print(text)] in the loop *)
Definition print_line (text : string) : SE RunIO unit :=
  fun r => match print_failure h text with
           | Some e => (Raised e, r)
           | None => (Returned tt,
                      mkRunIO (io_log r) (io_chunks r) (io_stats r)
                              (io_printed r ++ [text])%list)
           end.

(** [print(text)] outside the loop *)
Definition py_print (text : string) : SE Machine unit :=
  fun m => match print_failure h text with
           | Some e => (Raised e, m)
           | None => (Returned tt,
                      mkMachine (manifest_text m) (collections m)
                                (console m ++ [text])%list)
           end.

(** What reading an existing manifest file with the given text gives:
    the exception of [open], or what [json.load] returns or raises. *)
Definition read_manifest (text : string) : Outcome Json :=
  match read_failure h with
  | Some e => Raised e
  | None => json_load h text
  end.

(** [load_processed_files_log]: [{}] when the file does not exist, else
    what reading it gives. Nothing is caught, checked or printed. *)
Definition load_processed_files_log : SE Machine Json :=
  fun m => match manifest_text m with
           | None => (Returned (JObj ∅), m)
           | Some text => (read_manifest text, m)
           end.

(** [save_processed_files_log]: [open(..., 'w')] fails and leaves the file
    alone, or empties it; [json.dump] then fills it, completely or up to
    the write that fails. *)
Definition save_processed_files_log (log : Json) : SE Machine unit :=
  fun m => match write_failure w with
           | Some e => (Raised e, m)
           | None =>
               let text := json_dump h log in
               match dump_failure h text with
               | Some (n, e) =>
                   (Raised e,
                    mkMachine (Some (substring 0 n text)) (collections m) (console m))
               | None =>
                   (Returned tt, mkMachine (Some text) (collections m) (console m))
               end
           end.

Definition created_msg (name : string) : string :=
  "Created new collection: " ++ name.

Definition creation_error_msg (e : PyException) : string :=
  "Error creating collection: " ++ exc_str e.

(** [create_collection_if_not_exists]: the client calls and the first
    [print] are under [try]; the handler prints. *)
Definition create_collection_if_not_exists : SE Machine unit :=
  try_except
    (fun m => match client_failure w with
              | Some e => (Raised e, m)
              | None =>
                  match collections m !! collection_name with
                  | Some _ => (Returned tt, m)
                  | None =>
                      py_print (created_msg collection_name)
                        (mkMachine (manifest_text m)
                                   (<[collection_name := []]> (collections m))
                                   (console m))
                  end
              end)
    (fun e => py_print (creation_error_msg e)).

(** [Qdrant.from_documents], as in [Ingest]. *)
Definition Qdrant_from_documents (documents : list Document) : SE Machine unit :=
  fun m => match provider_failure w documents with
           | Some e => (Raised e, m)
           | None =>
               let old := default [] (collections m !! collection_name) in
               (Returned tt,
                mkMachine (manifest_text m)
                          (<[collection_name :=
                               (old ++ new_points w (fresh_id old) documents)%list]>
                             (collections m))
                          (console m))
           end.

Section Run.

Variable folder_path : string.
Variable file_extensions : list string.
Variable force_reprocess : bool.

(** The change check with its messages; the result tells whether the loop
    goes on to the next file ([continue]). *)
Definition change_check (file_key file_hash : string) : SE RunIO bool :=
  (log <- gets io_log;;
   known <- (if force_reprocess then ret false else lift (py_contains log file_key));;
   if known : bool
   then
     entry <- lift (py_getitem log file_key);;
     stored <- lift (py_get entry "hash");;
     if from_option (is_text file_hash) false stored
     then
       print_line ("Skipping " ++ file_key ++ " (unchanged)");;;
       modify (on_io_stats incr_skipped);;;
       ret true
     else
       print_line ("Reprocessing " ++ file_key ++ " (modified)");;;
       modify (on_io_stats incr_updated);;;
       ret false
   else
     print_line ("Processing new file: " ++ file_key);;;
     modify (on_io_stats incr_new);;;
     ret false)%se.

Definition add_file_metadata (file_path file_key file_hash : string) (doc : Document)
  : SE RunIO Document :=
  (size <- lift (getsize w file_path);;
   ret (file_metadata file_key file_hash size doc))%se.

(** What the loop does with a PDF: load, stamp, split, accumulate, log,
    report. *)
Definition load_pdf (file_path file_key file_hash : string) : SE RunIO unit :=
  (docs <- lift (pdf_load w file_path);;
   docs' <- map_se (add_file_metadata file_path file_key file_hash) docs;;
   let chunks := enhanced_text_splitting w docs' in
   modify (extend_chunks chunks);;;
   log <- gets io_log;;
   log' <- lift (py_setitem log file_key
                   (entry_json file_hash (now_isoformat w) (length chunks)));;
   modify (set_log log');;;
   print_line ("Processed " ++ file_key ++ ": "
               ++ Ui.str_int (Z.of_nat (length chunks)) ++ " chunks"))%se.

(** The body of the [try] inside the loop. *)
Definition process_file (file_path : string) : SE RunIO unit :=
  (file_hash <- lift (get_file_hash w file_path);;
   let file_key := relpath w file_path folder_path in
   skipped <- change_check file_key file_hash;;
   if skipped : bool then ret tt
   else if endswith file_path ".pdf"
        then load_pdf file_path file_key file_hash
        else ret tt)%se.

(** One loop iteration: the handler prints the message, then appends it. *)
Definition file_iteration (file_path : string) : SE RunIO unit :=
  try_except (process_file file_path)
             (fun e =>
                let error_msg := error_msg file_path e in
                (print_line error_msg;;;
                 modify (on_io_stats (append_error error_msg)))%se).


(** The local state when the loop starts. *)
Definition initial_run (log : Json) : RunIO :=
  mkRunIO log [] (set_total_files (length (all_files w folder_path file_extensions))
                                  stats_init) [].

(** The loop as a function of the loaded manifest. *)
Definition file_loop (log : Json) : Outcome unit * RunIO :=
  for_each file_iteration (all_files w folder_path file_extensions) (initial_run log).

(** The state the loop is in after the given files. *)
Definition run_files (files : list string) (r : RunIO) : RunIO :=
  (for_each file_iteration files r).2.

(** The state in which a run leaves the loop: what the loop printed has
    reached standard output. *)
Definition after_loop (m : Machine) (r : RunIO) : Machine :=
  mkMachine (manifest_text m) (collections m) (console m ++ io_printed r)%list.

(** The loop inside the run: an exception that leaves it leaves the run. *)
Definition run_loop (log : Json) : SE Machine RunIO :=
  fun m =>
    let (o, r) := file_loop log in
    match o with
    | Returned _ => (Returned r, after_loop m r)
    | Raised e => (Raised e, after_loop m r)
    end.

Definition in_machine {A} (c : SE Machine A) : SE (Machine * Stats) A :=
  fun ms => let (o, m') := c ms.1 in (o, (m', ms.2)).

Definition in_stats (f : Stats -> Stats) : SE (Machine * Stats) unit :=
  modify (fun ms => (ms.1, f ms.2)).

Definition success_msg (n : nat) : string :=
  "Successfully ingested " ++ Ui.str_int (Z.of_nat n) ++ " chunks into collection '"
  ++ collection_name ++ "'".

(** The final [try]: upsert, count the chunks, report, save the log; the
    handler prints the message, then appends it. *)
Definition ingest_batch (r : RunIO) : SE Machine Stats :=
  fun m =>
    let attempt :=
      try_except
        (in_machine (Qdrant_from_documents (io_chunks r));;;
         in_stats (set_total_chunks (length (io_chunks r)));;;
         in_machine (py_print (success_msg (length (io_chunks r))));;;
         in_machine (save_processed_files_log (io_log r)))%se
        (fun e =>
           let error_msg := qdrant_error_msg e in
           (in_machine (py_print error_msg);;;
            in_stats (append_error error_msg))%se) in
    match attempt (m, io_stats r) with
    | (Returned _, (m', stats)) => (Returned stats, m')
    | (Raised e, (m', _)) => (Raised e, m')
    end.

(** [ingest_documents_with_deduplication] *)
Definition ingest_documents_with_deduplication : SE Machine Stats :=
  (create_collection_if_not_exists;;;
   log <- load_processed_files_log;;
   r <- run_loop log;;
   match io_chunks r with
   | [] => py_print "No new documents to ingest.";;; ret (io_stats r)
   | _ :: _ => ingest_batch r
   end)%se.

End Run.
End WithHost.

(** A manifest of [Ingest] as the dictionary [json.load] returns for it. *)
Definition opt_insert (key : string) (x : option Json) (fields : gmap string Json)
  : gmap string Json :=
  match x with
  | Some v => <[key := v]> fields
  | None => fields
  end.

Definition encode_entry (e : LogEntry) : Json :=
  JObj (opt_insert "hash" (JStr <$> entry_hash e)
          (opt_insert "processed_date" (JStr <$> entry_processed_date e)
             (opt_insert "chunks_count"
                (JInt <$> (Z.of_nat <$> entry_chunks_count e)) ∅))).

Definition encode_log (log : gmap string LogEntry) : Json :=
  JObj (encode_entry <$> log).

(** The local state of [Ingest]'s loop, with the lines printed beside it. *)
Definition encode_run (r : Run) (printed : list string) : RunIO :=
  mkRunIO (encode_log (processed_log r)) (all_chunks r) (stats r) printed.

(** The state of [Ingest] that a state of [IngestIO] stands for: the same
    collections; no manifest file, or a manifest file that cannot be read,
    or one that reads as the dictionary of the entries. *)
Definition represents (h : Host) (m : Machine) (s : Sys) : Prop :=
  collections m = qdrant s /\
  match manifest_file s with
  | NoFile => manifest_text m = None
  | Corrupt e => exists text, manifest_text m = Some text /\
                              read_manifest h text = Raised e
  | Valid log => exists text, manifest_text m = Some text /\
                              read_manifest h text = Returned (encode_log log)
  end.

(** The manifest file is written in one piece and read back as it was
    written. *)
Definition disk_works (h : Host) : Prop :=
  (forall text, dump_failure h text = None) /\
  (forall v, read_manifest h (json_dump h v) = Returned v).

End IngestIO.

(** ** Concrete folders and providers

    Small worlds on which the functions above are run: a folder [data] whose
    files are given by name and text, a loader that yields one page per
    file, and a splitter that cuts at every [chunk_size] characters. *)

Module Scenario.

Fixpoint chop (fuel width : nat) (text : string) : list string :=
  match fuel with
  | O => []
  | S fuel' =>
      if String.eqb text "" then []
      else substring 0 width text
             :: chop fuel' width (substring width (String.length text - width) text)
  end.

Definition fixed_width_split (sp : Splitter) (text : string) : list string :=
  chop (String.length text) (Z.to_nat (sp_chunk_size sp)) text.

Fixpoint lookup_file (files : list (string * string)) (path : string) : option string :=
  match files with
  | [] => None
  | (name, text) :: rest =>
      if String.eqb (path_join "data" name) path then Some text
      else lookup_file rest path
  end.

Definition no_such_file (path : string) : PyException :=
  mkExc "FileNotFoundError" ("[Errno 2] No such file or directory: " ++ path).

Definition file_op {A} (files : list (string * string)) (f : string -> A) (path : string)
  : Outcome A :=
  match lookup_file files path with
  | Some text => Returned (f text)
  | None => Raised (no_such_file path)
  end.

(** The part of [path] after [start] and the separator. *)
Definition strip_folder (path start : string) : string :=
  substring (String.length start + 1)
            (String.length path - (String.length start + 1)) path.

Definition folder_world (files : list (string * string))
    (unreadable_pdfs : list string)
    (provider_down : option PyException) : World := {|
  walk := fun folder =>
            if String.eqb folder "data" then map (fun nt => ("data", nt.1)) files else [];
  relpath := strip_folder;
  open_rb := file_op files (fun text => text);
  md5_hexdigest := fun data => "md5-of-" ++ data;
  getsize := file_op files (fun text => Z.of_nat (String.length text));
  pdf_load := fun path =>
                if existsb (String.eqb path) unreadable_pdfs
                then Raised (mkExc "PdfReadError" "EOF marker not found")
                else file_op files
                       (fun text => [mkDoc text (dict_update ∅ [("source", MStr path);
                                                                ("page", MInt 0)])])
                       path;
  split_text := fixed_width_split;
  now_isoformat := "2024-05-01T12:00:00";
  embed := fun text => [Z.of_nat (String.length text)];
  client_failure := None;
  provider_failure := fun _ => provider_down;
  write_failure := None
|}.

Definition empty_sys : Sys := mkSys NoFile ∅.

Definition run (w : World) (exts : list string) (force : bool) (s : Sys)
  : Outcome Ingest.Stats * Sys :=
  Ingest.ingest_documents_with_deduplication w "my_documents" "data" exts force s.

(** One PDF, before and after an edit. *)
Definition report_v1 : World := folder_world [("report.pdf", "first draft")] [] None.
Definition report_v2 : World := folder_world [("report.pdf", "final draft")] [] None.

Definition texts_of (s : Sys) : list string :=
  map (fun p => page_content (pt_payload p)) (Ingest.points_of "my_documents" s).

(** A folder with one text file. *)
Definition notes_txt : World := folder_world [("notes.txt", "meeting notes")] [] None.

(** Three PDFs, the second of which the loader cannot read. *)
Definition one_broken : World :=
  folder_world [("a.pdf", "alpha"); ("b.pdf", "beta"); ("c.pdf", "gamma")] ["data/b.pdf"] None.

(** The vector store rejects every batch. *)
Definition store_down : World :=
  folder_world [("a.pdf", "alpha"); ("b.pdf", "beta")] []
               (Some (mkExc "ResponseHandlingException" "connection refused")).

Definition two_pdfs : World :=
  folder_world [("a.pdf", "alpha"); ("b.pdf", "beta")] [] None.


(** A chain whose generation step times out. *)
Definition failing_chain : RagChain.Chain :=
  RagChain.mkChain (fun _ => raise (mkExc "APITimeoutError" "Request timed out."))
                   "2024-05-01T12:00:00".






(** Conversions that know the numeric texts used below and reject
    everything else, as [int] and [float] reject text that is no number. *)
Definition value_error (what text : string) : PyException :=
  mkExc "ValueError" ("could not convert string to " ++ what ++ ": " ++ text).

Definition table_int (text : string) : Outcome Z :=
  if String.eqb text "1000" then Returned 1000
  else if String.eqb text "6" then Returned 6
  else if String.eqb text "800" then Returned 800
  else if String.eqb text "100" then Returned 100
  else if String.eqb text "512" then Returned 512
  else Raised (value_error "int" text).

Definition table_float (text : string) : Outcome Q :=
  if String.eqb text "0.1" then Returned (1 # 10)
  else if String.eqb text "0.5" then Returned (1 # 2)
  else Raised (value_error "float" text).

(** An environment that sets a chunk size, a flag in capitals, a flag to
    [yes], and a variable [from_env] does not read. *)
Definition some_environ : gmap string string :=
  dict_update ∅
    [("RAG_CHUNK_SIZE", "512");
     ("RAG_USE_COMPRESSION", "TRUE");
     ("RAG_TRACK_COSTS", "yes");
     ("RAG_LARGE_DOC_THRESHOLD", "100")].

Definition some_config : Config.RAGConfig :=
  Config.with_extensions
    {| Config.collection_name := "my_documents";
       Config.llm_model := "gpt-3.5-turbo";
       Config.llm_temperature := 1 # 10;
       Config.max_tokens := 1000;
       Config.retrieval_k := 6;
       Config.retrieval_fetch_k := 20;
       Config.search_type := "mmr";
       Config.chunk_size := 512;
       Config.chunk_overlap := 100;
       Config.large_doc_chunk_size := 1200;
       Config.large_doc_chunk_overlap := 150;
       Config.large_doc_threshold := 5000;
       Config.memory_max_tokens := 800;
       Config.conversation_summary_enabled := true;
       Config.supported_extensions := None;
       Config.force_reprocess := false;
       Config.show_sources := true;
       Config.max_sources_display := 3;
       Config.source_preview_length := 200;
       Config.use_compression := true;
       Config.track_costs := false;
       Config.enable_logging := true |}
    [".pdf"; ".txt"; ".md"; ".docx"].

(** An environment whose chunk size is no number. *)
Definition bad_environ : gmap string string :=
  dict_update ∅ [("RAG_CHUNK_SIZE", "large")].

(** One page as the loader returns it, and the chunk made of it. *)
Definition page_doc : Document :=
  mkDoc "alpha" (dict_update ∅ [("source", MStr "data/a.pdf"); ("page", MInt 0)]).

Definition page_chunk : Document :=
  nth 0 (Ingest.enhanced_text_splitting two_pdfs [page_doc]) page_doc.

(** The second page of [a.pdf] as the loader returns it. *)
Definition second_page : Document :=
  mkDoc "beta" (dict_update ∅ [("source", MStr "data/a.pdf"); ("page", MInt 1)]).

(** The state after a first run over the two PDFs, and a folder that has
    lost its files since. *)
Definition after_two_pdfs : Sys := (run two_pdfs [".pdf"] false empty_sys).2.

Definition emptied_folder : World := folder_world [] [] None.

(** Five retrieved passages, the fifth with a source that is no text. *)
Definition passage (n : Z) : Document :=
  mkDoc "passage" (dict_update ∅ [("source", MStr "data/a.pdf"); ("page", MInt n)]).

Definition odd_passage : Document :=
  mkDoc "passage" (dict_update ∅ [("source", MInt 7)]).

Definition four_passages : list Document := [passage 1; passage 2; passage 3; passage 4].

End Scenario.

(** ** Hosts for the runs below *)

Module HostScenario.

Import IngestIO.

Fixpoint join (sep : string) (parts : list string) : string :=
  match parts with
  | [] => ""
  | [p] => p
  | p :: rest => p ++ sep ++ join sep rest
  end.

Fixpoint escape (s : string) : string :=
  match s with
  | EmptyString => EmptyString
  | String c rest =>
      if (Ascii.eqb c "034" || Ascii.eqb c "092")%char
      then String "092"%char (String c (escape rest))
      else String c (escape rest)
  end.

Definition quoted (s : string) : string :=
  Ui.double_quote ++ escape s ++ Ui.double_quote.

Fixpoint pad (depth : nat) : string :=
  match depth with
  | O => ""
  | S d => "  " ++ pad d
  end.

Definition block (opening closing : string) (depth : nat) (items : list string) : string :=
  match items with
  | [] => opening ++ closing
  | _ => opening ++ nl ++ pad (S depth)
         ++ join ("," ++ nl ++ pad (S depth)) items
         ++ nl ++ pad depth ++ closing
  end.

(** A rendering in the layout of [json.dump(..., indent=2)], for texts
    that need no escape beyond the quote and the backslash; the keys of a
    dictionary come in the order of the finite map. *)
Fixpoint render (depth : nat) (v : Json) : string :=
  match v with
  | JNull => "null"
  | JBool true => "true"
  | JBool false => "false"
  | JInt n => Ui.str_int n
  | JFloat repr => repr
  | JStr s => quoted s
  | JList items => block "[" "]" depth (map (render (S depth)) items)
  | JObj fields =>
      block "{" "}" depth
            (map_fold (fun key x items => (quoted key ++ ": " ++ render (S depth) x) :: items)
                      [] fields)
  end.

Definition decode_error (text : string) : PyException :=
  mkExc "JSONDecodeError" text.

(** A decoder that knows the texts used below. *)
Definition table_json (text : string) : Outcome Json :=
  if String.eqb text "{}" then Returned (JObj ∅)
  else if String.eqb text "[]" then Returned (JList [])
  else if String.eqb text "null" then Returned JNull
  else if String.eqb text "{broken"
       then Raised (decode_error
                      "Expecting property name enclosed in double quotes: line 1 column 2 (char 1)")
       else Raised (decode_error "Expecting value: line 1 column 1 (char 0)").

Definition table_wording (operation : string) (v : Json) : string :=
  if String.eqb operation "in"
  then "argument of type '" ++ type_name v ++ "' is not iterable"
  else if String.eqb operation "get"
       then "'" ++ type_name v ++ "' object has no attribute 'get'"
       else if String.eqb operation "setitem"
            then "'" ++ type_name v ++ "' object does not support item assignment"
            else "'" ++ type_name v ++ "' object is not subscriptable".

(** A host on which every [print] and every write succeeds. *)
Definition plain_host : Host := {|
  print_failure := fun _ => None;
  read_failure := None;
  json_load := table_json;
  json_dump := render 0;
  dump_failure := fun _ => None;
  wording := table_wording
|}.





(** A disk that fills up after twelve characters of the manifest. *)
Definition full_disk : Host := {|
  print_failure := fun _ => None;
  read_failure := None;
  json_load := table_json;
  json_dump := render 0;
  dump_failure := fun _ => Some (12%nat, mkExc "OSError" "[Errno 28] No space left on device");
  wording := table_wording
|}.



Definition fresh_machine : Machine := mkMachine None ∅ [].

(** A manifest file cut short, and one that holds a list. *)
Definition broken_manifest : Machine := mkMachine (Some "{broken") ∅ [].
Definition list_manifest : Machine := mkMachine (Some "[]") ∅ [].

(** A manifest that knows a file which has left the folder, and an older
    version of [a.pdf]. *)
Definition known_files : gmap string Json :=
  <["old.pdf" := entry_json "md5-of-old" "2024-04-30T09:00:00" 3]>
    (<["a.pdf" := entry_json "md5-of-draft" "2024-04-30T09:00:00" 1]> ∅).

Definition run (w : World) (h : Host) (exts : list string) (force : bool) (m : Machine)
  : Outcome Ingest.Stats * Machine :=
  ingest_documents_with_deduplication w h "my_documents" "data" exts force m.

End HostScenario.

(** ** Proof automation *)

(** Case analysis on the innermost scrutinee first. *)
Ltac crush_match :=
  repeat match goal with
         | |- context [match ?x with _ => _ end] =>
             lazymatch x with
             | context [match _ with _ => _ end] => fail
             | _ => destruct x eqn:?; simpl
             end
         end.

(** * Properties *)

(** ** Outcomes and loops *)

Section MonadFacts.

Context {S A : Type}.

Lemma bind_returned {B} (c : SE S A) (k : A -> SE S B) (s s' : S) (a : A) :
  c s = (Returned a, s') -> bind c k s = k a s'.
Proof. intros H. unfold bind. now rewrite H. Qed.

End MonadFacts.

Lemma enumerate_from_snd {A} (xs : list A) (i : nat) :
  map snd (enumerate_from i xs) = xs.
Proof.
  revert i. induction xs as [|x xs IH]; intros i; simpl; [reflexivity|].
  now rewrite IH.
Qed.


(** ** Text splitting *)

Section Splitting.

Variable w : World.

Lemma stamp_chunks_texts (chunks : list Document) :
  map page_content (Ingest.stamp_chunks w chunks) = map page_content chunks.
Proof.
  unfold Ingest.stamp_chunks. rewrite map_map. simpl.
  rewrite <- (enumerate_from_snd chunks 0) at 2.
  unfold enumerate. now rewrite map_map.
Qed.

Lemma split_documents_texts (sp : Splitter) (doc : Document) :
  map page_content (Ingest.split_documents w sp doc) = split_text w sp (page_content doc).
Proof.
  unfold Ingest.split_documents. rewrite map_map. simpl. apply map_id.
Qed.

Lemma enhanced_text_splitting_one (doc : Document) :
  map page_content (Ingest.enhanced_text_splitting w [doc])
  = split_text w (choose_splitter doc) (page_content doc).
Proof.
  unfold Ingest.enhanced_text_splitting. simpl. rewrite app_nil_r.
  now rewrite stamp_chunks_texts, split_documents_texts.
Qed.


End Splitting.


(** ** The per-file loop *)

Section Loop.

Import Ingest.

Variable w : World.
Variable folder_path : string.
Variable force : bool.

Lemma add_file_metadata_state (p k h : string) (doc : Document) (r : Run) :
  (add_file_metadata w p k h doc r).2 = r.
Proof.
  unfold add_file_metadata, bind, lift, ret.
  destruct (getsize w p); reflexivity.
Qed.

Lemma map_se_metadata_state (p k h : string) (docs : list Document) (r : Run) :
  (map_se (add_file_metadata w p k h) docs r).2 = r.
Proof.
  induction docs as [|doc docs IH]; simpl; [reflexivity|].
  unfold bind at 1.
  pose proof (add_file_metadata_state p k h doc r) as Hdoc.
  destruct (add_file_metadata w p k h doc r) as [[doc'|e] r1]; simpl in Hdoc; subst r1;
    [|reflexivity].
  unfold bind, ret.
  destruct (map_se (add_file_metadata w p k h) docs r) as [[docs'|e] r2];
    simpl in IH; subst r2; reflexivity.
Qed.

(** [load_pdf] either raises and leaves the local state alone, or records
    the file in the log and appends its chunks. The counters are untouched
    either way. *)
Lemma load_pdf_cases (p k h : string) (r : Run) :
  (exists e, load_pdf w p k h r = (Raised e, r)) \/
  (exists chunks,
     load_pdf w p k h r
     = (Returned tt,
        mkRun (<[k := mkEntry (Some h) (Some (now_isoformat w)) (Some (length chunks))]>
                 (processed_log r))
              (all_chunks r ++ chunks)
              (stats r))).
Proof.
  unfold load_pdf, bind at 1, lift.
  destruct (pdf_load w p) as [docs|e]; [|left; eauto].
  unfold bind.
  pose proof (map_se_metadata_state p k h docs r) as Hst.
  destruct (map_se (add_file_metadata w p k h) docs r) as [[docs'|e] r1];
    simpl in Hst; subst r1; [|left; eauto].
  right. eexists. reflexivity.
Qed.

Lemma file_iteration_step (path : string) (r : Run) :
  file_iteration w folder_path force path r
  = (Returned tt, file_step w folder_path force path r).
Proof.
  unfold file_iteration, try_except, process_file, file_step, bind at 1, lift.
  destruct (get_file_hash w path) as [h|e]; [|reflexivity].
  unfold bind at 1, gets.
  destruct (decide_file force (processed_log r) (relpath w path folder_path) h);
    try reflexivity;
    unfold bind, modify;
    (destruct (endswith path ".pdf"); [|reflexivity]);
    match goal with
    | |- context [load_pdf ?a ?b ?c ?d ?e] =>
        destruct (load_pdf a b c d e) as [[[]|e'] r2]; reflexivity
    end.
Qed.

Lemma run_files_nil (r : Run) : run_files w folder_path force [] r = r.
Proof. reflexivity. Qed.

Lemma run_files_cons (path : string) (files : list string) (r : Run) :
  run_files w folder_path force (path :: files) r
  = run_files w folder_path force files (file_step w folder_path force path r).
Proof.
  unfold run_files. simpl. unfold bind.
  now rewrite file_iteration_step.
Qed.


Lemma for_each_returns (files : list string) (r : Run) :
  (for_each (file_iteration w folder_path force) files r).1 = Returned tt.
Proof.
  revert r. induction files as [|p files IH]; intros r; simpl; [reflexivity|].
  unfold bind. rewrite file_iteration_step. apply IH.
Qed.

End Loop.

Section LoopFacts.

Import Ingest.

Variable w : World.
Variable folder_path : string.
Variable force : bool.

Lemma process_file_errors (path : string) (r : Run) :
  processing_errors (stats (process_file w folder_path force path r).2)
  = processing_errors (stats r).
Proof.
  unfold process_file, bind at 1, lift.
  destruct (get_file_hash w path) as [h|e]; [|reflexivity].
  unfold bind at 1, gets.
  destruct (decide_file force (processed_log r) (relpath w path folder_path) h);
    try reflexivity;
    unfold bind, modify;
    (destruct (endswith path ".pdf"); [|reflexivity]);
    match goal with
    | |- context [load_pdf ?a ?b ?c ?d ?e] =>
        destruct (load_pdf_cases a b c d e) as [[e' ->]|[chunks ->]]; reflexivity
    end.
Qed.

(** An iteration whose body raises appends exactly the message of that
    exception; one whose body returns appends nothing. *)
Lemma file_step_errors (path : string) (r : Run) :
  processing_errors (stats (file_step w folder_path force path r))
  = (processing_errors (stats r)
     ++ match (process_file w folder_path force path r).1 with
        | Raised e => [error_msg path e]
        | Returned _ => []
        end)%list.
Proof.
  pose proof (file_iteration_step w folder_path force path r) as Hstep.
  pose proof (process_file_errors path r) as Herr.
  unfold file_iteration, try_except in Hstep.
  destruct (process_file w folder_path force path r) as [[[]|e] r1];
    simpl in Hstep, Herr; inversion Hstep as [Hr]; simpl.
  - rewrite <- Hr, Herr. now rewrite app_nil_r.
  - now rewrite Herr.
Qed.

(** Every iteration accounts for its file: it bumps one of the three
    counters unless hashing the file failed. *)
Lemma file_step_counted (path : string) (r : Run) :
  (counted (stats (file_step w folder_path force path r))
   + (if hash_fails w path then 1 else 0)
   = S (counted (stats r)))%nat
  /\ total_files (stats (file_step w folder_path force path r)) = total_files (stats r)
  /\ total_chunks (stats (file_step w folder_path force path r)) = total_chunks (stats r).
Proof.
  unfold file_step, hash_fails, counted.
  destruct (get_file_hash w path) as [h|e]; [|simpl; lia].
  simpl.
  destruct (decide_file force (processed_log r) (relpath w path folder_path) h);
    try (simpl; lia);
    (destruct (endswith path ".pdf"); [|simpl; lia]);
    match goal with
    | |- context [load_pdf ?a ?b ?c ?d ?e] =>
        destruct (load_pdf_cases a b c d e) as [[e' ->]|[chunks ->]]; simpl; lia
    end.
Qed.

Lemma run_files_counted (files : list string) (r : Run) :
  (counted (stats (run_files w folder_path force files r))
   + length (filter (fun p => hash_fails w p) files)
   = counted (stats r) + length files)%nat
  /\ total_files (stats (run_files w folder_path force files r)) = total_files (stats r)
  /\ total_chunks (stats (run_files w folder_path force files r)) = total_chunks (stats r).
Proof.
  revert r. induction files as [|p files IH]; intros r.
  - rewrite run_files_nil. simpl. lia.
  - rewrite run_files_cons.
    destruct (IH (file_step w folder_path force p r)) as (Hc & Ht & Hk).
    destruct (file_step_counted p r) as (Hc1 & Ht1 & Hk1).
    rewrite Ht, Hk, Ht1, Hk1. split; [|split; reflexivity].
    rewrite filter_cons. simpl.
    destruct (hash_fails w p); simpl in *; lia.
Qed.

(** Errors are only ever appended. *)
Lemma run_files_errors_prefix (files : list string) (r : Run) :
  exists more,
    processing_errors (stats (run_files w folder_path force files r))
    = (processing_errors (stats r) ++ more)%list.
Proof.
  revert r. induction files as [|p files IH]; intros r.
  - exists []. rewrite run_files_nil. now rewrite app_nil_r.
  - rewrite run_files_cons.
    destruct (IH (file_step w folder_path force p r)) as [more Hmore].
    rewrite Hmore, file_step_errors. rewrite <- app_assoc. eauto.
Qed.

End LoopFacts.

(** ** The change check *)

Section ChangeCheck.

Import Ingest.

Lemma decide_file_skip (force : bool) (log : gmap string LogEntry) (k h : string) :
  decide_file force log k h = Skip
  <-> force = false /\ exists e, log !! k = Some e /\ entry_hash e = Some h.
Proof.
  unfold decide_file. split.
  - destruct force; [discriminate|].
    destruct (log !! k) as [e|]; [|discriminate].
    destruct (decide (entry_hash e = Some h)); [eauto | discriminate].
  - intros (-> & e & -> & He). now rewrite decide_True.
Qed.



Variable w : World.
Variable folder_path : string.
Variable force : bool.



End ChangeCheck.



(** ** Queries *)

Section QueryBoundary.

Import RagChain.

Variable c : Chain.

Lemma query_success (question : string) (m m' : Memory) (rc : ChainResult * Callback) :
  qa_chain c question m = (Returned rc, m') ->
  exists r, query c question m = (Returned r, m')
            /\ answer r = cr_answer rc.1
            /\ source_documents r = cr_source_documents rc.1
            /\ chat_history r = chat_messages m'.
Proof.
  intros Hrun. unfold query, try_except, bind. rewrite Hrun.
  unfold gets, ret. eexists. repeat split.
Qed.

Lemma query_failure (question : string) (m m' : Memory) (e : PyException) :
  qa_chain c question m = (Raised e, m') ->
  query c question m
  = (Returned (mkQueryResult ("Sorry, I encountered an error: " ++ exc_str e) [] []
                             {[ "error" := QStr (exc_str e) ]}),
     m').
Proof.
  intros Hrun. unfold query, try_except, bind. rewrite Hrun. reflexivity.
Qed.

(** C2: [query] returns a result for every question and never raises;
    when the chain call fails (retrieval, compression and generation all
    happen inside it), the answer text carries the failure, the source
    list is empty and the metadata holds the error under ["error"]. *)
Theorem query_never_raises (question : string) (m : Memory) :
  exists r m',
    query c question m = (Returned r, m') /\
    forall e, (qa_chain c question m).1 = Raised e ->
      answer r = "Sorry, I encountered an error: " ++ exc_str e /\
      source_documents r = [] /\
      qr_metadata r !! "error" = Some (QStr (exc_str e)).
Proof.
  destruct (qa_chain c question m) as [[rc|e] m'] eqn:Hrun.
  - destruct (query_success question m m' rc Hrun) as (r & Hq & _).
    exists r, m'. split; [exact Hq|]. intros e He. discriminate He.
  - eexists _, m'. split; [apply (query_failure question m m' e Hrun)|].
    intros e' He. simpl in He. injection He as <-.
    split; [reflexivity|]. split; [reflexivity|].
    simpl. apply lookup_singleton_eq.
Qed.

End QueryBoundary.

(** A generation time-out during [query("What is X?")]. *)
Lemma query_never_raises_timeout :
  exists r m',
    RagChain.query Scenario.failing_chain "What is X?" (mkMemory [] "") = (Returned r, m') /\
    RagChain.answer r = "Sorry, I encountered an error: Request timed out." /\
    RagChain.source_documents r = [].
Proof.
  destruct (query_never_raises Scenario.failing_chain "What is X?" (mkMemory [] ""))
    as (r & m' & Hq & Herr).
  exists r, m'. split; [exact Hq|].
  destruct (Herr (mkExc "APITimeoutError" "Request timed out.") eq_refl) as (Ha & Hs & _).
  split; [exact Ha | exact Hs].
Defined.

(** ** The manifest file *)

Section ManifestFile.

Import Ingest.

Variable w : World.
Variable collection_name folder_path : string.
Variable file_extensions : list string.
Variable force : bool.

Lemma create_collection_manifest (s : Sys) :
  exists s', create_collection_if_not_exists w collection_name s = (Returned tt, s')
             /\ manifest_file s' = manifest_file s
             /\ (forall pts, qdrant s !! collection_name = Some pts -> s' = s)
             /\ default [] (qdrant s' !! collection_name)
                = default [] (qdrant s !! collection_name).
Proof.
  unfold create_collection_if_not_exists.
  destruct (client_failure w); [exists s; repeat split; auto|].
  destruct (qdrant s !! collection_name) as [pts|] eqn:Hc.
  - exists s. rewrite Hc. repeat split; auto.
  - eexists. repeat split; simpl.
    + intros pts H; discriminate H.
    + now rewrite lookup_insert_eq.
Qed.

(** A manifest file that [json.load] rejects: the exception leaves
    [load_processed_files_log] and the run. *)
Lemma ingest_raises_on_corrupt (s : Sys) (e : PyException) :
  manifest_file s = Corrupt e ->
  load_processed_files_log s = (Raised e, s) /\
  exists s',
    ingest_documents_with_deduplication w collection_name folder_path
      file_extensions force s = (Raised e, s') /\
    manifest_file s' = Corrupt e.
Proof.
  intros Hm. unfold load_processed_files_log at 1. rewrite Hm.
  split; [reflexivity|].
  destruct (create_collection_manifest s) as (s' & Hc & Hm' & _).
  exists s'. unfold ingest_documents_with_deduplication.
  rewrite (bind_returned _ _ _ _ _ Hc).
  unfold bind, load_processed_files_log. rewrite Hm', Hm. now split.
Qed.

End ManifestFile.

(** ** A whole ingestion run *)

Section IngestionRun.

Import Ingest.

Variable w : World.
Variable collection_name folder_path : string.
Variable file_extensions : list string.
Variable force : bool.

(** The run once the manifest has loaded: the loop, then the batch. *)
Lemma ingest_unfold (s : Sys) (log : gmap string LogEntry) :
  load_processed_files_log s = (Returned log, s) ->
  exists s1,
    create_collection_if_not_exists w collection_name s = (Returned tt, s1) /\
    manifest_file s1 = manifest_file s /\
    points_of collection_name s1 = points_of collection_name s /\
    ingest_documents_with_deduplication w collection_name folder_path
      file_extensions force s
    = match all_chunks (run_loop w folder_path file_extensions force log) with
      | [] => (Returned (stats (run_loop w folder_path file_extensions force log)), s1)
      | _ :: _ =>
          ingest_batch w collection_name
                       (run_loop w folder_path file_extensions force log) s1
      end.
Proof.
  intros Hload.
  destruct (create_collection_manifest w collection_name s) as (s1 & Hc & Hm & _ & Hp).
  exists s1. repeat split; try assumption.
  unfold ingest_documents_with_deduplication.
  rewrite (bind_returned _ _ _ _ _ Hc).
  assert (load_processed_files_log s1 = (Returned log, s1)) as Hload1.
  { unfold load_processed_files_log in *. rewrite Hm.
    destruct (manifest_file s); inversion Hload; reflexivity. }
  rewrite (bind_returned _ _ _ _ _ Hload1).
  destruct (all_chunks (run_loop w folder_path file_extensions force log));
    reflexivity.
Qed.

Lemma ingest_unfold_empty (s : Sys) (log : gmap string LogEntry) :
  load_processed_files_log s = (Returned log, s) ->
  all_chunks (run_loop w folder_path file_extensions force log) = [] ->
  exists s1,
    manifest_file s1 = manifest_file s /\
    points_of collection_name s1 = points_of collection_name s /\
    ingest_documents_with_deduplication w collection_name folder_path
      file_extensions force s
    = (Returned (stats (run_loop w folder_path file_extensions force log)), s1).
Proof.
  intros Hload Hnil.
  destruct (ingest_unfold s log Hload) as (s1 & _ & Hm & Hp & Hrun).
  exists s1. rewrite Hnil in Hrun. auto.
Qed.

Lemma ingest_unfold_batch (s : Sys) (log : gmap string LogEntry) :
  load_processed_files_log s = (Returned log, s) ->
  all_chunks (run_loop w folder_path file_extensions force log) <> [] ->
  exists s1,
    manifest_file s1 = manifest_file s /\
    points_of collection_name s1 = points_of collection_name s /\
    ingest_documents_with_deduplication w collection_name folder_path
      file_extensions force s
    = ingest_batch w collection_name
        (run_loop w folder_path file_extensions force log) s1.
Proof.
  intros Hload Hne.
  destruct (ingest_unfold s log Hload) as (s1 & _ & Hm & Hp & Hrun).
  exists s1.
  destruct (all_chunks (run_loop w folder_path file_extensions force log));
    [congruence | auto].
Qed.

Lemma chunks_nil_or_not (r : Run) : all_chunks r = [] \/ all_chunks r <> [].
Proof. destruct (all_chunks r); [now left | now right]. Qed.

(** The final [try] never raises: it returns the loop's statistics with
    the chunk count set or an error appended. *)
Lemma ingest_batch_cases (r : Run) (s1 : Sys) :
  exists st s2,
    ingest_batch w collection_name r s1 = (Returned st, s2) /\
    total_files st = total_files (stats r) /\
    counted st = counted (stats r) /\
    (exists more, processing_errors st = (processing_errors (stats r) ++ more)%list) /\
    ((exists e, provider_failure w (all_chunks r) = Some e /\
                s2 = s1 /\
                st = append_error (qdrant_error_msg e) (stats r))
     \/ (provider_failure w (all_chunks r) = None /\
         points_of collection_name s2
         = (points_of collection_name s1
            ++ new_points w (fresh_id (points_of collection_name s1)) (all_chunks r))%list /\
         ((exists e, write_failure w = Some e /\
                     manifest_file s2 = manifest_file s1 /\
                     st = append_error (qdrant_error_msg e)
                            (set_total_chunks (length (all_chunks r)) (stats r)))
          \/ (write_failure w = None /\
              manifest_file s2 = Valid (processed_log r) /\
              st = set_total_chunks (length (all_chunks r)) (stats r))))).
Proof.
  unfold ingest_batch, Qdrant_from_documents, save_processed_files_log, points_of.
  destruct (provider_failure w (all_chunks r)) as [e|].
  - eexists _, _. split; [reflexivity|]. repeat split; simpl; eauto.
  - destruct (write_failure w) as [e|]; simpl.
    + eexists _, _. split; [reflexivity|]. repeat split; simpl; eauto.
      right. repeat split; [now rewrite lookup_insert_eq|]. left. eauto.
    + eexists _, _. split; [reflexivity|]. repeat split; simpl.
      * exists []. now rewrite app_nil_r.
      * right. repeat split; [now rewrite lookup_insert_eq|]. right. eauto.
Qed.

End IngestionRun.

Section BatchFailure.

Import Ingest.

Variable w : World.
Variable collection_name folder_path : string.
Variable file_extensions : list string.
Variable force : bool.

Lemma run_loop_total_chunks (log : gmap string LogEntry) :
  total_chunks (stats (run_loop w folder_path file_extensions force log)) = 0%nat.
Proof.
  unfold run_loop.
  destruct (run_files_counted w folder_path force
              (all_files w folder_path file_extensions)
              (initial_run w folder_path file_extensions log)) as (_ & _ & ->).
  reflexivity.
Qed.

End BatchFailure.

(** ** Ingesting an unchanged folder again *)

Section Reingestion.

Import Ingest.

Variable w : World.
Variable collection_name folder_path : string.
Variable file_extensions : list string.

Lemma app_singleton_neq {A} (l : list A) (x : A) : (l ++ [x])%list <> l.
Proof.
  intros H. apply (f_equal (@length A)) in H.
  rewrite length_app in H. simpl in H. lia.
Qed.

Lemma iter_incr_skipped (n : nat) (s : Stats) :
  new_files (Nat.iter n incr_skipped s) = new_files s /\
  updated_files (Nat.iter n incr_skipped s) = updated_files s /\
  skipped_files (Nat.iter n incr_skipped s) = (n + skipped_files s)%nat /\
  total_files (Nat.iter n incr_skipped s) = total_files s /\
  processing_errors (Nat.iter n incr_skipped s) = processing_errors s.
Proof.
  induction n as [|n (Hn & Hu & Hs & Ht & He)]; simpl.
  - repeat split.
  - rewrite Hn, Hu, Hs, Ht, He. repeat split.
Qed.

(** An iteration that reports no error on a PDF leaves the file recorded
    under its current hash, and keeps every other recorded file recorded. *)
Lemma file_step_recorded (force : bool) (p : string) (r : Run) :
  processing_errors (stats (file_step w folder_path force p r))
  = processing_errors (stats r) ->
  endswith p ".pdf" = true ->
  recorded w folder_path (processed_log (file_step w folder_path force p r)) p /\
  forall q,
    (relpath w q folder_path = relpath w p folder_path -> q = p) ->
    recorded w folder_path (processed_log r) q ->
    recorded w folder_path (processed_log (file_step w folder_path force p r)) q.
Proof.
  unfold file_step. intros Herr Hpdf.
  destruct (get_file_hash w p) as [h|e] eqn:Hh.
  2:{ simpl in Herr. now apply app_singleton_neq in Herr. }
  simpl in *.
  destruct (decide_file force (processed_log r) (relpath w p folder_path) h) eqn:Hd.
  - apply decide_file_skip in Hd as (_ & e & Hk & He).
    split; [exists h, e; auto | auto].
  - rewrite Hpdf in *.
    match type of Herr with
    | context [load_pdf ?a ?b ?c ?d ?e] =>
        destruct (load_pdf_cases a b c d e) as [[e' Hl]|[chunks Hl]];
        rewrite Hl in *; simpl in *
    end.
    { now apply app_singleton_neq in Herr. }
    split.
    + eexists h, _. split; [exact Hh|]. split; [apply lookup_insert_eq | reflexivity].
    + intros q Hinj (hq & eq & Hhq & Hkq & Heq).
      destruct (decide (relpath w q folder_path = relpath w p folder_path)) as [Hsame|Hdiff].
      * rewrite (Hinj Hsame).
        eexists h, _. split; [exact Hh|]. split; [apply lookup_insert_eq | reflexivity].
      * exists hq, eq. split; [exact Hhq|]. split; [|exact Heq].
        rewrite lookup_insert_ne; [exact Hkq | congruence].
  - rewrite Hpdf in *.
    match type of Herr with
    | context [load_pdf ?a ?b ?c ?d ?e] =>
        destruct (load_pdf_cases a b c d e) as [[e' Hl]|[chunks Hl]];
        rewrite Hl in *; simpl in *
    end.
    { now apply app_singleton_neq in Herr. }
    split.
    + eexists h, _. split; [exact Hh|]. split; [apply lookup_insert_eq | reflexivity].
    + intros q Hinj (hq & eq & Hhq & Hkq & Heq).
      destruct (decide (relpath w q folder_path = relpath w p folder_path)) as [Hsame|Hdiff].
      * rewrite (Hinj Hsame).
        eexists h, _. split; [exact Hh|]. split; [apply lookup_insert_eq | reflexivity].
      * exists hq, eq. split; [exact Hhq|]. split; [|exact Heq].
        rewrite lookup_insert_ne; [exact Hkq | congruence].
Qed.

(** A loop that ends without any error has recorded every PDF it saw. *)
Lemma run_files_recorded (force : bool) (files done : list string) (r : Run) :
  processing_errors (stats (run_files w folder_path force files r)) = [] ->
  (forall p, p ∈ files -> endswith p ".pdf" = true) ->
  (forall p q, p ∈ (done ++ files)%list -> q ∈ (done ++ files)%list ->
               relpath w p folder_path = relpath w q folder_path -> p = q) ->
  (forall q, q ∈ done -> recorded w folder_path (processed_log r) q) ->
  forall q, q ∈ (done ++ files)%list ->
            recorded w folder_path (processed_log (run_files w folder_path force files r)) q.
Proof.
  revert done r. induction files as [|p files IH]; intros done r Hclean Hpdf Hinj Hdone q Hq.
  - rewrite app_nil_r in Hq. rewrite run_files_nil. auto.
  - rewrite run_files_cons in *.
    destruct (run_files_errors_prefix w folder_path force files
                (file_step w folder_path force p r)) as [more Hmore].
    rewrite Hclean in Hmore. symmetry in Hmore.
    apply app_eq_nil in Hmore as [Hstep _].
    pose proof (file_step_errors w folder_path force p r) as Hgrow.
    rewrite Hstep in Hgrow. symmetry in Hgrow.
    apply app_eq_nil in Hgrow as [Hr _].
    destruct (file_step_recorded force p r) as [Hp Hkeep].
    { now rewrite Hstep, Hr. }
    { apply Hpdf. apply list_elem_of_here. }
    apply (IH (done ++ [p])%list (file_step w folder_path force p r)).
    + exact Hclean.
    + intros p' Hp'. apply Hpdf. now apply list_elem_of_further.
    + rewrite <- app_assoc. exact Hinj.
    + intros q' Hq'. apply elem_of_app in Hq' as [Hq'|Hq'].
      * apply Hkeep; [|now apply Hdone].
        apply Hinj; apply elem_of_app; [now left | right; apply list_elem_of_here].
      * apply list_elem_of_singleton in Hq'. now subst q'.
    + now rewrite <- app_assoc.
Qed.

(** When every file is recorded under its current hash, an unforced loop
    skips them all and changes nothing else. *)
Lemma run_files_all_skipped (files : list string) (r : Run) :
  (forall p, p ∈ files -> recorded w folder_path (processed_log r) p) ->
  run_files w folder_path false files r
  = on_stats (Nat.iter (length files) incr_skipped) r.
Proof.
  revert r. induction files as [|p files IH]; intros r Hrec.
  - rewrite run_files_nil. now destruct r.
  - rewrite run_files_cons.
    destruct (Hrec p) as (h & e & Hh & Hk & He); [apply list_elem_of_here|].
    assert (file_step w folder_path false p r = on_stats incr_skipped r) as ->.
    { unfold file_step. rewrite Hh.
      assert (decide_file false (processed_log r) (relpath w p folder_path) h = Skip) as ->;
        [|reflexivity].
      apply decide_file_skip. eauto. }
    rewrite IH.
    + unfold on_stats. cbn [processed_log all_chunks stats length].
      now rewrite Nat.iter_succ_r.
    + intros q Hq. simpl. apply Hrec. now apply list_elem_of_further.
Qed.

End Reingestion.

Section Idempotence.

Import Ingest.

Variable w : World.
Variable collection_name folder_path : string.
Variable file_extensions : list string.
Variable force : bool.

(** A run that returned statistics had a manifest that loaded. *)
Lemma ingest_returned_loaded (s s1 : Sys) (st : Stats) :
  ingest_documents_with_deduplication w collection_name folder_path
    file_extensions force s = (Returned st, s1) ->
  exists log, load_processed_files_log s = (Returned log, s).
Proof.
  intros Hrun. unfold load_processed_files_log.
  destruct (manifest_file s) as [|e|log] eqn:Hm.
  - eauto.
  - destruct (ingest_raises_on_corrupt w collection_name folder_path
                file_extensions force s e Hm) as (_ & s' & Hraise & _).
    congruence.
  - eauto.
Qed.

(** A run that reports no error and a positive chunk count has sent its
    batch and written the log of its loop to the manifest file. *)
Lemma clean_run_persists (s s1 : Sys) (st : Stats) (log : gmap string LogEntry) :
  load_processed_files_log s = (Returned log, s) ->
  ingest_documents_with_deduplication w collection_name folder_path
    file_extensions force s = (Returned st, s1) ->
  processing_errors st = [] ->
  (0 < total_chunks st)%nat ->
  manifest_file s1
  = Valid (processed_log (run_loop w folder_path file_extensions force log)) /\
  processing_errors (stats (run_loop w folder_path file_extensions force log)) = [].
Proof.
  intros Hload Hrun Hclean Hpos.
  set (r := run_loop w folder_path file_extensions force log) in *.
  destruct (chunks_nil_or_not r) as [Hnil|Hne].
  - destruct (ingest_unfold_empty w collection_name folder_path file_extensions force
                s log Hload Hnil) as (s' & _ & _ & Hrun').
    fold r in Hrun'. rewrite Hrun in Hrun'. injection Hrun' as -> _.
    unfold r in Hpos. rewrite run_loop_total_chunks in Hpos. lia.
  - destruct (ingest_unfold_batch w collection_name folder_path file_extensions force
                s log Hload Hne) as (s' & _ & _ & Hrun').
    fold r in Hrun'. rewrite Hrun in Hrun'.
    destruct (ingest_batch_cases w collection_name r s')
      as (st' & s2 & Hbatch & _ & _ & _ & Hcases).
    rewrite Hbatch in Hrun'. injection Hrun' as <- <-.
    destruct Hcases as [(e & _ & _ & ->) | (_ & _ & [(e & _ & _ & ->) | (_ & Hm & ->)])].
    + simpl in Hclean. now apply app_eq_nil in Hclean as [_ ?].
    + simpl in Hclean. now apply app_eq_nil in Hclean as [_ ?].
    + split; [exact Hm | exact Hclean].
Qed.

(** C5, as the code has it: take a folder whose candidate files are all
    PDFs with distinct manifest keys, and a first run (forced or not) that
    reported no error and indexed at least one chunk. A second, unforced
    run over the unchanged folder then reports no new and no updated file,
    skips every file, and leaves the index and the manifest as they
    were. *)
Theorem unchanged_folder_is_skipped (s s1 : Sys) (st1 : Stats) :
  let files := all_files w folder_path file_extensions in
  (forall p q, p ∈ files -> q ∈ files ->
               relpath w p folder_path = relpath w q folder_path -> p = q) ->
  (forall p, p ∈ files -> endswith p ".pdf" = true) ->
  ingest_documents_with_deduplication w collection_name folder_path
    file_extensions force s = (Returned st1, s1) ->
  processing_errors st1 = [] ->
  (0 < total_chunks st1)%nat ->
  exists st2 s2,
    ingest_documents_with_deduplication w collection_name folder_path
      file_extensions false s1 = (Returned st2, s2) /\
    new_files st2 = 0%nat /\
    updated_files st2 = 0%nat /\
    skipped_files st2 = total_files st2 /\
    total_files st2 = length files /\
    processing_errors st2 = [] /\
    points_of collection_name s2 = points_of collection_name s1 /\
    manifest_file s2 = manifest_file s1.
Proof.
  intros files Hinj Hpdf Hrun Hclean Hpos.
  destruct (ingest_returned_loaded s s1 st1 Hrun) as [log Hload].
  destruct (clean_run_persists s s1 st1 log Hload Hrun Hclean Hpos) as [Hm Hloop].
  set (log1 := processed_log (run_loop w folder_path file_extensions force log)) in *.
  assert (forall q, q ∈ files -> recorded w folder_path log1 q) as Hrec.
  { intros q Hq.
    apply (run_files_recorded w folder_path force files []
             (initial_run w folder_path file_extensions log)); auto.
    intros q' Hq'. now apply elem_of_nil in Hq'. }
  assert (load_processed_files_log s1 = (Returned log1, s1)) as Hload1.
  { unfold load_processed_files_log. now rewrite Hm. }
  assert (run_loop w folder_path file_extensions false log1
          = on_stats (Nat.iter (length files) incr_skipped)
                     (initial_run w folder_path file_extensions log1)) as Hloop2.
  { unfold run_loop. fold files. now apply run_files_all_skipped. }
  destruct (ingest_unfold_empty w collection_name folder_path file_extensions false
              s1 log1 Hload1) as (s2 & Hm2 & Hp2 & Hrun2).
  { now rewrite Hloop2. }
  eexists _, s2. split; [exact Hrun2|].
  rewrite Hloop2. unfold on_stats, initial_run. cbn [stats]. fold files.
  destruct (iter_incr_skipped (length files)
              (set_total_files (length files) stats_init))
    as (-> & -> & -> & -> & ->).
  simpl. repeat split; auto; lia.
Qed.

End Idempotence.

(** [unchanged_folder_is_skipped] on a folder of two PDFs. *)
Lemma unchanged_folder_is_skipped_two_pdfs :
  exists st2 s2,
    Scenario.run Scenario.two_pdfs [".pdf"] false
      (Scenario.run Scenario.two_pdfs [".pdf"] false Scenario.empty_sys).2
    = (Returned st2, s2) /\
    Ingest.new_files st2 = 0%nat /\
    Ingest.updated_files st2 = 0%nat /\
    Ingest.skipped_files st2 = Ingest.total_files st2 /\
    Ingest.points_of "my_documents" s2
    = Ingest.points_of "my_documents"
        (Scenario.run Scenario.two_pdfs [".pdf"] false Scenario.empty_sys).2.
Proof.
  destruct (unchanged_folder_is_skipped Scenario.two_pdfs "my_documents" "data"
              [".pdf"] false Scenario.empty_sys
              (Scenario.run Scenario.two_pdfs [".pdf"] false Scenario.empty_sys).2
              (Ingest.mkStats 2 2 0 0 2 []))
    as (st2 & s2 & Hrun & Hn & Hu & Hs & _ & _ & Hp & _).
  - intros p q Hp Hq Hk.
    apply list_elem_of_In in Hp, Hq. simpl in Hp, Hq.
    destruct Hp as [<-|[<-|[]]], Hq as [<-|[<-|[]]];
      first [reflexivity | vm_compute in Hk; discriminate Hk].
  - intros p Hp. apply list_elem_of_In in Hp. simpl in Hp.
    destruct Hp as [<-|[<-|[]]]; reflexivity.
  - vm_compute. reflexivity.
  - reflexivity.
  - simpl. lia.
  - exists st2, s2. auto.
Defined.

(** C5 fails as stated: when the loader could not read one file on the
    first run, that file is not in the manifest, and the second run over
    the unchanged folder counts it as new again. *)
Lemma unread_file_is_new_again :
  (Scenario.run Scenario.one_broken [".pdf"] false
     (Scenario.run Scenario.one_broken [".pdf"] false Scenario.empty_sys).2).1
  = Returned (Ingest.mkStats 3 1 0 2 0
                ["Error processing data/b.pdf: EOF marker not found"]).
Proof. vm_compute. reflexivity. Qed.

(** ** Re-ingesting a modified file *)

Section AppendOnly.

Import Ingest.

Variable w : World.
Variable collection_name folder_path : string.
Variable file_extensions : list string.
Variable force : bool.

(** X12: no run removes or replaces a point: the collection after the run
    is the collection before it followed by the points of the run. *)
Lemma ingest_only_appends (s s' : Sys) (st : Stats) :
  ingest_documents_with_deduplication w collection_name folder_path
    file_extensions force s = (Returned st, s') ->
  exists added,
    points_of collection_name s' = (points_of collection_name s ++ added)%list.
Proof.
  intros Hrun.
  destruct (ingest_returned_loaded w collection_name folder_path file_extensions force
              s s' st Hrun) as [log Hload].
  destruct (chunks_nil_or_not (run_loop w folder_path file_extensions force log))
    as [Hnil|Hne].
  - destruct (ingest_unfold_empty w collection_name folder_path file_extensions force
                s log Hload Hnil) as (s1 & _ & Hp & Hrun').
    rewrite Hrun in Hrun'. injection Hrun' as _ ->.
    exists []. now rewrite app_nil_r.
  - destruct (ingest_unfold_batch w collection_name folder_path file_extensions force
                s log Hload Hne) as (s1 & _ & Hp & Hrun').
    rewrite Hrun in Hrun'.
    destruct (ingest_batch_cases w collection_name
                (run_loop w folder_path file_extensions force log) s1)
      as (st' & s2 & Hbatch & _ & _ & _ & Hcases).
    rewrite Hbatch in Hrun'. injection Hrun' as _ ->.
    destruct Hcases as [(e & _ & -> & _) | (_ & Hadd & _)].
    + exists []. now rewrite app_nil_r.
    + eexists. rewrite Hadd, Hp. reflexivity.
Qed.

End AppendOnly.

(** C1 fails on the code. [report.pdf] is ingested, edited and ingested
    again: the second run counts one updated file, and the collection then
    holds the chunk of the first version next to the chunk of the current
    one, where C1 wants the current chunk only. *)
Theorem reingest_keeps_stale_vectors :
  let first := Scenario.run Scenario.report_v1 [".pdf"] false Scenario.empty_sys in
  let second := Scenario.run Scenario.report_v2 [".pdf"] false first.2 in
  Scenario.texts_of first.2 = ["first draft"] /\
  second.1 = Returned (Ingest.mkStats 1 0 1 0 1 []) /\
  Scenario.texts_of second.2 = ["first draft"; "final draft"].
Proof. vm_compute. repeat split. Qed.

(** ** Files that are not PDFs *)

(** C6 fails on the code. With [".txt"] requested, [notes.txt] is a
    candidate and is counted as new, but nothing is loaded, no chunk is
    produced, nothing reaches the index and the manifest is not written. *)
Theorem text_file_counted_but_not_ingested :
  let result := Scenario.run Scenario.notes_txt [".txt"] false Scenario.empty_sys in
  Ingest.all_files Scenario.notes_txt "data" [".txt"] = ["data/notes.txt"] /\
  result.1 = Returned (Ingest.mkStats 1 1 0 0 0 []) /\
  Ingest.all_chunks (Ingest.run_loop Scenario.notes_txt "data" [".txt"] false ∅) = [] /\
  Ingest.processed_log (Ingest.run_loop Scenario.notes_txt "data" [".txt"] false ∅)
    !! "notes.txt" = None /\
  manifest_file result.2 = NoFile /\
  Scenario.texts_of result.2 = [].
Proof. vm_compute. repeat split. Qed.

(** ** Bounded conversation memory *)

Section MemoryBudget.

Import ConversationMemory.

Variable message_tokens : Message -> nat.
Variable summarize : list Message -> string -> string.
Variable max_token_limit : nat.



End MemoryBudget.


(** ** What the loop does with a PDF, and with any other file *)

Section PdfPath.

Import Ingest.

Variable w : World.
Variable folder_path : string.
Variable force : bool.




Lemma enhanced_text_splitting_texts (docs : list Document) :
  map page_content (enhanced_text_splitting w docs)
  = flat_map (fun doc => split_text w (choose_splitter doc) (page_content doc)) docs.
Proof.
  unfold enhanced_text_splitting.
  induction docs as [|doc docs IH]; [reflexivity|].
  cbn [flat_map]. rewrite map_app, stamp_chunks_texts, split_documents_texts.
  now rewrite IH.
Qed.





(** X8: a file whose path does not end with [.pdf]: whatever its
    extension and content, the iteration adds no chunk and records
    nothing. *)
Lemma other_file_is_dropped (p : string) (r : Run) :
  endswith p ".pdf" = false ->
  all_chunks (file_step w folder_path force p r) = all_chunks r /\
  processed_log (file_step w folder_path force p r) = processed_log r.
Proof.
  intros Hext. unfold file_step.
  destruct (get_file_hash w p) as [h|e]; [|now split].
  cbn zeta.
  destruct (decide_file force (processed_log r) (relpath w p folder_path) h);
    rewrite ?Hext; now split.
Qed.

End PdfPath.

(** ** Candidate files *)

Section Candidates.

Lemma length_string_app (a b : string) :
  String.length (a ++ b) = (String.length a + String.length b)%nat.
Proof. induction a as [|c a IH]; simpl; [reflexivity | now rewrite IH]. Qed.

Lemma substring_app_suffix (a p : string) (k : nat) :
  (k <= String.length p)%nat ->
  substring (String.length (a ++ p) - k) k (a ++ p)
  = substring (String.length p - k) k p.
Proof.
  intros Hk. induction a as [|c a IH]; [reflexivity|].
  change (String c a ++ p) with (String c (a ++ p)).
  change (String.length (String c (a ++ p))) with (S (String.length (a ++ p))).
  replace (S (String.length (a ++ p)) - k)%nat
    with (S (String.length (a ++ p) - k)) by (rewrite length_string_app; lia).
  exact IH.
Qed.

Lemma endswith_app (a p suffix : string) :
  endswith p suffix = true -> endswith (a ++ p) suffix = true.
Proof.
  unfold endswith. intros H.
  apply andb_true_iff in H as [Hk Heq]. apply Nat.leb_le in Hk.
  apply andb_true_iff. split.
  - apply Nat.leb_le. rewrite length_string_app. lia.
  - now rewrite substring_app_suffix.
Qed.

Lemma endswith_path_join (root file suffix : string) :
  endswith file suffix = true -> endswith (path_join root file) suffix = true.
Proof.
  intros H. unfold path_join.
  destruct (startswith file "/"); [exact H|].
  destruct (String.eqb root "" || endswith root "/").
  - now apply endswith_app.
  - apply endswith_app. now apply (endswith_app "/").
Qed.

(** Every candidate path ends with one of the requested extensions; with
    the default list, every candidate is a PDF. *)
Lemma candidates_end_with_extension (w : World) (folder_path : string)
    (file_extensions : list string) (p : string) :
  In p (Ingest.all_files w folder_path file_extensions) ->
  exists ext, In ext file_extensions /\ endswith p ext = true.
Proof.
  unfold Ingest.all_files. intros Hin.
  apply in_flat_map in Hin as (ext & Hext & Hin).
  apply in_flat_map in Hin as ([root file] & _ & Hin).
  simpl in Hin. exists ext. split; [exact Hext|].
  destruct (endswith file ext) eqn:Hend; [|contradiction].
  destruct Hin as [<-|[]]. now apply endswith_path_join.
Qed.

Lemma default_candidates_are_pdfs (w : World) (folder_path : string) (p : string) :
  p ∈ Ingest.all_files w folder_path [".pdf"] -> endswith p ".pdf" = true.
Proof.
  intros Hin. apply list_elem_of_In in Hin.
  destruct (candidates_end_with_extension w folder_path [".pdf"] p Hin)
    as (ext & [<-|[]] & Hend).
  exact Hend.
Qed.

End Candidates.

(** * Further properties of the code *)

(** ** The collection *)

Section Collection.

Import Ingest.

Variable w : World.
Variable collection_name : string.

(** X2: [create_collection_if_not_exists] never raises and is idempotent. It
    leaves the manifest file, the points of the collection and every
    other collection as they were; when the client answers, the
    collection exists afterwards. *)
Theorem create_collection_idempotent (s : Sys) :
  exists s1,
    create_collection_if_not_exists w collection_name s = (Returned tt, s1) /\
    create_collection_if_not_exists w collection_name s1 = (Returned tt, s1) /\
    manifest_file s1 = manifest_file s /\
    points_of collection_name s1 = points_of collection_name s /\
    (forall other, other <> collection_name -> qdrant s1 !! other = qdrant s !! other) /\
    (client_failure w = None -> is_Some (qdrant s1 !! collection_name)).
Proof.
  unfold create_collection_if_not_exists, points_of.
  destruct (client_failure w) as [e|] eqn:Hclient.
  - exists s. repeat split; auto. intros H; discriminate H.
  - destruct (qdrant s !! collection_name) as [pts|] eqn:Hc.
    + exists s. rewrite Hc. repeat split; eauto.
    + eexists. split; [reflexivity|]. simpl. rewrite lookup_insert_eq.
      repeat split; eauto.
      intros other Hne. now rewrite lookup_insert_ne.
Qed.

End Collection.

(** ** Chunk metadata *)

Section ChunkMetadata.

Import Ingest.

Variable w : World.

Lemma enumerate_from_lookup {A} (xs : list A) (k : nat) (j : nat) (x : A) :
  In (j, x) (enumerate_from k xs) ->
  exists i, j = (k + i)%nat /\ xs !! i = Some x.
Proof.
  revert k. induction xs as [|y xs IH]; intros k Hin; simpl in Hin; [contradiction|].
  destruct Hin as [Heq|Hin].
  - injection Heq as <- <-. exists 0%nat. split; [lia | reflexivity].
  - destruct (IH (S k) Hin) as (i & -> & Hi).
    exists (S i). split; [lia | exact Hi].
Qed.

Lemma lookup_map_inv {A B} (f : A -> B) (xs : list A) (i : nat) (y : B) :
  map f xs !! i = Some y -> exists x, xs !! i = Some x /\ y = f x.
Proof.
  revert i. induction xs as [|x xs IH]; intros i H; [destruct i; discriminate H|].
  destruct i as [|i]; simpl in H.
  - injection H as <-. eauto.
  - apply IH in H as (x' & Hx & ->). eauto.
Qed.

(** X3: every chunk is numbered within its own document: its [chunk_index] is
    the position of its text among the pieces of that document (the
    numbering restarts with each document), [total_chunks] is the number
    of pieces of that document, [chunk_size] the length of the chunk's own
    text, and [ingestion_date] the time of the call. Keys of the same
    names in the document's metadata are overwritten. *)
Theorem chunk_numbering (documents : list Document) (chunk : Document) :
  In chunk (enhanced_text_splitting w documents) ->
  exists doc i,
    In doc documents /\
    split_text w (choose_splitter doc) (page_content doc) !! i
    = Some (page_content chunk) /\
    metadata chunk !! "chunk_index" = Some (MInt (Z.of_nat i)) /\
    metadata chunk !! "total_chunks"
    = Some (MInt (Z.of_nat
                    (length (split_text w (choose_splitter doc) (page_content doc))))) /\
    metadata chunk !! "chunk_size"
    = Some (MInt (Z.of_nat (String.length (page_content chunk)))) /\
    metadata chunk !! "ingestion_date" = Some (MStr (now_isoformat w)).
Proof.
  intros Hin. unfold enhanced_text_splitting in Hin.
  apply in_flat_map in Hin as (doc & Hdoc & Hin).
  unfold stamp_chunks in Hin. apply in_map_iff in Hin as ([j c] & <- & Hjc).
  apply enumerate_from_lookup in Hjc as (i & -> & Hi).
  unfold split_documents in Hi. apply lookup_map_inv in Hi as (t & Ht & ->).
  exists doc, i. split; [exact Hdoc|]. split; [exact Ht|].
  unfold metadata_update, dict_update, split_documents. simpl.
  rewrite length_map.
  repeat split.
  - now rewrite !lookup_insert_ne, lookup_insert_eq by discriminate.
  - now rewrite !lookup_insert_ne, lookup_insert_eq by discriminate.
  - now rewrite !lookup_insert_ne, lookup_insert_eq by discriminate.
  - now rewrite lookup_insert_eq.
Qed.

Lemma enumerate_from_at {A} (xs : list A) (k i j : nat) (x : A) :
  enumerate_from k xs !! i = Some (j, x) -> j = (k + i)%nat /\ xs !! i = Some x.
Proof.
  revert k i. induction xs as [|y xs IH]; intros k i H; [destruct i; discriminate H|].
  destruct i as [|i]; simpl in H.
  - injection H as <- <-. split; [lia | reflexivity].
  - apply IH in H as [-> Hx]. split; [lia | exact Hx].
Qed.

Lemma length_enhanced_one (doc : Document) :
  length (enhanced_text_splitting w [doc])
  = length (split_text w (choose_splitter doc) (page_content doc)).
Proof. now rewrite <- enhanced_text_splitting_one, length_map. Qed.

(** X4: splitting keeps what the loader put in a document's metadata. The
    chunks of a document follow those of the documents before it, and the
    chunk at the place of the document's [i]-th piece has the text of that
    piece and, under every key other than the four stamped per chunk,
    exactly the value of that document (or none, when the document has
    none). *)
Theorem chunk_keeps_own_document_metadata (key : string) (before after : list Document)
    (doc chunk : Document) (i : nat) :
  key <> "chunk_index" -> key <> "total_chunks" ->
  key <> "chunk_size" -> key <> "ingestion_date" ->
  (i < length (split_text w (choose_splitter doc) (page_content doc)))%nat ->
  enhanced_text_splitting w (before ++ doc :: after)
    !! (length (enhanced_text_splitting w before) + i)%nat = Some chunk ->
  metadata chunk !! key = metadata doc !! key /\
  split_text w (choose_splitter doc) (page_content doc) !! i = Some (page_content chunk).
Proof.
  intros H1 H2 H3 H4 Hi Hat.
  assert (enhanced_text_splitting w (before ++ doc :: after)
          = (enhanced_text_splitting w before
             ++ enhanced_text_splitting w [doc]
             ++ enhanced_text_splitting w after)%list) as Hsplit.
  { unfold enhanced_text_splitting. rewrite flat_map_app. simpl.
    now rewrite app_nil_r. }
  rewrite Hsplit in Hat.
  rewrite lookup_app_r in Hat by lia.
  replace (length (enhanced_text_splitting w before) + i
           - length (enhanced_text_splitting w before))%nat with i in Hat by lia.
  rewrite lookup_app_l in Hat by (rewrite length_enhanced_one; exact Hi).
  unfold enhanced_text_splitting in Hat. simpl in Hat. rewrite app_nil_r in Hat.
  unfold stamp_chunks in Hat.
  apply lookup_map_inv in Hat as ([j c] & Hjc & ->).
  apply enumerate_from_at in Hjc as [_ Hc].
  unfold split_documents in Hc. apply lookup_map_inv in Hc as (t & Ht & ->).
  split; [|exact Ht].
  unfold metadata_update, dict_update. simpl.
  now rewrite !lookup_insert_ne by congruence.
Qed.

(** X5: the texts of the chunks are the pieces of the documents, in document
    order and in piece order, each document split with the policy chosen
    for its own length; so there are as many chunks as pieces, and
    splitting a concatenation of document lists is the concatenation of
    the splittings. *)
Theorem chunks_follow_documents (docs1 docs2 : list Document) :
  map page_content (enhanced_text_splitting w (docs1 ++ docs2))
  = (flat_map (fun doc => split_text w (choose_splitter doc) (page_content doc)) docs1
     ++ flat_map (fun doc => split_text w (choose_splitter doc) (page_content doc)) docs2)%list
  /\ enhanced_text_splitting w (docs1 ++ docs2)
     = (enhanced_text_splitting w docs1 ++ enhanced_text_splitting w docs2)%list
  /\ length (enhanced_text_splitting w docs1)
     = length (flat_map (fun doc => split_text w (choose_splitter doc) (page_content doc))
                        docs1).
Proof.
  split; [|split].
  - now rewrite enhanced_text_splitting_texts, flat_map_app.
  - unfold enhanced_text_splitting. apply flat_map_app.
  - rewrite <- enhanced_text_splitting_texts. now rewrite length_map.
Qed.

End ChunkMetadata.

(** ** More on ingestion runs *)

Section RunShape.

Import Ingest.

Variable w : World.
Variable collection_name folder_path : string.
Variable file_extensions : list string.
Variable force : bool.

(** The four ways a run that returns can end: nothing to send, a failed
    batch, a batch sent with the log not written, a batch sent and the
    log written. *)
Lemma ingest_result_cases (s s' : Sys) (st : Stats) :
  ingest_documents_with_deduplication w collection_name folder_path
    file_extensions force s = (Returned st, s') ->
  exists log,
    load_processed_files_log s = (Returned log, s) /\
    ((all_chunks (run_loop w folder_path file_extensions force log) = [] /\
      st = stats (run_loop w folder_path file_extensions force log) /\
      manifest_file s' = manifest_file s /\
      points_of collection_name s' = points_of collection_name s)
     \/
     (all_chunks (run_loop w folder_path file_extensions force log) <> [] /\
      ((exists e,
          provider_failure w
            (all_chunks (run_loop w folder_path file_extensions force log)) = Some e /\
          st = append_error (qdrant_error_msg e)
                 (stats (run_loop w folder_path file_extensions force log)) /\
          manifest_file s' = manifest_file s /\
          points_of collection_name s' = points_of collection_name s)
       \/
       (provider_failure w
          (all_chunks (run_loop w folder_path file_extensions force log)) = None /\
        points_of collection_name s'
        = (points_of collection_name s
           ++ new_points w (fresh_id (points_of collection_name s))
                (all_chunks (run_loop w folder_path file_extensions force log)))%list /\
        ((exists e,
            write_failure w = Some e /\
            manifest_file s' = manifest_file s /\
            st = append_error (qdrant_error_msg e)
                   (set_total_chunks
                      (length (all_chunks
                                 (run_loop w folder_path file_extensions force log)))
                      (stats (run_loop w folder_path file_extensions force log))))
         \/
         (write_failure w = None /\
          manifest_file s'
          = Valid (processed_log (run_loop w folder_path file_extensions force log)) /\
          st = set_total_chunks
                 (length (all_chunks (run_loop w folder_path file_extensions force log)))
                 (stats (run_loop w folder_path file_extensions force log)))))))).
Proof.
  intros Hrun.
  destruct (ingest_returned_loaded w collection_name folder_path file_extensions force
              s s' st Hrun) as [log Hload].
  exists log. split; [exact Hload|].
  set (r := run_loop w folder_path file_extensions force log) in *.
  destruct (chunks_nil_or_not r) as [Hnil|Hne].
  - left.
    destruct (ingest_unfold_empty w collection_name folder_path file_extensions force
                s log Hload Hnil) as (s1 & Hm & Hp & Hrun').
    fold r in Hrun'. rewrite Hrun in Hrun'. injection Hrun' as -> ->. auto.
  - right. split; [exact Hne|].
    destruct (ingest_unfold_batch w collection_name folder_path file_extensions force
                s log Hload Hne) as (s1 & Hm & Hp & Hrun').
    fold r in Hrun'. rewrite Hrun in Hrun'.
    destruct (ingest_batch_cases w collection_name r s1)
      as (st' & s2 & Hbatch & _ & _ & _ & Hcases).
    rewrite Hbatch in Hrun'. injection Hrun' as <- <-.
    destruct Hcases as [(e & Hfail & -> & ->) | (Hok & Hadd & Hwrite)].
    + left. exists e. auto.
    + right. split; [exact Hok|]. split; [now rewrite Hadd, Hp|].
      destruct Hwrite as [(e & Hw & Hm2 & ->) | (Hw & Hm2 & ->)].
      * left. exists e. repeat split; congruence.
      * right. auto.
Qed.

(** The counters of a returned run are those of its loop. *)
Lemma ingest_counters (s s' : Sys) (st : Stats) :
  ingest_documents_with_deduplication w collection_name folder_path
    file_extensions force s = (Returned st, s') ->
  exists log,
    load_processed_files_log s = (Returned log, s) /\
    total_files st = total_files (stats (run_loop w folder_path file_extensions force log)) /\
    new_files st = new_files (stats (run_loop w folder_path file_extensions force log)) /\
    updated_files st
    = updated_files (stats (run_loop w folder_path file_extensions force log)) /\
    skipped_files st
    = skipped_files (stats (run_loop w folder_path file_extensions force log)) /\
    (length (processing_errors st)
     <= S (length (processing_errors
                     (stats (run_loop w folder_path file_extensions force log)))))%nat.
Proof.
  intros Hrun.
  destruct (ingest_result_cases s s' st Hrun) as (log & Hload & Hcases).
  exists log. split; [exact Hload|].
  destruct Hcases as [(_ & -> & _) | (_ & [(e & _ & -> & _) | (_ & _ & [(e & _ & _ & ->) | (_ & _ & ->)])])];
    simpl; rewrite ?length_app; simpl; repeat split; lia.
Qed.

End RunShape.

Section LoopInvariants.

Import Ingest.

Variable w : World.
Variable folder_path : string.

Lemma file_step_forced (p : string) (r : Run) :
  skipped_files (stats (file_step w folder_path true p r)) = skipped_files (stats r) /\
  updated_files (stats (file_step w folder_path true p r)) = updated_files (stats r).
Proof.
  unfold file_step.
  destruct (get_file_hash w p) as [h|e]; [|now split].
  cbn zeta. unfold decide_file.
  destruct (endswith p ".pdf"); [|now split].
  match goal with
  | |- context [load_pdf ?a ?b ?c ?d ?e] =>
      destruct (load_pdf_cases a b c d e) as [[e' ->]|[chunks ->]]; now split
  end.
Qed.

Lemma run_files_forced (files : list string) (r : Run) :
  skipped_files (stats (run_files w folder_path true files r)) = skipped_files (stats r) /\
  updated_files (stats (run_files w folder_path true files r)) = updated_files (stats r).
Proof.
  revert r. induction files as [|p files IH]; intros r.
  - now rewrite run_files_nil.
  - rewrite run_files_cons.
    destruct (IH (file_step w folder_path true p r)) as [-> ->].
    apply file_step_forced.
Qed.

Variable force : bool.


Lemma run_files_error_count (files : list string) (r : Run) :
  (length (processing_errors (stats (run_files w folder_path force files r)))
   <= length (processing_errors (stats r)) + length files)%nat.
Proof.
  revert r. induction files as [|p files IH]; intros r.
  - rewrite run_files_nil. lia.
  - rewrite run_files_cons.
    pose proof (IH (file_step w folder_path force p r)) as Hrest.
    rewrite file_step_errors, length_app in Hrest.
    destruct (process_file w folder_path force p r).1; simpl in *; lia.
Qed.

End LoopInvariants.

Section RunProperties.

Import Ingest.

Variable w : World.
Variable collection_name folder_path : string.
Variable file_extensions : list string.

(** X9: a forced run never reports a skipped or an updated file: every file
    it could hash is counted as new, also one that is unchanged or one
    that changed since it was recorded. *)
Theorem forced_run_counts_everything_new (s s' : Sys) (st : Stats) :
  ingest_documents_with_deduplication w collection_name folder_path
    file_extensions true s = (Returned st, s') ->
  skipped_files st = 0%nat /\
  updated_files st = 0%nat /\
  (new_files st
   + length (filter (fun p => hash_fails w p) (all_files w folder_path file_extensions))
   = total_files st)%nat.
Proof.
  intros Hrun.
  destruct (ingest_counters w collection_name folder_path file_extensions true
              s s' st Hrun) as (log & _ & Ht & Hn & Hu & Hs & _).
  unfold run_loop in *.
  destruct (run_files_forced w folder_path (all_files w folder_path file_extensions)
              (initial_run w folder_path file_extensions log)) as [Hskip Hupd].
  destruct (run_files_counted w folder_path true (all_files w folder_path file_extensions)
              (initial_run w folder_path file_extensions log)) as (Hcount & Htotal & _).
  unfold counted in Hcount. simpl in Hskip, Hupd, Hcount, Htotal.
  rewrite Hs, Hu, Hn, Ht. repeat split; lia.
Qed.

Variable force : bool.

Lemma new_points_payloads (next : nat) (docs : list Document) :
  map pt_payload (new_points w next docs) = docs /\
  map pt_vector (new_points w next docs) = map (fun d => embed w (page_content d)) docs /\
  map pt_id (new_points w next docs) = seq next (length docs).
Proof.
  revert next. induction docs as [|d docs IH]; intros next; simpl; [auto|].
  destruct (IH (S next)) as (-> & -> & ->). auto.
Qed.

(** X11: when the batch is sent and the provider accepts it, the collection
    gains exactly one point per accumulated chunk, in order, after the
    points it had: each carries its chunk as payload and the embedding of
    the chunk's text, and [total_chunks] is their number. This holds
    whether or not the manifest could be written afterwards. *)
Theorem accepted_batch_adds_one_point_per_chunk (s : Sys) (log : gmap string LogEntry) :
  load_processed_files_log s = (Returned log, s) ->
  all_chunks (run_loop w folder_path file_extensions force log) <> [] ->
  provider_failure w (all_chunks (run_loop w folder_path file_extensions force log))
  = None ->
  exists st s' added,
    ingest_documents_with_deduplication w collection_name folder_path
      file_extensions force s = (Returned st, s') /\
    points_of collection_name s' = (points_of collection_name s ++ added)%list /\
    map pt_payload added = all_chunks (run_loop w folder_path file_extensions force log) /\
    map pt_vector added
    = map (fun d => embed w (page_content d))
          (all_chunks (run_loop w folder_path file_extensions force log)) /\
    total_chunks st = length added.
Proof.
  intros Hload Hne Hok.
  destruct (ingest_unfold_batch w collection_name folder_path file_extensions force
              s log Hload Hne) as (s1 & _ & Hp & Hrun).
  destruct (ingest_batch_cases w collection_name
              (run_loop w folder_path file_extensions force log) s1)
    as (st & s2 & Hbatch & _ & _ & _ & Hcases).
  destruct Hcases as [(e & Hfail & _) | (_ & Hadd & Hwrite)]; [congruence|].
  destruct (new_points_payloads (fresh_id (points_of collection_name s))
              (all_chunks (run_loop w folder_path file_extensions force log)))
    as (Hpay & Hvec & Hid).
  exists st, s2, (new_points w (fresh_id (points_of collection_name s))
                    (all_chunks (run_loop w folder_path file_extensions force log))).
  split; [congruence|]. split; [now rewrite Hadd, Hp|].
  split; [exact Hpay|]. split; [exact Hvec|].
  rewrite <- (length_map pt_payload), Hpay.
  destruct Hwrite as [(e & _ & _ & ->) | (_ & _ & ->)]; reflexivity.
Qed.

(** X13: with no candidate file (an empty folder, no file with a requested
    extension, or an empty extension list) the run returns statistics
    that are all zero and writes nothing: the manifest file and the points
    of the collection are as before. *)
Theorem run_without_candidates (s : Sys) (log : gmap string LogEntry) :
  load_processed_files_log s = (Returned log, s) ->
  all_files w folder_path file_extensions = [] ->
  exists s',
    ingest_documents_with_deduplication w collection_name folder_path
      file_extensions force s = (Returned stats_init, s') /\
    manifest_file s' = manifest_file s /\
    points_of collection_name s' = points_of collection_name s.
Proof.
  intros Hload Hnone.
  assert (run_loop w folder_path file_extensions force log = mkRun log [] stats_init)
    as Hloop.
  { unfold run_loop, initial_run. rewrite Hnone. reflexivity. }
  destruct (ingest_unfold_empty w collection_name folder_path file_extensions force
              s log Hload) as (s1 & Hm & Hp & Hrun).
  { now rewrite Hloop. }
  exists s1. rewrite Hloop in Hrun. auto.
Qed.

(** X14: the error list is bounded by the work done: at most one message per
    candidate file, and one more for the batch. *)
Theorem errors_bounded_by_files (s s' : Sys) (st : Stats) :
  ingest_documents_with_deduplication w collection_name folder_path
    file_extensions force s = (Returned st, s') ->
  (length (processing_errors st) <= total_files st + 1)%nat.
Proof.
  intros Hrun.
  destruct (ingest_counters w collection_name folder_path file_extensions force
              s s' st Hrun) as (log & _ & Ht & _ & _ & _ & Herr).
  unfold run_loop in *.
  pose proof (run_files_error_count w folder_path force
                (all_files w folder_path file_extensions)
                (initial_run w folder_path file_extensions log)) as Hloop.
  destruct (run_files_counted w folder_path force (all_files w folder_path file_extensions)
              (initial_run w folder_path file_extensions log)) as (_ & Htotal & _).
  simpl in Hloop, Htotal. lia.
Qed.

(** X6: the candidate list is, for each requested extension in the order
    given, the joined paths of the walked files whose name ends with it, in
    walk order. So a file is listed once for every requested extension its
    name ends with, an extension requested twice lists its files twice, and
    every path listed for an extension ends with that extension. *)
Theorem candidates_per_extension (exts1 exts2 : list string) (ext : string) :
  all_files w folder_path (exts1 ++ exts2)
  = (all_files w folder_path exts1 ++ all_files w folder_path exts2)%list /\
  all_files w folder_path [ext]
  = map (fun rf : string * string => path_join rf.1 rf.2)
        (List.filter (fun rf : string * string => endswith rf.2 ext) (walk w folder_path)) /\
  (forall p, In p (all_files w folder_path [ext]) -> endswith p ext = true).
Proof.
  split; [|split].
  - unfold all_files. apply flat_map_app.
  - unfold all_files. simpl. rewrite app_nil_r.
    induction (walk w folder_path) as [|rf rest IH]; [reflexivity|].
    simpl. destruct (endswith rf.2 ext); simpl; now rewrite IH.
  - intros p Hin.
    destruct (candidates_end_with_extension w folder_path [ext] p Hin)
      as (ext' & [<-|[]] & Hend).
    exact Hend.
Qed.

End RunProperties.

(** ** Configuration *)

Section ConfigProperties.

Import Config.

(** X15: after [__post_init__] the extension list is never [None]: a missing
    list becomes the four default extensions, an explicit list (an empty
    one too) is kept, no other field changes, and running it again
    changes nothing. *)
Theorem post_init_fills_extensions (c : RAGConfig) :
  supported_extensions (post_init c)
  = Some (match supported_extensions c with
          | Some exts => exts
          | None => [".pdf"; ".txt"; ".md"; ".docx"]
          end) /\
  post_init (post_init c) = post_init c /\
  with_extensions (post_init c) [] = with_extensions c [] /\
  (forall exts, supported_extensions c = Some exts -> post_init c = c).
Proof.
  unfold post_init.
  destruct (supported_extensions c) as [exts|] eqn:Hext.
  - split; [exact Hext|]. split; [now rewrite Hext|].
    split; [reflexivity | auto].
  - simpl. split; [reflexivity|]. split; [reflexivity|].
    split; [reflexivity|]. intros exts H. discriminate H.
Qed.

Lemma to_dict_ignores_show_sources (b : bool) (c : RAGConfig) :
  to_dict (with_show_sources b c) = to_dict c.
Proof. reflexivity. Qed.

(** X20: [to_dict] loses exactly the [show_sources] field: it always reports
    [True] under ['show_sources'], and two configurations have the same
    dictionary if and only if they agree on every other field. *)
Theorem to_dict_forgets_show_sources (c1 c2 : RAGConfig) :
  to_dict c1 !! "show_sources" = Some (CBool true) /\
  (to_dict c1 = to_dict c2 <-> with_show_sources true c1 = with_show_sources true c2).
Proof.
  split; [reflexivity|]. split.
  - intros H.
    assert (forall key, to_dict c1 !! key = to_dict c2 !! key) as Hk
      by (intros key; now rewrite H).
    destruct c1, c2. unfold with_show_sources. simpl.
    pose proof (Hk "collection_name") as H1. vm_compute in H1.
    pose proof (Hk "llm_model") as H2. vm_compute in H2.
    pose proof (Hk "llm_temperature") as H3. vm_compute in H3.
    pose proof (Hk "max_tokens") as H4. vm_compute in H4.
    pose proof (Hk "retrieval_k") as H5. vm_compute in H5.
    pose proof (Hk "retrieval_fetch_k") as H6. vm_compute in H6.
    pose proof (Hk "search_type") as H7. vm_compute in H7.
    pose proof (Hk "chunk_size") as H8. vm_compute in H8.
    pose proof (Hk "chunk_overlap") as H9. vm_compute in H9.
    pose proof (Hk "large_doc_chunk_size") as H10. vm_compute in H10.
    pose proof (Hk "large_doc_chunk_overlap") as H11. vm_compute in H11.
    pose proof (Hk "large_doc_threshold") as H12. vm_compute in H12.
    pose proof (Hk "memory_max_tokens") as H13. vm_compute in H13.
    pose proof (Hk "conversation_summary_enabled") as H14. vm_compute in H14.
    pose proof (Hk "supported_extensions") as H15. vm_compute in H15.
    pose proof (Hk "force_reprocess") as H16. vm_compute in H16.
    pose proof (Hk "max_sources_display") as H17. vm_compute in H17.
    pose proof (Hk "source_preview_length") as H18. vm_compute in H18.
    pose proof (Hk "use_compression") as H19. vm_compute in H19.
    pose proof (Hk "track_costs") as H20. vm_compute in H20.
    pose proof (Hk "enable_logging") as H21. vm_compute in H21.
    clear Hk H.
    assert (supported_extensions0 = supported_extensions1) as ->.
    { destruct supported_extensions0, supported_extensions1;
        simpl in H15; congruence. }
    clear H15.
    injection H1 as ->. injection H2 as ->. injection H3 as ->. injection H4 as ->.
    injection H5 as ->. injection H6 as ->. injection H7 as ->. injection H8 as ->.
    injection H9 as ->. injection H10 as ->. injection H11 as ->. injection H12 as ->.
    injection H13 as ->. injection H14 as ->. injection H16 as ->. injection H17 as ->.
    injection H18 as ->. injection H19 as ->. injection H20 as ->. injection H21 as ->.
    reflexivity.
  - intros H.
    rewrite <- (to_dict_ignores_show_sources true c1),
            <- (to_dict_ignores_show_sources true c2).
    now rewrite H.
Qed.

Variable py_int : string -> Outcome Z.
Variable py_float : string -> Outcome Q.
Variable environ : gmap string string.

(** X17: the fields [from_env] does not read cannot be set from the
    environment: whatever the variables hold, a configuration it returns
    has the default large-document policy and threshold, fetch size,
    search type, extension list, display settings and flags. *)
Theorem from_env_unread_fields (c : RAGConfig) :
  from_env py_int py_float environ = Returned c ->
  large_doc_chunk_size c = 1200 /\
  large_doc_chunk_overlap c = 150 /\
  large_doc_threshold c = 5000 /\
  retrieval_fetch_k c = 20 /\
  search_type c = "mmr" /\
  supported_extensions c = Some [".pdf"; ".txt"; ".md"; ".docx"] /\
  force_reprocess c = false /\
  conversation_summary_enabled c = true /\
  show_sources c = true /\
  max_sources_display c = 3 /\
  source_preview_length c = 200 /\
  enable_logging c = true.
Proof.
  unfold from_env, and_then. intros H.
  destruct (py_float _); [|discriminate H].
  repeat (destruct (py_int _); [|discriminate H]).
  injection H as <-. repeat split.
Qed.

(** X18: a flag read by [from_env] is on when its variable is unset or holds
    [true] in any letter case, and off for every other text ([1], [yes],
    [on], the empty string, ...). *)
Theorem from_env_flags (c : RAGConfig) :
  from_env py_int py_float environ = Returned c ->
  (use_compression c = true <->
   environ !! "RAG_USE_COMPRESSION" = None \/
   exists v, environ !! "RAG_USE_COMPRESSION" = Some v /\ lower v = "true") /\
  (track_costs c = true <->
   environ !! "RAG_TRACK_COSTS" = None \/
   exists v, environ !! "RAG_TRACK_COSTS" = Some v /\ lower v = "true").
Proof.
  unfold from_env, and_then. intros H.
  destruct (py_float _); [|discriminate H].
  repeat (destruct (py_int _); [|discriminate H]).
  injection H as <-. simpl. unfold getenv_flag, getenv.
  split.
  - destruct (environ !! "RAG_USE_COMPRESSION") as [v|].
    + rewrite String.eqb_eq. split; [eauto|].
      intros [H|(v' & H & Hv)]; congruence.
    + split; [auto | reflexivity].
  - destruct (environ !! "RAG_TRACK_COSTS") as [v|].
    + rewrite String.eqb_eq. split; [eauto|].
      intros [H|(v' & H & Hv)]; congruence.
    + split; [auto | reflexivity].
Qed.

(** X19: [from_env] does not guard its conversions: it raises exactly when
    [float] or [int] rejects one of the six numeric texts (the variable's
    value, or the default text when the variable is unset), with the
    exception of that conversion. *)
Theorem from_env_raises_on_bad_number (e : PyException) :
  from_env py_int py_float environ = Raised e <->
  py_float (getenv environ "RAG_TEMPERATURE" "0.1") = Raised e \/
  (exists t, py_float (getenv environ "RAG_TEMPERATURE" "0.1") = Returned t) /\
  (py_int (getenv environ "RAG_MAX_TOKENS" "1000") = Raised e \/
   (exists n, py_int (getenv environ "RAG_MAX_TOKENS" "1000") = Returned n) /\
   (py_int (getenv environ "RAG_RETRIEVAL_K" "6") = Raised e \/
    (exists n, py_int (getenv environ "RAG_RETRIEVAL_K" "6") = Returned n) /\
    (py_int (getenv environ "RAG_CHUNK_SIZE" "800") = Raised e \/
     (exists n, py_int (getenv environ "RAG_CHUNK_SIZE" "800") = Returned n) /\
     (py_int (getenv environ "RAG_CHUNK_OVERLAP" "100") = Raised e \/
      (exists n, py_int (getenv environ "RAG_CHUNK_OVERLAP" "100") = Returned n) /\
      py_int (getenv environ "RAG_MEMORY_MAX_TOKENS" "800") = Raised e)))).
Proof.
  unfold from_env, and_then.
  destruct (py_float _) as [t|e0];
    [destruct (py_int (getenv environ "RAG_MAX_TOKENS" "1000")) as [n1|e1];
     [destruct (py_int (getenv environ "RAG_RETRIEVAL_K" "6")) as [n2|e2];
      [destruct (py_int (getenv environ "RAG_CHUNK_SIZE" "800")) as [n3|e3];
       [destruct (py_int (getenv environ "RAG_CHUNK_OVERLAP" "100")) as [n4|e4];
        [destruct (py_int (getenv environ "RAG_MEMORY_MAX_TOKENS" "800")) as [n5|e5]
        |] |] |] |] |].
  all: split;
    [ intros H; try discriminate H; injection H as ->;
      repeat first [left; reflexivity | right; split; [eexists; reflexivity|]];
      try reflexivity
    | intros H;
      repeat match goal with
             | D : _ \/ _ |- _ => destruct D as [D|D]
             | D : _ /\ _ |- _ => destruct D as [? D]
             | D : exists _, _ |- _ => destruct D as [? D]
             end;
      congruence ].
Qed.

End ConfigProperties.

(** X16: when none of the variables [from_env] reads is set, and [float] and
    [int] read the default texts as the numbers they spell, [from_env]
    returns the default configuration. *)
Theorem from_env_without_variables (py_int : string -> Outcome Z)
    (py_float : string -> Outcome Q) (environ : gmap string string) :
  (forall key, In key Config.env_variables -> environ !! key = None) ->
  py_float "0.1" = Returned (1 # 10) ->
  py_int "1000" = Returned 1000 ->
  py_int "6" = Returned 6 ->
  py_int "800" = Returned 800 ->
  py_int "100" = Returned 100 ->
  Config.from_env py_int py_float environ = Returned Config.default_config.
Proof.
  intros Hunset Hf H1000 H6 H800 H100.
  unfold Config.from_env, Config.getenv_flag, Config.getenv.
  rewrite !Hunset by (simpl; tauto).
  rewrite Hf, H1000, H6, H800, H100. reflexivity.
Qed.

(** ** Queries and memory statistics *)

Section QueryResultShape.

Import RagChain.

Variable c : Chain.

(** X21: the metadata of a query result tells success from failure: after a
    successful chain call it holds the token count, the cost, the time and
    the number of sources returned, and no ["error"]; after a failed one
    it holds ["error"] only, with no sources and an empty history.
    [query] itself never changes the memory: the memory afterwards is the
    one the chain call left. *)
Theorem query_result_shape (question : string) (m : Memory) :
  exists r,
    query c question m = (Returned r, (qa_chain c question m).2) /\
    match (qa_chain c question m).1 with
    | Returned rc =>
        answer r = cr_answer rc.1 /\
        source_documents r = cr_source_documents rc.1 /\
        chat_history r = chat_messages (qa_chain c question m).2 /\
        qr_metadata r !! "error" = None /\
        qr_metadata r !! "tokens_used" = Some (QInt (cb_total_tokens rc.2)) /\
        qr_metadata r !! "cost" = Some (QNum (cb_total_cost rc.2)) /\
        qr_metadata r !! "timestamp" = Some (QStr (timestamp c)) /\
        qr_metadata r !! "num_sources"
        = Some (QInt (Z.of_nat (length (source_documents r))))
    | Raised e =>
        source_documents r = [] /\
        chat_history r = [] /\
        qr_metadata r = {[ "error" := QStr (exc_str e) ]} /\
        qr_metadata r !! "tokens_used" = None /\
        qr_metadata r !! "num_sources" = None
    end.
Proof.
  unfold query, try_except, bind.
  destruct (qa_chain c question m) as [[rc|e] m']; simpl.
  - eexists. split; [reflexivity|]. simpl. repeat split.
  - eexists. split; [reflexivity|]. simpl. repeat split.
Qed.

(** X22: the two views of the memory agree. Every stored message is counted
    once, as a question or as an answer; and [has_summary] is false
    exactly when the summary is empty, which is when
    [get_conversation_summary] returns its placeholder instead of the
    summary. *)
Theorem memory_stats_consistent (m : Memory) :
  (total_messages (get_memory_stats m)
   = human_messages (get_memory_stats m) + ai_messages (get_memory_stats m))%nat /\
  (has_summary (get_memory_stats m) = false <-> moving_summary_buffer m = "") /\
  (has_summary (get_memory_stats m) = false ->
   get_conversation_summary m = "No conversation history yet.") /\
  (has_summary (get_memory_stats m) = true ->
   get_conversation_summary m = moving_summary_buffer m).
Proof.
  unfold get_memory_stats, get_conversation_summary. simpl.
  split; [|split; [|split]].
  - induction (chat_messages m) as [|msg msgs IH]; [reflexivity|].
    cbn [List.filter length]. unfold is_human at 1, is_ai at 1.
    destruct (msg_role msg); simpl; lia.
  - rewrite negb_false_iff. apply String.eqb_eq.
  - intros H. apply negb_false_iff in H. now rewrite H.
  - intros H. apply negb_true_iff in H. now rewrite H.
Qed.

End QueryResultShape.

(** ** The source list of the chat interface *)

Section SourceList.

Import Ui.

Lemma length_substring_prefix (n : nat) (s : string) :
  (n <= String.length s)%nat -> String.length (substring 0 n s) = n.
Proof.
  revert s. induction n as [|n IH]; intros s Hn.
  - now destruct s.
  - destruct s as [|c s]; simpl in *; [lia|]. rewrite IH; [reflexivity | lia].
Qed.

(** X23: the preview of a passage is the passage itself when it has at most
    150 characters, and otherwise its first 150 characters followed by
    three dots: it is never longer than 153 characters. *)
Theorem content_preview_bounded (text : string) :
  (String.length (content_preview text) <= 153)%nat /\
  ((String.length text <= 150)%nat -> content_preview text = text) /\
  ((150 < String.length text)%nat ->
   content_preview text = substring 0 150 text ++ "..." /\
   String.length (content_preview text) = 153%nat).
Proof.
  unfold content_preview.
  destruct (Nat.ltb_spec 150 (String.length text)) as [Hlong|Hshort].
  - assert (String.length (substring 0 150 text ++ "...") = 153%nat) as Hlen.
    { rewrite length_string_app, length_substring_prefix by lia. reflexivity. }
    split; [lia|]. split; [lia | auto].
  - split; [lia|]. split; [auto | lia].
Qed.

Lemma source_entries_listed (docs : list Document) (i : nat) (acc : string) :
  (forall doc n, In doc docs -> metadata doc !! "source" <> Some (MInt n)) ->
  exists text, source_entries i docs acc = Returned text.
Proof.
  revert i acc. induction docs as [|doc docs IH]; intros i acc Hok; simpl.
  - eauto.
  - unfold source_entry.
    destruct (metadata doc !! "source") as [[s|n]|] eqn:Hs; simpl.
    + apply IH. intros d n Hd. apply Hok. now right.
    + exfalso. apply (Hok doc n); [now left | exact Hs].
    + apply IH. intros d n Hd. apply Hok. now right.
Qed.

Lemma source_entries_refused (docs : list Document) (i : nat) (acc : string) :
  (exists doc n, In doc docs /\ metadata doc !! "source" = Some (MInt n)) ->
  source_entries i docs acc
  = Raised (mkExc "TypeError" "expected str, bytes or os.PathLike object, not int").
Proof.
  revert i acc. induction docs as [|doc docs IH]; intros i acc (d & n & Hin & Hbad).
  - destruct Hin.
  - simpl. unfold source_entry.
    destruct (metadata doc !! "source") as [[s|n']|] eqn:Hs; simpl; try reflexivity;
      (destruct Hin as [->|Hin]; [congruence|]); apply IH; eauto.
Qed.

(** X24: only the first four sources are listed and read: with four or more
    sources, whatever follows them changes nothing, not even a source
    whose metadata would make the listing fail. The list is produced when
    each of the first four sources has a text, or nothing, under
    [source]; when one of them has a number there, [os.path.basename]
    raises [TypeError] instead. *)
Theorem source_list_is_capped (sources more : list Document) :
  (4 <= length sources)%nat ->
  source_info (sources ++ more) = source_info sources /\
  ((forall doc n, In doc (firstn 4 sources) -> metadata doc !! "source" <> Some (MInt n)) ->
   exists text, source_info sources = Some (Returned text)) /\
  ((exists doc n, In doc (firstn 4 sources) /\ metadata doc !! "source" = Some (MInt n)) ->
   source_info sources
   = Some (Raised (mkExc "TypeError" "expected str, bytes or os.PathLike object, not int"))).
Proof.
  intros Hlen. unfold source_info.
  destruct sources as [|d sources]; [simpl in Hlen; lia|].
  split; [|split].
  - change ((d :: sources) ++ more)%list with (d :: (sources ++ more)%list).
    do 2 f_equal.
    exact (take_app_le (d :: sources) more 4 Hlen).
  - intros Hok.
    destruct (source_entries_listed (firstn 4 (d :: sources)) 1
                ("📚 **Sources & References:**" ++ nl ++ nl) Hok) as (text & ->).
    eauto.
  - intros Hbad. f_equal. now apply source_entries_refused.
Qed.

(** X25: after a failed query there is no source list: the result has no
    sources, so the interface sends none. *)
Theorem failed_query_lists_no_sources (c : RagChain.Chain) (question : string)
    (m : Memory) (e : PyException) :
  (RagChain.qa_chain c question m).1 = Raised e ->
  exists r,
    (RagChain.query c question m).1 = Returned r /\
    source_info (RagChain.source_documents r) = None.
Proof.
  intros Hfail.
  destruct (RagChain.qa_chain c question m) as [o m'] eqn:Hrun.
  simpl in Hfail. subst o.
  eexists. rewrite (query_failure c question m m' e Hrun).
  split; reflexivity.
Qed.

End SourceList.

(** ** The properties above on concrete folders *)

Lemma page_chunk_in_splitting :
  In Scenario.page_chunk
     (Ingest.enhanced_text_splitting Scenario.two_pdfs [Scenario.page_doc]).
Proof. left. reflexivity. Defined.

(** [chunk_numbering] on a one-page document: its only chunk is chunk 0
    of 1. *)
Lemma chunk_numbering_single_page :
  metadata Scenario.page_chunk !! "chunk_index" = Some (MInt 0) /\
  metadata Scenario.page_chunk !! "total_chunks" = Some (MInt 1).
Proof.
  destruct (chunk_numbering Scenario.two_pdfs [Scenario.page_doc] Scenario.page_chunk
              page_chunk_in_splitting)
    as (doc & i & Hdoc & Hi & Hindex & Htotal & _).
  destruct Hdoc as [<-|[]].
  destruct i as [|i]; [|destruct i; discriminate Hi].
  split; [exact Hindex | exact Htotal].
Defined.

(** [chunk_keeps_own_document_metadata] on two pages of one file: the
    chunk of the second page carries the second page's number. *)
Lemma second_chunk_keeps_second_page :
  metadata (nth 1 (Ingest.enhanced_text_splitting Scenario.two_pdfs
                     [Scenario.page_doc; Scenario.second_page])
                Scenario.page_doc) !! "page"
  = Some (MInt 1).
Proof.
  destruct (chunk_keeps_own_document_metadata Scenario.two_pdfs "page"
              [Scenario.page_doc] [] Scenario.second_page
              (nth 1 (Ingest.enhanced_text_splitting Scenario.two_pdfs
                        [Scenario.page_doc; Scenario.second_page])
                   Scenario.page_doc) 0) as [Hpage _];
    try (intros H; discriminate H).
  - vm_compute. lia.
  - vm_compute. reflexivity.
  - rewrite Hpage. vm_compute. reflexivity.
Defined.

(** [candidates_per_extension] when [.pdf] is requested twice over the two
    PDFs: each is listed twice, the second listings after the first. *)
Lemma extension_requested_twice :
  Ingest.all_files Scenario.two_pdfs "data" [".pdf"; ".pdf"]
  = ["data/a.pdf"; "data/b.pdf"; "data/a.pdf"; "data/b.pdf"].
Proof.
  destruct (candidates_per_extension Scenario.two_pdfs "data" [".pdf"] [".pdf"] ".pdf")
    as (Happ & Hone & _).
  change [".pdf"; ".pdf"] with ([".pdf"] ++ [".pdf"])%list.
  rewrite Happ, Hone. reflexivity.
Defined.

(** [forced_run_counts_everything_new]: a forced second run over two
    unchanged PDFs. *)
Lemma forced_run_over_unchanged_pdfs :
  Ingest.skipped_files (Ingest.mkStats 2 2 0 0 2 []) = 0%nat /\
  Ingest.updated_files (Ingest.mkStats 2 2 0 0 2 []) = 0%nat /\
  (Ingest.new_files (Ingest.mkStats 2 2 0 0 2 [])
   + length (filter (fun p => Ingest.hash_fails Scenario.two_pdfs p)
                    (Ingest.all_files Scenario.two_pdfs "data" [".pdf"]))
   = Ingest.total_files (Ingest.mkStats 2 2 0 0 2 []))%nat.
Proof.
  apply (forced_run_counts_everything_new Scenario.two_pdfs "my_documents" "data"
           [".pdf"] Scenario.after_two_pdfs
           (Scenario.run Scenario.two_pdfs [".pdf"] true Scenario.after_two_pdfs).2).
  vm_compute. reflexivity.
Defined.

(** [accepted_batch_adds_one_point_per_chunk] on the two PDFs. *)
Lemma two_pdfs_give_two_points :
  exists st s' added,
    Scenario.run Scenario.two_pdfs [".pdf"] false Scenario.empty_sys = (Returned st, s') /\
    Ingest.points_of "my_documents" s' = added /\
    map (fun p => page_content (pt_payload p)) added = ["alpha"; "beta"] /\
    Ingest.total_chunks st = length added.
Proof.
  destruct (accepted_batch_adds_one_point_per_chunk Scenario.two_pdfs "my_documents"
              "data" [".pdf"] false Scenario.empty_sys ∅ eq_refl)
    as (st & s' & added & Hrun & Hpoints & Hpayload & _ & Htotal).
  - vm_compute. intros H; discriminate H.
  - reflexivity.
  - exists st, s', added. split; [exact Hrun|]. split; [exact Hpoints|].
    split; [|exact Htotal].
    rewrite <- (map_map pt_payload page_content), Hpayload. reflexivity.
Defined.

(** [run_without_candidates] on an empty folder. *)
Lemma empty_folder_run :
  exists s',
    Scenario.run Scenario.emptied_folder [".pdf"] false Scenario.empty_sys
    = (Returned Ingest.stats_init, s') /\
    manifest_file s' = NoFile.
Proof.
  destruct (run_without_candidates Scenario.emptied_folder "my_documents" "data"
              [".pdf"] false Scenario.empty_sys ∅ eq_refl eq_refl)
    as (s' & Hrun & Hm & _).
  exists s'. split; [exact Hrun | exact Hm].
Defined.

(** [errors_bounded_by_files] on the folder with an unreadable PDF. *)
Lemma one_error_for_three_files :
  (length (Ingest.processing_errors
             (Ingest.mkStats 3 3 0 0 2
                ["Error processing data/b.pdf: EOF marker not found"]))
   <= 3 + 1)%nat.
Proof.
  apply (errors_bounded_by_files Scenario.one_broken "my_documents" "data" [".pdf"]
           false Scenario.empty_sys
           (Scenario.run Scenario.one_broken [".pdf"] false Scenario.empty_sys).2).
  vm_compute. reflexivity.
Defined.


(** [other_file_is_dropped] on the text file. *)
Lemma text_file_is_dropped :
  Ingest.all_chunks
    (Ingest.file_step Scenario.notes_txt "data" false "data/notes.txt"
       (Ingest.initial_run Scenario.notes_txt "data" [".txt"] ∅)) = [] /\
  Ingest.processed_log
    (Ingest.file_step Scenario.notes_txt "data" false "data/notes.txt"
       (Ingest.initial_run Scenario.notes_txt "data" [".txt"] ∅)) = ∅.
Proof.
  apply (other_file_is_dropped Scenario.notes_txt "data" false "data/notes.txt"
           (Ingest.initial_run Scenario.notes_txt "data" [".txt"] ∅)).
  reflexivity.
Defined.

(** [ingest_only_appends] when an edited file is ingested again. *)
Lemma reingestion_appends :
  exists added,
    Ingest.points_of "my_documents"
      (Scenario.run Scenario.report_v2 [".pdf"] false
         (Scenario.run Scenario.report_v1 [".pdf"] false Scenario.empty_sys).2).2
    = (Ingest.points_of "my_documents"
         (Scenario.run Scenario.report_v1 [".pdf"] false Scenario.empty_sys).2
       ++ added)%list.
Proof.
  apply (ingest_only_appends Scenario.report_v2 "my_documents" "data" [".pdf"] false
           (Scenario.run Scenario.report_v1 [".pdf"] false Scenario.empty_sys).2
           (Scenario.run Scenario.report_v2 [".pdf"] false
              (Scenario.run Scenario.report_v1 [".pdf"] false Scenario.empty_sys).2).2
           (Ingest.mkStats 1 0 1 0 1 [])).
  vm_compute. reflexivity.
Defined.

Lemma some_environ_config :
  Config.from_env Scenario.table_int Scenario.table_float Scenario.some_environ
  = Returned Scenario.some_config.
Proof. vm_compute. reflexivity. Defined.

(** [from_env_unread_fields]: setting [RAG_LARGE_DOC_THRESHOLD] has no
    effect. *)
Lemma threshold_is_not_configurable :
  Config.large_doc_threshold Scenario.some_config = 5000 /\
  Config.chunk_size Scenario.some_config = 512.
Proof.
  destruct (from_env_unread_fields Scenario.table_int Scenario.table_float
              Scenario.some_environ Scenario.some_config some_environ_config)
    as (_ & _ & Hthreshold & _).
  split; [exact Hthreshold | reflexivity].
Defined.

(** [from_env_flags]: [TRUE] switches compression on, [yes] switches cost
    tracking off. *)
Lemma flags_of_some_environ :
  Config.use_compression Scenario.some_config = true /\
  Config.track_costs Scenario.some_config <> true.
Proof.
  destruct (from_env_flags Scenario.table_int Scenario.table_float
              Scenario.some_environ Scenario.some_config some_environ_config)
    as [Hcompression Hcosts].
  split.
  - apply Hcompression. right. exists "TRUE". split; reflexivity.
  - intros Hon. apply Hcosts in Hon as [Hunset | (v & Hv & Hlower)].
    + discriminate Hunset.
    + vm_compute in Hv. injection Hv as <-. discriminate Hlower.
Defined.

(** [from_env_without_variables] in an empty environment. *)
Lemma from_env_in_empty_environment :
  Config.from_env Scenario.table_int Scenario.table_float ∅
  = Returned Config.default_config.
Proof.
  apply from_env_without_variables; reflexivity.
Defined.

(** [source_list_is_capped]: a fifth source is not read, even one that
    could not be listed, and the four passages are listed. *)
Lemma fifth_source_is_not_read :
  Ui.source_info (Scenario.four_passages ++ [Scenario.odd_passage])
  = Ui.source_info Scenario.four_passages /\
  exists text, Ui.source_info Scenario.four_passages = Some (Returned text).
Proof.
  destruct (source_list_is_capped Scenario.four_passages [Scenario.odd_passage])
    as (Hcap & Hlisted & _); [simpl; lia|].
  split; [exact Hcap|]. apply Hlisted.
  intros doc n Hin. simpl in Hin.
  destruct Hin as [<-|[<-|[<-|[<-|[]]]]]; vm_compute; discriminate.
Defined.

(** [failed_query_lists_no_sources] after a time-out. *)
Lemma timeout_lists_no_sources :
  exists r,
    (RagChain.query Scenario.failing_chain "What is X?" (mkMemory [] "")).1 = Returned r /\
    Ui.source_info (RagChain.source_documents r) = None.
Proof.
  apply (failed_query_lists_no_sources Scenario.failing_chain "What is X?"
           (mkMemory [] "") (mkExc "APITimeoutError" "Request timed out.")).
  reflexivity.
Defined.

(** ** A candidate listed twice *)

Section RepeatedCandidate.

Import Ingest.

Variable w : World.
Variable folder_path : string.





End RepeatedCandidate.


(** * The run with its console and its manifest file *)

Section HostLoop.

Import Ingest IngestIO.

Variable w : World.
Variable h : Host.
Variable folder_path : string.
Variable force : bool.

Lemma print_line_stats (text : string) (r : RunIO) :
  io_stats (print_line h text r).2 = io_stats r /\
  io_log (print_line h text r).2 = io_log r /\
  io_chunks (print_line h text r).2 = io_chunks r.
Proof. unfold print_line. destruct (print_failure h text); now simpl. Qed.

(** The change check touches nothing but the three counters and the
    console: it adds one to one counter, unless it raises first. *)
Lemma change_check_counts_one (k hash : string) (r : RunIO) :
  let res := change_check h force k hash r in
  io_log res.2 = io_log r /\
  io_chunks res.2 = io_chunks r /\
  total_files (io_stats res.2) = total_files (io_stats r) /\
  total_chunks (io_stats res.2) = total_chunks (io_stats r) /\
  processing_errors (io_stats res.2) = processing_errors (io_stats r) /\
  (counted (io_stats r) <= counted (io_stats res.2) <= S (counted (io_stats r)))%nat /\
  (forall b, res.1 = Returned b -> counted (io_stats res.2) = S (counted (io_stats r))).
Proof.
  unfold change_check, bind, gets, lift, ret, modify, print_line, on_io_stats, counted.
  simpl.
  crush_match; repeat split; simpl; try lia; intros; try discriminate; try lia.
Qed.

Lemma io_metadata_state (p k hash : string) (docs : list Document) (r : RunIO) :
  (map_se (IngestIO.add_file_metadata w p k hash) docs r).2 = r.
Proof.
  induction docs as [|doc docs IH]; simpl; [reflexivity|].
  unfold bind at 1, IngestIO.add_file_metadata at 1, bind, lift, ret.
  destruct (getsize w p); [|reflexivity].
  destruct (map_se (IngestIO.add_file_metadata w p k hash) docs r) as [[docs'|e] r2];
    simpl in IH; subst r2; reflexivity.
Qed.

(** Loading a PDF leaves the statistics alone. *)
Lemma io_load_pdf_stats (p k hash : string) (r : RunIO) :
  io_stats (IngestIO.load_pdf w h p k hash r).2 = io_stats r.
Proof.
  unfold IngestIO.load_pdf, bind at 1, lift.
  destruct (pdf_load w p) as [docs|e]; [|reflexivity].
  unfold bind at 1.
  pose proof (io_metadata_state p k hash docs r) as Hst.
  destruct (map_se (IngestIO.add_file_metadata w p k hash) docs r) as [[docs'|e] r1];
    simpl in Hst; subst r1; [|reflexivity].
  unfold bind, modify, gets, lift, print_line, extend_chunks, set_log. simpl.
  crush_match; reflexivity.
Qed.

(** The body of an iteration: the error list and the totals are untouched,
    at most one counter goes up by one, and exactly one does when the body
    returns. *)
Lemma process_file_counts (path : string) (r : RunIO) :
  let res := IngestIO.process_file w h folder_path force path r in
  total_files (io_stats res.2) = total_files (io_stats r) /\
  total_chunks (io_stats res.2) = total_chunks (io_stats r) /\
  processing_errors (io_stats res.2) = processing_errors (io_stats r) /\
  (counted (io_stats r) <= counted (io_stats res.2) <= S (counted (io_stats r)))%nat /\
  (res.1 = Returned tt -> counted (io_stats res.2) = S (counted (io_stats r))).
Proof.
  unfold IngestIO.process_file, bind at 1, lift.
  destruct (get_file_hash w path) as [hash|e]; simpl; [|repeat split; try lia; discriminate].
  unfold bind.
  pose proof (change_check_counts_one (relpath w path folder_path) hash r) as Hc.
  cbv zeta in Hc.
  destruct (change_check h force (relpath w path folder_path) hash r) as [[skipped|e] r1];
    simpl in Hc; destruct Hc as (_ & _ & Ht & Hn & He & Hle & Hret).
  - specialize (Hret skipped eq_refl).
    destruct skipped; [unfold ret; simpl; repeat split; auto; lia|].
    destruct (endswith path ".pdf"); [|unfold ret; simpl; repeat split; auto; lia].
    pose proof (io_load_pdf_stats path (relpath w path folder_path) hash r1) as Hl.
    destruct (IngestIO.load_pdf w h path (relpath w path folder_path) hash r1) as [o r2].
    simpl in *. rewrite Hl. repeat split; auto; lia.
  - simpl. repeat split; auto; try lia; discriminate.
Qed.




(** No iteration touches the chunk count, on any console. *)
Lemma io_iteration_total_chunks (path : string) (r : RunIO) :
  total_chunks (io_stats (IngestIO.file_iteration w h folder_path force path r).2)
  = total_chunks (io_stats r).
Proof.
  pose proof (process_file_counts path r) as Hb. cbv zeta in Hb.
  unfold IngestIO.file_iteration, try_except.
  destruct (IngestIO.process_file w h folder_path force path r) as [[[]|e] r1];
    simpl in Hb |- *; destruct Hb as (_ & Hn & _); [exact Hn|].
  unfold bind, print_line.
  destruct (print_failure h (error_msg path e)); simpl; exact Hn.
Qed.

Lemma io_loop_total_chunks (files : list string) (r : RunIO) :
  total_chunks (io_stats (for_each (IngestIO.file_iteration w h folder_path force) files r).2)
  = total_chunks (io_stats r).
Proof.
  revert r. induction files as [|p files IH]; intros r; simpl; [reflexivity|].
  unfold bind.
  pose proof (io_iteration_total_chunks p r) as Hp.
  destruct (IngestIO.file_iteration w h folder_path force p r) as [[[]|e] r1];
    simpl in Hp |- *; [rewrite IH|]; exact Hp.
Qed.

(** The only change an iteration makes to a manifest that is a dictionary
    is to set the entry under the key of its file. *)
Lemma io_load_pdf_log (p k hash : string) (r : RunIO) (fields : gmap string Json) :
  io_log r = JObj fields ->
  io_log (IngestIO.load_pdf w h p k hash r).2 = JObj fields \/
  exists x, io_log (IngestIO.load_pdf w h p k hash r).2 = JObj (<[k := x]> fields).
Proof.
  intros Hlog.
  unfold IngestIO.load_pdf, bind, lift, modify, gets, print_line, extend_chunks, set_log.
  destruct (pdf_load w p) as [docs|e]; [|now left].
  pose proof (io_metadata_state p k hash docs r) as Hst.
  destruct (map_se (IngestIO.add_file_metadata w p k hash) docs r) as [[docs'|e] r1];
    simpl in Hst; subst r1; [|now left].
  simpl. rewrite Hlog. simpl. right. eexists.
  crush_match; reflexivity.
Qed.

Lemma io_process_file_log (path : string) (r : RunIO) (fields : gmap string Json) :
  io_log r = JObj fields ->
  io_log (IngestIO.process_file w h folder_path force path r).2 = JObj fields \/
  exists x, io_log (IngestIO.process_file w h folder_path force path r).2
            = JObj (<[relpath w path folder_path := x]> fields).
Proof.
  intros Hlog.
  unfold IngestIO.process_file, bind at 1, lift.
  destruct (get_file_hash w path) as [hash|e]; simpl; [|now left].
  unfold bind.
  pose proof (change_check_counts_one (relpath w path folder_path) hash r) as Hc.
  cbv zeta in Hc.
  destruct (change_check h force (relpath w path folder_path) hash r) as [[skipped|e] r1];
    simpl in Hc; destruct Hc as (Hl & _); rewrite Hlog in Hl.
  - destruct skipped; [now left|].
    destruct (endswith path ".pdf"); [|now left].
    now apply io_load_pdf_log.
  - now left.
Qed.

Lemma io_iteration_log (path : string) (r : RunIO) (fields : gmap string Json) :
  io_log r = JObj fields ->
  exists fields',
    io_log (IngestIO.file_iteration w h folder_path force path r).2 = JObj fields' /\
    (forall key, key <> relpath w path folder_path -> fields' !! key = fields !! key) /\
    (forall key, is_Some (fields !! key) -> is_Some (fields' !! key)).
Proof.
  intros Hlog.
  assert (exists fields',
             io_log (IngestIO.process_file w h folder_path force path r).2 = JObj fields' /\
             (forall key, key <> relpath w path folder_path ->
                          fields' !! key = fields !! key) /\
             (forall key, is_Some (fields !! key) -> is_Some (fields' !! key)))
    as (fields' & Hbody & Hother & Hkeep).
  { destruct (io_process_file_log path r fields Hlog) as [Hsame | (x & Hset)].
    - exists fields. auto.
    - exists (<[relpath w path folder_path := x]> fields). split; [exact Hset|]. split.
      + intros key Hne. now rewrite lookup_insert_ne.
      + intros key Hsome.
        destruct (decide (relpath w path folder_path = key)) as [->|Hne].
        * rewrite lookup_insert_eq. eauto.
        * now rewrite lookup_insert_ne. }
  exists fields'. split; [|split; assumption].
  unfold IngestIO.file_iteration, try_except.
  destruct (IngestIO.process_file w h folder_path force path r) as [[[]|e] r1];
    simpl in Hbody |- *; [exact Hbody|].
  unfold bind, print_line.
  destruct (print_failure h (error_msg path e)); simpl; exact Hbody.
Qed.

Lemma io_loop_log (files : list string) (r : RunIO) (fields : gmap string Json) :
  io_log r = JObj fields ->
  exists fields',
    io_log (for_each (IngestIO.file_iteration w h folder_path force) files r).2
    = JObj fields' /\
    (forall key, (forall p, In p files -> relpath w p folder_path <> key) ->
                 fields' !! key = fields !! key) /\
    (forall key, is_Some (fields !! key) -> is_Some (fields' !! key)).
Proof.
  revert r fields. induction files as [|p files IH]; intros r fields Hlog; simpl.
  - exists fields. auto.
  - destruct (io_iteration_log p r fields Hlog) as (fields1 & Hstep & Hother & Hkeep).
    unfold bind.
    destruct (IngestIO.file_iteration w h folder_path force p r) as [[[]|e] r1];
      simpl in Hstep |- *.
    + destruct (IH r1 fields1 Hstep) as (fields' & Hloop & Hother' & Hkeep').
      exists fields'. split; [exact Hloop|]. split.
      * intros key Hkey. rewrite Hother' by (intros q Hq; apply Hkey; now right).
        apply Hother. intros ->. apply (Hkey p); [now left | reflexivity].
      * intros key Hsome. apply Hkeep', Hkeep, Hsome.
    + exists fields1. split; [exact Hstep|]. split; [|exact Hkeep].
      intros key Hkey. apply Hother. intros ->. apply (Hkey p); [now left | reflexivity].
Qed.

End HostLoop.

Section HostRun.

Import Ingest IngestIO.

Variable w : World.
Variable h : Host.
Variable collection_name folder_path : string.
Variable file_extensions : list string.
Variable force : bool.

(** [create_collection_if_not_exists] never touches the manifest file and
    prints at most one line, about the collection. *)
Lemma io_create_collection (m : Machine) :
  let res := IngestIO.create_collection_if_not_exists w h collection_name m in
  manifest_text res.2 = manifest_text m /\
  (console res.2 = console m \/
   console res.2 = (console m ++ [created_msg collection_name])%list \/
   exists e, console res.2 = (console m ++ [creation_error_msg e])%list) /\
  (prints_succeed h -> res.1 = Returned tt).
Proof.
  unfold IngestIO.create_collection_if_not_exists, try_except, py_print.
  destruct (client_failure w) as [e|]; simpl.
  - destruct (print_failure h (creation_error_msg e)) eqn:Hp; simpl;
      repeat split; eauto. intros Hs. now rewrite Hs in Hp.
  - destruct (collections m !! collection_name); simpl; [repeat split; auto|].
    destruct (print_failure h (created_msg collection_name)) as [e|] eqn:Hp;
      simpl; [|repeat split; auto].
    destruct (print_failure h (creation_error_msg e)) eqn:Hp'; simpl;
      repeat split; eauto; intros Hs; now rewrite Hs in Hp.
Qed.

Lemma io_load_state (m : Machine) :
  IngestIO.load_processed_files_log h m
  = ((IngestIO.load_processed_files_log h m).1, m).
Proof. unfold IngestIO.load_processed_files_log. now destruct (manifest_text m). Qed.

Lemma io_load_at (m m0 : Machine) :
  manifest_text m0 = manifest_text m ->
  IngestIO.load_processed_files_log h m0
  = ((IngestIO.load_processed_files_log h m).1, m0).
Proof.
  unfold IngestIO.load_processed_files_log. intros ->.
  now destruct (manifest_text m).
Qed.

(** The run, statement by statement. *)
Lemma io_ingest_unfold (m : Machine) :
  IngestIO.ingest_documents_with_deduplication
    w h collection_name folder_path file_extensions force m
  = match IngestIO.create_collection_if_not_exists w h collection_name m with
    | (Raised e, m1) => (Raised e, m1)
    | (Returned _, m1) =>
        match (IngestIO.load_processed_files_log h m).1 with
        | Raised e => (Raised e, m1)
        | Returned v =>
            match file_loop w h folder_path file_extensions force v with
            | (Raised e, r) => (Raised e, after_loop m1 r)
            | (Returned _, r) =>
                match io_chunks r with
                | [] => (py_print h "No new documents to ingest.";;; ret (io_stats r))%se
                          (after_loop m1 r)
                | _ :: _ => IngestIO.ingest_batch w h collection_name r (after_loop m1 r)
                end
            end
        end
    end.
Proof.
  pose proof (io_create_collection m) as (Hm1 & _). cbv zeta in Hm1.
  unfold IngestIO.ingest_documents_with_deduplication, bind at 1.
  destruct (IngestIO.create_collection_if_not_exists w h collection_name m) as [[[]|e] m1];
    simpl in Hm1 |- *; [|reflexivity].
  unfold bind at 1. rewrite (io_load_at m m1 Hm1).
  destruct (IngestIO.load_processed_files_log h m).1 as [v|e]; [|reflexivity].
  unfold bind at 1, run_loop.
  destruct (file_loop w h folder_path file_extensions force v) as [[[]|e] r];
    [|reflexivity].
  now destruct (io_chunks r).
Qed.

(** The final [try], case by case. *)
Lemma io_ingest_batch (r : RunIO) (m : Machine) :
  let res := IngestIO.ingest_batch w h collection_name r m in
  let text := json_dump h (io_log r) in
  (forall e, provider_failure w (io_chunks r) = Some e ->
     manifest_text res.2 = manifest_text m /\
     collections res.2 = collections m /\
     forall st, res.1 = Returned st ->
                st = append_error (qdrant_error_msg e) (io_stats r)) /\
  (manifest_text res.2 = manifest_text m \/
   (provider_failure w (io_chunks r) = None /\
    print_failure h (success_msg collection_name (length (io_chunks r))) = None /\
    write_failure w = None /\
    ((dump_failure h text = None /\ manifest_text res.2 = Some text) \/
     exists n e, dump_failure h text = Some (n, e) /\
                 manifest_text res.2 = Some (substring 0 n text)))) /\
  (prints_succeed h ->
   exists st, res.1 = Returned st /\
              total_files st = total_files (io_stats r) /\
              counted st = counted (io_stats r) /\
              exists more, processing_errors st
                           = (processing_errors (io_stats r) ++ more)%list).
Proof.
  unfold IngestIO.ingest_batch, try_except, bind, in_machine, in_stats, modify,
    IngestIO.Qdrant_from_documents, IngestIO.save_processed_files_log, py_print.
  simpl.
  destruct (provider_failure w (io_chunks r)) as [e|] eqn:Hprov; simpl.
  - destruct (print_failure h (qdrant_error_msg e)) eqn:Hp; simpl.
    + split; [intros e' He'; injection He' as <-; repeat split; intros; discriminate|].
      split; [now left|]. intros Hs. now rewrite Hs in Hp.
    + split; [intros e' He'; injection He' as <-; repeat split; intros st Hst; congruence|].
      split; [now left|]. intros _. eexists. split; [reflexivity|].
      repeat split. eexists. reflexivity.
  - split; [intros e He; discriminate|].
    destruct (print_failure h (success_msg collection_name (length (io_chunks r))))
      as [e|] eqn:Hok; simpl.
    { destruct (print_failure h (qdrant_error_msg e)) eqn:Hp; simpl;
        (split; [now left|]); intros Hs; now rewrite Hs in Hok. }
    destruct (write_failure w) as [e|] eqn:Hw; simpl.
    { destruct (print_failure h (qdrant_error_msg e)) eqn:Hp; simpl;
        (split; [now left|]); intros Hs; [now rewrite Hs in Hp|].
      eexists. split; [reflexivity|]. repeat split. eexists. reflexivity. }
    destruct (dump_failure h (json_dump h (io_log r))) as [[n e]|] eqn:Hd; simpl.
    + destruct (print_failure h (qdrant_error_msg e)) eqn:Hp; simpl;
        (split; [right; repeat split; auto; right; eauto|]);
        intros Hs; [now rewrite Hs in Hp|].
      eexists. split; [reflexivity|]. repeat split. eexists. reflexivity.
    + split; [right; repeat split; auto|].
      intros _. eexists. split; [reflexivity|]. repeat split.
      exists []. now rewrite app_nil_r.
Qed.


(** C3, as the code has it. If embedding or upserting the batch the loop
    accumulated fails, the manifest file keeps its text, so that a retry
    loads the same manifest and makes the same loop; no chunk is counted
    and the error is reported. In any run, the manifest file is written
    only when the loop came to its end with chunks, the upsert succeeded,
    its report was printed and the file could be opened; the file then
    holds the text of the loop's log, or the beginning of that text if the
    write fails on the way. *)
Theorem failed_batch_leaves_manifest (m : Machine) :
  let result := IngestIO.ingest_documents_with_deduplication
                  w h collection_name folder_path file_extensions force m in
  (forall v r e,
     IngestIO.load_processed_files_log h m = (Returned v, m) ->
     file_loop w h folder_path file_extensions force v = (Returned tt, r) ->
     provider_failure w (io_chunks r) = Some e ->
     manifest_text result.2 = manifest_text m /\
     IngestIO.load_processed_files_log h result.2 = (Returned v, result.2) /\
     forall st, result.1 = Returned st ->
                total_chunks st = 0%nat /\
                (io_chunks r <> [] -> qdrant_error_msg e ∈ processing_errors st)) /\
  (manifest_text result.2 = manifest_text m \/
   exists v r,
     IngestIO.load_processed_files_log h m = (Returned v, m) /\
     file_loop w h folder_path file_extensions force v = (Returned tt, r) /\
     io_chunks r <> [] /\
     provider_failure w (io_chunks r) = None /\
     print_failure h (success_msg collection_name (length (io_chunks r))) = None /\
     write_failure w = None /\
     let text := json_dump h (io_log r) in
     (dump_failure h text = None /\ manifest_text result.2 = Some text) \/
     exists n e, dump_failure h text = Some (n, e) /\
                 manifest_text result.2 = Some (substring 0 n text)).
Proof.
  intros result. subst result. rewrite io_ingest_unfold.
  pose proof (io_create_collection m) as (Hm1 & _). cbv zeta in Hm1.
  pose proof (io_load_state m) as Hstate.
  destruct (IngestIO.create_collection_if_not_exists w h collection_name m)
    as [[[]|e0] m1]; simpl in Hm1.
  2:{ split; [|now left]. intros v r e Hload _ _. simpl.
      split; [exact Hm1|]. split; [|intros st Hst; discriminate].
      rewrite (io_load_at m m1 Hm1). now rewrite Hload. }
  destruct (IngestIO.load_processed_files_log h m).1 as [v|e0] eqn:Hv.
  2:{ split; [|now left]. intros v r e Hload. rewrite Hload in Hstate. discriminate. }
  pose proof (io_loop_total_chunks w h folder_path force
                (all_files w folder_path file_extensions)
                (IngestIO.initial_run w folder_path file_extensions v)) as Hzero.
  fold (file_loop w h folder_path file_extensions force v) in Hzero.
  change (total_chunks (io_stats (IngestIO.initial_run w folder_path file_extensions v)))
    with 0%nat in Hzero.
  destruct (file_loop w h folder_path file_extensions force v) as [[[]|e0] r] eqn:Hloop;
    simpl in Hzero.
  2:{ split; [|now left]. intros v' r' e Hload Hr'. simpl.
      rewrite Hload in Hstate. injection Hstate as <-. rewrite Hloop in Hr'.
      discriminate. }
  assert (forall m2, manifest_text m2 = manifest_text m ->
                     IngestIO.load_processed_files_log h m2 = (Returned v, m2)) as Hreload.
  { intros m2 Hm2. rewrite (io_load_at m m2 Hm2). now rewrite Hv. }
  destruct (io_chunks r) as [|c cs] eqn:Hchunks.
  - assert (manifest_text
              ((py_print h "No new documents to ingest.";;; ret (io_stats r))%se
                 (after_loop m1 r)).2 = manifest_text m) as Hsame.
    { unfold bind, py_print.
      destruct (print_failure h "No new documents to ingest."); exact Hm1. }
    split; [|now left].
    intros v' r' e Hload Hr' Hfail.
    rewrite Hload in Hstate. injection Hstate as <-. rewrite Hloop in Hr'.
    injection Hr' as <-.
    split; [exact Hsame|]. split; [apply Hreload; exact Hsame|].
    intros st Hst. split; [|rewrite Hchunks; congruence].
    unfold bind, py_print in Hst.
    destruct (print_failure h "No new documents to ingest."); simpl in Hst;
      [discriminate|]. injection Hst as <-. exact Hzero.
  - pose proof (io_ingest_batch r (after_loop m1 r)) as (Hfailed & Hwritten & _).
    split.
    + intros v' r' e Hload Hr' Hfail.
      rewrite Hload in Hstate. injection Hstate as <-. rewrite Hloop in Hr'.
      injection Hr' as <-.
      destruct (Hfailed e Hfail) as (Hm2 & _ & Hst).
      simpl in Hm2.
      split; [congruence|]. split; [apply Hreload; congruence|].
      intros st Hret. rewrite (Hst st Hret). simpl.
      split; [exact Hzero|]. intros _.
      apply elem_of_app. right. now apply list_elem_of_singleton.
    + destruct Hwritten as [Hsame | (Hprov & Hok & Hw & Htext)].
      * left. simpl in Hsame. congruence.
      * right. exists v, r. split; [exact Hstate|]. split; [exact Hloop|].
        split; [rewrite Hchunks; discriminate|].
        repeat split; assumption.
Qed.

(** C7, as the code has it. A missing manifest file loads as the empty
    dictionary. An existing one loads as whatever reading it gives: the
    value [json.load] returns, of any shape, or the exception [open] or
    [json.load] raises; nothing checks the value, and the state, standard
    output included, is as it was. When reading raises, the run ends with
    that exception in the state [create_collection_if_not_exists] left: no
    file was examined, the manifest file has its text, and standard output
    has at most the line about the collection. *)
Theorem manifest_is_loaded_unchecked (m : Machine) :
  (manifest_text m = None ->
   IngestIO.load_processed_files_log h m = (Returned (JObj ∅), m)) /\
  (forall text, manifest_text m = Some text ->
     IngestIO.load_processed_files_log h m = (read_manifest h text, m)) /\
  (forall text e m1,
     manifest_text m = Some text ->
     read_manifest h text = Raised e ->
     IngestIO.create_collection_if_not_exists w h collection_name m = (Returned tt, m1) ->
     IngestIO.ingest_documents_with_deduplication
       w h collection_name folder_path file_extensions force m = (Raised e, m1) /\
     manifest_text m1 = Some text /\
     (console m1 = console m \/
      console m1 = (console m ++ [created_msg collection_name])%list \/
      exists e', console m1 = (console m ++ [creation_error_msg e'])%list)).
Proof.
  split; [|split].
  - intros Hm. unfold IngestIO.load_processed_files_log. now rewrite Hm.
  - intros text Hm. unfold IngestIO.load_processed_files_log. now rewrite Hm.
  - intros text e m1 Hm He Hcreate.
    pose proof (io_create_collection m) as (Hm1 & Hconsole & _).
    cbv zeta in Hm1, Hconsole. rewrite Hcreate in Hm1, Hconsole. simpl in Hm1, Hconsole.
    rewrite io_ingest_unfold, Hcreate.
    unfold IngestIO.load_processed_files_log. rewrite Hm, He. simpl.
    split; [reflexivity|]. split; [congruence | exact Hconsole].
Qed.

(** X10: the loop never removes a manifest entry. From a manifest that is
    a dictionary, the log the loop ends with, which is the one handed to
    [save_processed_files_log], is a dictionary with every key it had, and
    the entry under a key that no candidate file has is the one that was
    loaded. *)
Theorem loop_keeps_manifest_entries (fields : gmap string Json) :
  exists fields',
    io_log (file_loop w h folder_path file_extensions force (JObj fields)).2
    = JObj fields' /\
    (forall key, is_Some (fields !! key) -> is_Some (fields' !! key)) /\
    (forall key,
       (forall p, In p (all_files w folder_path file_extensions) ->
                  relpath w p folder_path <> key) ->
       fields' !! key = fields !! key).
Proof.
  destruct (io_loop_log w h folder_path force (all_files w folder_path file_extensions)
              (IngestIO.initial_run w folder_path file_extensions (JObj fields))
              fields eq_refl) as (fields' & Hlog & Hother & Hkeep).
  exists fields'. split; [exact Hlog|]. split; assumption.
Qed.

End HostRun.

(** ** The two loops agree *)

Section Agreement.

Import Ingest IngestIO.

Variable w : World.
Variable h : Host.
Variable folder_path : string.
Variable force : bool.

Lemma encode_entry_hash (e : LogEntry) :
  py_get h (encode_entry e) "hash" = Returned (JStr <$> entry_hash e).
Proof.
  destruct e as [[hash|] [date|] [n|]]; reflexivity.
Qed.

Lemma is_text_hash (hash : string) (stored : option string) :
  from_option (is_text hash) false (JStr <$> stored)
  = bool_decide (stored = Some hash).
Proof.
  case_bool_decide as Hd; destruct stored as [s|]; try discriminate; try reflexivity.
  - injection Hd as ->. apply String.eqb_refl.
  - change ((s =? hash)%string = false).
    destruct (String.eqb_spec s hash) as [->|Hne]; [now destruct Hd | reflexivity].
Qed.

Lemma metadata_outcomes (p k hash : string) (docs : list Document) (r : Run) (r' : RunIO) :
  (map_se (IngestIO.add_file_metadata w p k hash) docs r').1
  = (map_se (Ingest.add_file_metadata w p k hash) docs r).1.
Proof.
  induction docs as [|doc docs IH]; simpl; [reflexivity|].
  unfold bind at 1 3, IngestIO.add_file_metadata at 1, Ingest.add_file_metadata at 1,
    bind, lift, ret.
  destruct (getsize w p); [|reflexivity].
  pose proof (io_metadata_state w p k hash docs r') as Hio.
  pose proof (map_se_metadata_state w p k hash docs r) as Hpure.
  destruct (map_se (IngestIO.add_file_metadata w p k hash) docs r') as [[ds|e] r1];
    destruct (map_se (Ingest.add_file_metadata w p k hash) docs r) as [[ds'|e'] r2];
    simpl in *; congruence.
Qed.

Lemma load_pdf_unfold (p k hash : string) (r : Run) :
  Ingest.load_pdf w p k hash r
  = match pdf_load w p with
    | Raised e => (Raised e, r)
    | Returned docs =>
        match (map_se (Ingest.add_file_metadata w p k hash) docs r).1 with
        | Raised e => (Raised e, r)
        | Returned docs' =>
            let chunks := enhanced_text_splitting w docs' in
            (Returned tt,
             mkRun (<[k := mkEntry (Some hash) (Some (now_isoformat w))
                                   (Some (length chunks))]> (processed_log r))
                   (all_chunks r ++ chunks)%list
                   (stats r))
        end
    end.
Proof.
  unfold Ingest.load_pdf, bind at 1, lift.
  destruct (pdf_load w p) as [docs|e]; [|reflexivity].
  unfold bind.
  pose proof (map_se_metadata_state w p k hash docs r) as Hpure.
  destruct (map_se (Ingest.add_file_metadata w p k hash) docs r) as [[ds|e] r1];
    simpl in Hpure |- *; subst r1; reflexivity.
Qed.

Lemma io_load_pdf_unfold (p k hash : string) (r : RunIO) (fields : gmap string Json) :
  prints_succeed h ->
  io_log r = JObj fields ->
  IngestIO.load_pdf w h p k hash r
  = match pdf_load w p with
    | Raised e => (Raised e, r)
    | Returned docs =>
        match (map_se (IngestIO.add_file_metadata w p k hash) docs r).1 with
        | Raised e => (Raised e, r)
        | Returned docs' =>
            let chunks := enhanced_text_splitting w docs' in
            (Returned tt,
             mkRunIO (JObj (<[k := entry_json hash (now_isoformat w) (length chunks)]> fields))
                     (io_chunks r ++ chunks)%list
                     (io_stats r)
                     (io_printed r
                      ++ ["Processed " ++ k ++ ": "
                          ++ Ui.str_int (Z.of_nat (length chunks)) ++ " chunks"]%string)%list)
        end
    end.
Proof.
  intros Hprint Hlog.
  unfold IngestIO.load_pdf, bind at 1, lift.
  destruct (pdf_load w p) as [docs|e]; [|reflexivity].
  unfold bind at 1.
  pose proof (io_metadata_state w p k hash docs r) as Hio.
  destruct (map_se (IngestIO.add_file_metadata w p k hash) docs r) as [[ds|e] r1];
    simpl in Hio |- *; subst r1; [|reflexivity].
  unfold bind, modify, gets, lift, print_line. simpl. rewrite Hlog. simpl.
  rewrite Hprint. reflexivity.
Qed.

Lemma load_pdf_agrees (p k hash : string) (r : Run) (printed : list string) :
  prints_succeed h ->
  exists printed',
    IngestIO.load_pdf w h p k hash (encode_run r printed)
    = ((Ingest.load_pdf w p k hash r).1,
       encode_run (Ingest.load_pdf w p k hash r).2 printed').
Proof.
  intros Hprint.
  rewrite load_pdf_unfold,
    (io_load_pdf_unfold p k hash (encode_run r printed)
       (encode_entry <$> processed_log r) Hprint eq_refl).
  destruct (pdf_load w p) as [docs|e]; [|exists printed; reflexivity].
  rewrite (metadata_outcomes p k hash docs r (encode_run r printed)).
  destruct (map_se (Ingest.add_file_metadata w p k hash) docs r).1 as [ds|e];
    [|exists printed; reflexivity].
  eexists. unfold encode_run, encode_log. simpl. rewrite fmap_insert. reflexivity.
Qed.

(** One iteration of [IngestIO]'s loop, on a console that accepts every
    line and from a manifest that is a dictionary of entries, is one
    iteration of [Ingest]'s loop. *)
Lemma iteration_agrees (path : string) (r : Run) (printed : list string) :
  prints_succeed h ->
  exists printed',
    IngestIO.file_iteration w h folder_path force path (encode_run r printed)
    = (Returned tt, encode_run (file_step w folder_path force path r) printed').
Proof.
  intros Hprint.
  unfold IngestIO.file_iteration, try_except, IngestIO.process_file, file_step,
    bind at 1, lift.
  destruct (get_file_hash w path) as [hash|e].
  2:{ unfold bind, print_line. rewrite Hprint. simpl. eexists. reflexivity. }
  set (k := relpath w path folder_path).
  assert (forall (r1 : Run) (out : list string),
            exists printed',
              (if endswith path ".pdf"
               then IngestIO.load_pdf w h path k hash
               else ret tt) (encode_run r1 out)
              = (((if endswith path ".pdf" then Ingest.load_pdf w path k hash else ret tt)
                    r1).1,
                 encode_run
                   ((if endswith path ".pdf" then Ingest.load_pdf w path k hash else ret tt)
                      r1).2 printed')) as Hrest.
  { intros r1 out. destruct (endswith path ".pdf").
    - apply load_pdf_agrees. exact Hprint.
    - exists out. reflexivity. }
  (* what remains once the file is counted as new or updated *)
  assert (forall (f : Stats -> Stats) (out : list string),
            exists printed',
              match (if endswith path ".pdf"
                     then IngestIO.load_pdf w h path k hash
                     else ret tt) (encode_run (on_stats f r) out) with
              | (Returned a, s') => (Returned a, s')
              | (Raised e, s') =>
                  (print_line h (error_msg path e);;;
                   modify (on_io_stats (append_error (error_msg path e))))%se s'
              end
              = (Returned tt,
                 encode_run
                   (if endswith path ".pdf"
                    then match Ingest.load_pdf w path k hash (on_stats f r) with
                         | (Returned _, r2) => r2
                         | (Raised e, r2) => on_stats (append_error (error_msg path e)) r2
                         end
                    else on_stats f r) printed')) as Hcont.
  { intros f out. destruct (Hrest (on_stats f r) out) as (out' & ->).
    destruct (endswith path ".pdf"); [|exists out'; reflexivity].
    destruct (Ingest.load_pdf w path k hash (on_stats f r)) as [[[]|e] r2]; simpl.
    - exists out'. reflexivity.
    - unfold bind, print_line. rewrite Hprint. simpl. eexists. reflexivity. }
  unfold change_check, bind, gets, lift, ret, modify, decide_file.
  change (io_log (encode_run r printed)) with (encode_log (processed_log r)).
  destruct force; simpl.
  - unfold print_line. rewrite Hprint. simpl.
    destruct (Hcont incr_new (printed ++ ["Processing new file: " ++ k]%string)%list)
      as (out' & Heq).
    exists out'. destruct (processed_log r !! k); exact Heq.
  - pose proof (lookup_fmap encode_entry (processed_log r) k) as Hlk.
    rewrite !Hlk.
    destruct (processed_log r !! k) as [entry|] eqn:Hk; cbn -[py_get encode_entry].
    + rewrite encode_entry_hash. cbn -[from_option]. rewrite is_text_hash.
      destruct (decide (entry_hash entry = Some hash)) as [Hsame|Hdiff];
        [rewrite bool_decide_eq_true_2 by assumption
        |rewrite bool_decide_eq_false_2 by assumption];
        unfold print_line; rewrite Hprint; simpl.
      * eexists. reflexivity.
      * apply (Hcont incr_updated).
    + unfold print_line. rewrite Hprint. simpl. apply (Hcont incr_new).
Qed.

(** The loop of [IngestIO], on a console that accepts every line and from
    a manifest that is a dictionary of entries, comes to its end in the
    state the loop of [Ingest] computes. *)
Theorem loop_agrees (files : list string) (r : Run) (printed : list string) :
  prints_succeed h ->
  exists printed',
    for_each (IngestIO.file_iteration w h folder_path force) files (encode_run r printed)
    = (Returned tt, encode_run (Ingest.run_files w folder_path force files r) printed').
Proof.
  intros Hprint. revert r printed.
  induction files as [|p files IH]; intros r printed; simpl.
  - exists printed. reflexivity.
  - destruct (iteration_agrees p r printed Hprint) as (out & Hstep).
    unfold bind. rewrite Hstep, run_files_cons. apply IH.
Qed.

End Agreement.

Section RunAgreement.

Import Ingest IngestIO.

Variable w : World.
Variable h : Host.
Variable collection_name folder_path : string.
Variable file_extensions : list string.
Variable force : bool.

Lemma create_collection_agrees (m : Machine) (s : Sys) :
  prints_succeed h ->
  represents h m s ->
  exists m1 s1,
    IngestIO.create_collection_if_not_exists w h collection_name m = (Returned tt, m1) /\
    Ingest.create_collection_if_not_exists w collection_name s = (Returned tt, s1) /\
    represents h m1 s1.
Proof.
  intros Hprint (Hcol & Hman).
  unfold IngestIO.create_collection_if_not_exists, Ingest.create_collection_if_not_exists,
    try_except, py_print.
  destruct (client_failure w) as [e|].
  - rewrite Hprint. eexists _, _. split; [reflexivity|]. split; [reflexivity|].
    split; simpl; assumption.
  - rewrite Hcol. destruct (qdrant s !! collection_name).
    + eexists _, _. split; [reflexivity|]. split; [reflexivity|].
      split; simpl; assumption.
    + rewrite Hprint. eexists _, _. split; [reflexivity|]. split; [reflexivity|].
      split; simpl; [reflexivity | exact Hman].
Qed.

Lemma pure_ingest_unfold (s : Sys) :
  Ingest.ingest_documents_with_deduplication
    w collection_name folder_path file_extensions force s
  = let s1 := (Ingest.create_collection_if_not_exists w collection_name s).2 in
    match (Ingest.load_processed_files_log s).1 with
    | Raised e => (Raised e, s1)
    | Returned log =>
        let r := Ingest.run_loop w folder_path file_extensions force log in
        match all_chunks r with
        | [] => (Returned (stats r), s1)
        | _ :: _ => Ingest.ingest_batch w collection_name r s1
        end
    end.
Proof.
  destruct (create_collection_manifest w collection_name s) as (s1 & Hc & Hman & _).
  unfold Ingest.ingest_documents_with_deduplication.
  rewrite (bind_returned _ _ _ _ _ Hc), Hc. simpl.
  unfold bind, Ingest.load_processed_files_log. rewrite Hman.
  destruct (manifest_file s) as [|e|log]; simpl; try reflexivity.
  - now destruct (all_chunks (Ingest.run_loop w folder_path file_extensions force ∅)).
  - now destruct (all_chunks (Ingest.run_loop w folder_path file_extensions force log)).
Qed.

(** The whole run of [IngestIO], on a console that accepts every line and
    a disk that takes every write, is the run of [Ingest]: same outcome,
    and a final state that stands for the final state of [Ingest]. *)
Theorem run_agrees (m : Machine) (s : Sys) :
  prints_succeed h ->
  disk_works h ->
  represents h m s ->
  exists o m' s',
    IngestIO.ingest_documents_with_deduplication
      w h collection_name folder_path file_extensions force m = (o, m') /\
    Ingest.ingest_documents_with_deduplication
      w collection_name folder_path file_extensions force s = (o, s') /\
    represents h m' s'.
Proof.
  intros Hprint (Hdump & Hround) Hrep.
  destruct (create_collection_agrees m s Hprint Hrep) as (m1 & s1 & Hc & Hc' & Hrep1).
  rewrite io_ingest_unfold, Hc, pure_ingest_unfold, Hc'. cbv zeta. simpl.
  destruct Hrep as (Hcol & Hman).
  assert (forall log : gmap string LogEntry,
            exists o m' s',
              match file_loop w h folder_path file_extensions force (encode_log log) with
              | (Raised e, r) => (Raised e, after_loop m1 r)
              | (Returned _, r) =>
                  match io_chunks r with
                  | [] => (py_print h "No new documents to ingest.";;;
                           ret (io_stats r))%se (after_loop m1 r)
                  | _ :: _ => IngestIO.ingest_batch w h collection_name r
                                (after_loop m1 r)
                  end
              end = (o, m') /\
              match all_chunks (Ingest.run_loop w folder_path file_extensions force log) with
              | [] => (Returned (stats (Ingest.run_loop w folder_path file_extensions force log)),
                       s1)
              | _ :: _ => Ingest.ingest_batch w collection_name
                            (Ingest.run_loop w folder_path file_extensions force log) s1
              end = (o, s') /\
              represents h m' s') as Hgo.
  { intros log.
    destruct (loop_agrees w h folder_path force
                (all_files w folder_path file_extensions)
                (Ingest.initial_run w folder_path file_extensions log) [] Hprint)
      as (out & Hloop).
    change (encode_run (Ingest.initial_run w folder_path file_extensions log) [])
      with (IngestIO.initial_run w folder_path file_extensions (encode_log log)) in Hloop.
    unfold file_loop. rewrite Hloop.
    fold (Ingest.run_loop w folder_path file_extensions force log).
    set (r := Ingest.run_loop w folder_path file_extensions force log).
    change (io_chunks (encode_run r out)) with (all_chunks r).
    destruct Hrep1 as (Hcol1 & Hrep1).
    destruct (all_chunks r) as [|c cs] eqn:Hchunks.
    - unfold bind, py_print. rewrite Hprint. simpl.
      eexists _, _, _. split; [reflexivity|]. split; [reflexivity|].
      split; [exact Hcol1 | exact Hrep1].
    - unfold IngestIO.ingest_batch, Ingest.ingest_batch, try_except, bind, in_machine,
        in_stats, modify, IngestIO.Qdrant_from_documents, Ingest.Qdrant_from_documents,
        IngestIO.save_processed_files_log, Ingest.save_processed_files_log, py_print.
      simpl. rewrite Hchunks.
      destruct (provider_failure w (c :: cs)) as [e|]; simpl.
      + rewrite Hprint. simpl. eexists _, _, _. split; [reflexivity|].
        split; [reflexivity|]. split; [exact Hcol1 | exact Hrep1].
      + rewrite Hprint. simpl.
        destruct (write_failure w) as [e|]; simpl.
        * rewrite Hprint. simpl. eexists _, _, _. split; [reflexivity|].
          split; [reflexivity|]. split; simpl; [now rewrite Hcol1 | exact Hrep1].
        * rewrite Hdump. simpl. eexists _, _, _. split; [reflexivity|].
          split; [reflexivity|]. split; simpl; [now rewrite Hcol1|].
          eexists. split; [reflexivity | apply Hround]. }
  unfold IngestIO.load_processed_files_log, Ingest.load_processed_files_log.
  destruct (manifest_file s) as [|e|log].
  - rewrite Hman. simpl.
    assert (JObj ∅ = encode_log ∅) as -> by (unfold encode_log; now rewrite fmap_empty).
    apply (Hgo ∅).
  - destruct Hman as (text & Htext & Hbad). rewrite Htext, Hbad. simpl.
    eexists _, _, _. split; [reflexivity|]. split; [reflexivity | exact Hrep1].
  - destruct Hman as (text & Htext & Hgood). rewrite Htext, Hgood. simpl.
    apply (Hgo log).
Qed.

End RunAgreement.




(** [failed_batch_leaves_manifest] with the vector store down: nothing is
    written where the manifest would be, and the error is reported. *)
Lemma failed_batch_leaves_manifest_store_down :
  exists st m',
    HostScenario.run Scenario.store_down HostScenario.plain_host [".pdf"] false HostScenario.fresh_machine
    = (Returned st, m') /\
    IngestIO.manifest_text m' = None /\
    "Error ingesting into Qdrant: connection refused" ∈ Ingest.processing_errors st.
Proof.
  pose proof (failed_batch_leaves_manifest Scenario.store_down HostScenario.plain_host "my_documents"
                "data" [".pdf"] false HostScenario.fresh_machine) as H.
  cbv zeta in H. destruct H as [Hfail _].
  specialize (Hfail (JObj ∅)
                (IngestIO.file_loop Scenario.store_down HostScenario.plain_host "data" [".pdf"] false
                   (JObj ∅)).2
                (mkExc "ResponseHandlingException" "connection refused")
                eq_refl).
  destruct Hfail as (Hm & _ & Hst); [vm_compute; reflexivity | reflexivity |].
  fold (HostScenario.run Scenario.store_down HostScenario.plain_host [".pdf"] false HostScenario.fresh_machine)
    in Hm, Hst.
  destruct (HostScenario.run Scenario.store_down HostScenario.plain_host [".pdf"] false HostScenario.fresh_machine)
    as [[st|e] m'] eqn:Hrun; [|vm_compute in Hrun; discriminate].
  exists st, m'. split; [reflexivity|]. split; [exact Hm|].
  apply (Hst st eq_refl). vm_compute. discriminate.
Defined.

(** C3 fails on the code: a run in which one of three PDFs could not be
    read reports that error and still writes the manifest. *)
Lemma partial_run_writes_manifest :
  exists st m',
    HostScenario.run Scenario.one_broken HostScenario.plain_host [".pdf"] false HostScenario.fresh_machine
    = (Returned st, m') /\
    Ingest.processing_errors st = ["Error processing data/b.pdf: EOF marker not found"] /\
    IngestIO.manifest_text HostScenario.fresh_machine = None /\
    exists text, IngestIO.manifest_text m' = Some text.
Proof. eexists _, _. vm_compute. repeat split. eexists. reflexivity. Qed.

(** [manifest_is_loaded_unchecked] on a manifest file cut short: the run
    ends with the decoding error, having printed one line about the
    collection and nothing about the manifest. *)
Lemma manifest_is_loaded_unchecked_cut_short :
  exists m',
    HostScenario.run Scenario.two_pdfs HostScenario.plain_host [".pdf"] false HostScenario.broken_manifest
    = (Raised (HostScenario.decode_error
                 "Expecting property name enclosed in double quotes: line 1 column 2 (char 1)"),
       m') /\
    IngestIO.manifest_text m' = Some "{broken".
Proof.
  pose proof (manifest_is_loaded_unchecked Scenario.two_pdfs HostScenario.plain_host "my_documents"
                "data" [".pdf"] false HostScenario.broken_manifest) as (_ & _ & H).
  destruct (H "{broken" _ _ eq_refl eq_refl eq_refl) as (Hrun & Htext & _).
  eexists. split; [exact Hrun | exact Htext].
Defined.

(** C7 fails on the code: with a manifest file that is no JSON the run
    raises the decoding error instead of going on with an empty
    manifest. *)
Lemma broken_manifest_aborts_run :
  (HostScenario.run Scenario.two_pdfs HostScenario.plain_host [".pdf"] false HostScenario.broken_manifest).1
  = Raised (HostScenario.decode_error
              "Expecting property name enclosed in double quotes: line 1 column 2 (char 1)").
Proof. vm_compute. reflexivity. Qed.

(** A manifest file that holds a list: it loads without complaint; each
    PDF is counted as new and its chunks are sent, but recording it fails,
    and the list is written back. *)
Lemma list_manifest_is_accepted :
  exists st m',
    HostScenario.run Scenario.two_pdfs HostScenario.plain_host [".pdf"] false HostScenario.list_manifest
    = (Returned st, m') /\
    Ingest.new_files st = 2%nat /\
    Ingest.total_chunks st = 2%nat /\
    length (Ingest.processing_errors st) = 2%nat /\
    IngestIO.manifest_text m' = Some "[]".
Proof. eexists _, _. vm_compute. repeat split. Qed.

(** A disk that fills up while the manifest is written: the run returns,
    the chunks are stored, and the manifest file is left with the beginning
    of its text. *)
Lemma full_disk_truncates_manifest :
  exists st m',
    HostScenario.run Scenario.two_pdfs HostScenario.full_disk [".pdf"] false HostScenario.fresh_machine
    = (Returned st, m') /\
    Ingest.total_chunks st = 2%nat /\
    IngestIO.manifest_text m'
    = Some (substring 0 12 (IngestIO.json_dump HostScenario.full_disk
              (IngestIO.io_log (IngestIO.file_loop Scenario.two_pdfs HostScenario.full_disk "data"
                                  [".pdf"] false (JObj ∅)).2))).
Proof. eexists _, _. vm_compute. repeat split. Qed.

(** [loop_keeps_manifest_entries] on a manifest that knows a file which
    has left the folder and an older version of [a.pdf]: after the loop
    over the two PDFs of the folder, the entry of the absent file is as it
    was loaded. *)
Lemma entry_of_removed_file_stays :
  exists fields',
    IngestIO.io_log (IngestIO.file_loop Scenario.two_pdfs HostScenario.plain_host "data" [".pdf"] false
                       (JObj HostScenario.known_files)).2 = JObj fields' /\
    fields' !! "old.pdf"
    = Some (IngestIO.entry_json "md5-of-old" "2024-04-30T09:00:00" 3) /\
    is_Some (fields' !! "a.pdf").
Proof.
  destruct (loop_keeps_manifest_entries Scenario.two_pdfs HostScenario.plain_host "data" [".pdf"] false
              HostScenario.known_files) as (fields' & Hlog & Hkeep & Hother).
  exists fields'. split; [exact Hlog|]. split.
  - rewrite Hother; [vm_compute; reflexivity|].
    intros p Hin. vm_compute in Hin.
    destruct Hin as [<-|[<-|[]]]; vm_compute; discriminate.
  - apply Hkeep. vm_compute. eauto.
Defined.
